(** * htop-win: the cross-compilation build script [build-cross.py]

    A shallow embedding of the build orchestrator: the target table, the
    derivation of the per-target environment, the command runner, the
    prerequisite check, the toolchain installation, the artifact staging
    and [main], followed by the properties of the specification that were
    checked against it.

    Python values are modelled as follows.
    - [str] is [string]; the characters that occur are ASCII.
    - A [dict] used as an environment is a [gmap string string]; the
      [TARGETS] dict and the [results] dict of [main], whose iteration
      order matters, are association lists in insertion order.
    - A [pathlib.Path] is the list of its parts.
    - [int] is [Z].
    - A call that may raise returns a [result]; code that touches the
      operating system runs in the monad [M], which threads the state of
      the world and records what the script did as a list of events. *)

From Stdlib Require Import ZArith String Ascii List DecimalString Lia.
From stdpp Require Import base option list gmap strings.

Open Scope string_scope.
Open Scope Z_scope.

(** ** Strings *)

Module Str.

(** [s.replace(old, new)] for one-character [old] and [new]. *)
Fixpoint replace (old new : ascii) (s : string) : string :=
  match s with
  | EmptyString => EmptyString
  | String c s' =>
      String (if Ascii.eqb c old then new else c) (replace old new s')
  end.

Definition upper_ascii (c : ascii) : ascii :=
  let n := nat_of_ascii c in
  if ((97 <=? n) && (n <=? 122))%nat then ascii_of_nat (n - 32) else c.

(** [s.upper()] on ASCII text. *)
Fixpoint upper (s : string) : string :=
  match s with
  | EmptyString => EmptyString
  | String c s' => String (upper_ascii c) (upper s')
  end.

(** [sub in s]. *)
Fixpoint contains (sub s : string) : bool :=
  String.prefix sub s ||
  match s with
  | EmptyString => false
  | String _ s' => contains sub s'
  end.

(** [str(n)] for an [int]. *)
Definition of_Z (n : Z) : string := NilZero.string_of_int (Z.to_int n).

(** [sep.join(l)]. *)
Definition join (sep : string) (l : list string) : string :=
  String.concat sep l.

(** [c * n] for a one-character string [c]. *)
Fixpoint times (c : ascii) (n : nat) : string :=
  match n with
  | O => EmptyString
  | S n' => String c (times c n')
  end.

(** [s.split("/")]. *)
Fixpoint split_slash_aux (acc : string) (s : string) : list string :=
  match s with
  | EmptyString => [acc]
  | String c s' =>
      if Ascii.eqb c "/"%char then acc :: split_slash_aux EmptyString s'
      else split_slash_aux (acc +:+ String c EmptyString) s'
  end.

Definition split_slash (s : string) : list string :=
  split_slash_aux EmptyString s.

End Str.

(** ** Paths

    A [pathlib.PurePosixPath] is kept as its [parts]: ["/"] first when the
    path is absolute, then one entry per component.  Empty and ["."]
    components are dropped when a string is parsed, as pathlib does. *)

Definition Path := list string.

Module PathOps.

Definition keep_part (s : string) : bool :=
  negb (String.eqb s "" || String.eqb s ".").

(** [Path(s).parts]. *)
Definition parse (s : string) : Path :=
  let comps := List.filter keep_part (Str.split_slash s) in
  if String.prefix "/" s then "/" :: comps else comps.

(** [p / s]: an absolute [s] replaces [p], a relative one is appended. *)
Definition join (p : Path) (s : string) : Path :=
  if String.prefix "/" s then parse s else (p ++ parse s)%list.

(** [str(p)]. *)
Definition to_str (p : Path) : string :=
  match p with
  | [] => "."
  | root :: rest =>
      if String.eqb root "/" then "/" +:+ Str.join "/" rest
      else Str.join "/" p
  end.

End PathOps.

Notation "p // s" := (PathOps.join p s) (at level 40, left associativity).

(** ** Results of calls that may raise *)

Inductive exn : Type :=
| KeyError (key : string)
| OSError (what : string).

Inductive result (A : Type) : Type :=
| Ok (a : A)
| Raise (e : exn)
| SysExit (code : Z).

Arguments Ok {A} a.
Arguments Raise {A} e.
Arguments SysExit {A} code.

(** The status the interpreter hands to the operating system: [0] when
    the script runs to its end, the argument of [sys.exit], and [1] for an
    exception nobody caught. *)
Definition exit_status {A} (r : result A) : Z :=
  match r with
  | Ok _ => 0
  | Raise _ => 1
  | SysExit code => code
  end.

Definition rbind {A B} (r : result A) (k : A -> result B) : result B :=
  match r with
  | Ok a => k a
  | Raise e => Raise e
  | SysExit c => SysExit c
  end.

Notation "'let?' x ':=' r 'in' k" := (rbind r (fun x => k))
  (at level 10, x name, r at level 100, k at level 200).

(** [d[key]] on a dict. *)
Definition getitem (d : gmap string string) (key : string) : result string :=
  match d !! key with
  | Some v => Ok v
  | None => Raise (KeyError key)
  end.

(** ** Build configuration *)

Definition OUTPUT_DIR : Path := PathOps.parse "/mnt/c/code".

Definition LLVM_MINGW : Path := PathOps.parse "/root/toolchains/llvm-mingw/bin".

Record Target : Type := mkTarget {
  triple : string;
  cc : string;
  ar : string;
  linker : string;
  use_llvm_mingw : bool
}.

Definition TARGETS : list (string * Target) :=
  [ ("x64",
     {| triple := "x86_64-pc-windows-gnu";
        cc := "x86_64-w64-mingw32-gcc";
        ar := "x86_64-w64-mingw32-ar";
        linker := "x86_64-w64-mingw32-gcc";
        use_llvm_mingw := false |});
    ("arm64",
     {| triple := "aarch64-pc-windows-gnullvm";
        cc := "aarch64-w64-mingw32-clang";
        ar := "llvm-ar";
        linker := "aarch64-w64-mingw32-clang";
        use_llvm_mingw := true |}) ].

(** [d.get(key)] on a dict kept as an association list. *)
Fixpoint assoc {V} (d : list (string * V)) (key : string) : option V :=
  match d with
  | [] => None
  | (k, v) :: d' => if String.eqb k key then Some v else assoc d' key
  end.

(** [TARGETS[target_name]]. *)
Definition TARGETS_getitem (target_name : string) : result Target :=
  match assoc TARGETS target_name with
  | Some t => Ok t
  | None => Raise (KeyError target_name)
  end.

(** ** Environment for a target *)

Definition env_triple_of (t : Target) : string := Str.replace "-" "_" (triple t).

Definition cc_key (t : Target) : string := "CC_" +:+ env_triple_of t.
Definition ar_key (t : Target) : string := "AR_" +:+ env_triple_of t.
Definition linker_key (t : Target) : string :=
  "CARGO_TARGET_" +:+ Str.upper (env_triple_of t) +:+ "_LINKER".
Definition rustflags_key (t : Target) : string :=
  "CARGO_TARGET_" +:+ Str.upper (env_triple_of t) +:+ "_RUSTFLAGS".

Definition crt_static : string := "-C target-feature=+crt-static".

(** [get_env_for_target], with [os.environ] as the argument [environ]. *)
Definition get_env_for_target (environ : gmap string string)
    (target_name : string) : result (gmap string string) :=
  let? target := TARGETS_getitem target_name in
  let env := environ in
  let? env :=
    if use_llvm_mingw target then
      let? path := getitem env "PATH" in
      Ok (<["PATH" := PathOps.to_str LLVM_MINGW +:+ ":" +:+ path]> env)
    else Ok env in
  let env := <[cc_key target := cc target]> env in
  let env := <[ar_key target := ar target]> env in
  let env := <[linker_key target := linker target]> env in
  let env :=
    if Str.contains "gnullvm" (triple target) then
      <[rustflags_key target := crt_static]> env
    else env in
  Ok env.

(** ** The operating system

    What the script asks of its host: the values fixed when the module is
    loaded ([PROJECT_DIR], [CPU_COUNT], [os.environ], which the script
    never writes), and the calls whose answers depend on the state [W] of
    the machine.  Nothing is assumed about these calls, so a child process
    may end with any status, or not start at all, and may change the file
    system in any way. *)

Inductive spawn_outcome : Type :=
| Exited (returncode : Z)
| NotStarted (what : string).

Class Host (W : Type) : Type := {
  PROJECT_DIR : Path;
  CPU_COUNT : Z;
  os_environ : gmap string string;
  (** [shutil.which(name) is not None] *)
  os_which : W -> string -> bool;
  (** [p.exists()] *)
  os_exists : W -> Path -> bool;
  (** [subprocess.run(cmd, env=env, cwd=cwd)]: how the child ended. *)
  os_spawn : W -> list string -> gmap string string -> Path -> spawn_outcome * W;
  (** [p.mkdir(parents=True, exist_ok=True)]: the error, if any. *)
  os_mkdir : W -> Path -> option string * W;
  (** [shutil.copy2(src, dst)]: the error, if any. *)
  os_copy2 : W -> Path -> Path -> option string * W;
  (** [p.stat().st_size], [None] when [stat] raises. *)
  os_stat_size : W -> Path -> option Z;
  (** The [MemTotal:] figure of [/proc/meminfo] in kB, [None] when the
      file cannot be read or parsed or has no such line. *)
  os_memtotal_kb : W -> option Z;
  (** The renderings [f"{kb / (1024 * 1024):.1f}"] and
      [f"{size / (1024 * 1024):.2f}"] of floating-point quotients. *)
  fmt_gb : Z -> string;
  fmt_mb : Z -> string
}.

(** What the script did, in order, with the answer it got. *)
Inductive event : Type :=
| EPrint (line : string)
| EWhich (name : string) (found : bool)
| EExists (p : Path) (present : bool)
| ESpawn (cmd : list string) (env : gmap string string) (cwd : Path)
         (out : spawn_outcome)
| EMkdir (p : Path) (err : option string)
| ECopy (src dst : Path) (err : option string)
| EStat (p : Path) (size : option Z).

Definition M (W A : Type) : Type := W -> result A * W * list event.

Definition ret {W A} (a : A) : M W A := fun w => (Ok a, w, []).

Definition bind {W A B} (m : M W A) (k : A -> M W B) : M W B :=
  fun w =>
    match m w with
    | (Ok a, w1, t1) =>
        match k a w1 with
        | (r, w2, t2) => (r, w2, (t1 ++ t2)%list)
        end
    | (Raise e, w1, t1) => (Raise e, w1, t1)
    | (SysExit c, w1, t1) => (SysExit c, w1, t1)
    end.

Notation "'let*' x ':=' m 'in' k" := (bind m (fun x => k))
  (at level 10, x name, m at level 100, k at level 200).
Notation "m ';;' k" := (bind m (fun _ => k))
  (at level 100, k at level 200, right associativity).

(** A call that may raise, made from code that runs in [M]. *)
Definition lift {W A} (r : result A) : M W A := fun w => (r, w, []).

Definition raise {W A} (e : exn) : M W A := lift (Raise e).

(** [sys.exit(code)]. *)
Definition sys_exit {W A} (code : Z) : M W A := lift (SysExit code).

Definition result_of {W A} (x : result A * W * list event) : result A := x.1.1.
Definition world_of {W A} (x : result A * W * list event) : W := x.1.2.
Definition trace_of {W A} (x : result A * W * list event) : list event := x.2.

Definition nl : string := String (ascii_of_nat 10) EmptyString.

Definition rule : string := Str.times "=" 60.

Section Script.

Context {W : Type} `{Host W}.

Definition TARGET_DIR : Path := PROJECT_DIR // "target".

Definition print (line : string) : M W unit :=
  fun w => (Ok tt, w, [EPrint line]).

Definition which (name : string) : M W bool :=
  fun w => let found := os_which w name in (Ok found, w, [EWhich name found]).

Definition exists_ (p : Path) : M W bool :=
  fun w => let present := os_exists w p in (Ok present, w, [EExists p present]).

Definition spawn (cmd : list string) (env : gmap string string) (cwd : Path)
    : M W spawn_outcome :=
  fun w =>
    match os_spawn w cmd env cwd with
    | (out, w') => (Ok out, w', [ESpawn cmd env cwd out])
    end.

Definition mkdir (p : Path) : M W unit :=
  fun w =>
    match os_mkdir w p with
    | (None, w') => (Ok tt, w', [EMkdir p None])
    | (Some what, w') => (Raise (OSError what), w', [EMkdir p (Some what)])
    end.

Definition copy2 (src dst : Path) : M W unit :=
  fun w =>
    match os_copy2 w src dst with
    | (None, w') => (Ok tt, w', [ECopy src dst None])
    | (Some what, w') => (Raise (OSError what), w', [ECopy src dst (Some what)])
    end.

Definition stat_size (p : Path) : M W Z :=
  fun w =>
    match os_stat_size w p with
    | Some size => (Ok size, w, [EStat p (Some size)])
    | None => (Raise (OSError "stat"), w, [EStat p None])
    end.

(** [run_command].  [subprocess.run(..., check=True)] raises
    [CalledProcessError] on a non-zero return code, which is the one
    exception caught here; an [OSError] from a child that could not be
    started is not. *)
Definition run_command (cmd : list string)
    (env : option (gmap string string)) (cwd : option Path) : M W bool :=
  print (nl +:+ ">>> Running: " +:+ Str.join " " cmd);;
  let env' :=
    match env with
    | Some e => if decide (e = ∅) then os_environ else e
    | None => os_environ
    end in
  let cwd' := default PROJECT_DIR cwd in
  let* out := spawn cmd env' cwd' in
  match out with
  | Exited returncode =>
      if returncode =? 0 then ret true
      else
        print ("Error: Command failed with exit code " +:+ Str.of_Z returncode);;
        ret false
  | NotStarted what => raise (OSError what)
  end.

Definition check_prerequisites : M W bool :=
  print "Checking prerequisites...";;
  let* cargo := which "cargo" in
  if negb cargo then
    print "Error: cargo not found";;
    ret false
  else
  let* gcc := which "x86_64-w64-mingw32-gcc" in
  if negb gcc then
    print "Error: x86_64-w64-mingw32-gcc not found";;
    print "Install with: apt install gcc-mingw-w64-x86-64";;
    ret false
  else
  let aarch64_clang := LLVM_MINGW // "aarch64-w64-mingw32-clang" in
  let* present := exists_ aarch64_clang in
  if negb present then
    print ("Error: llvm-mingw not found at " +:+ PathOps.to_str LLVM_MINGW);;
    print "ARM64 builds will not be available";;
    ret false
  else
  print "All prerequisites met.";;
  ret true.

(** The loop of [ensure_targets] over [TARGETS.items()]. *)
Fixpoint ensure_targets_loop (items : list (string * Target)) : M W bool :=
  match items with
  | [] => ret true
  | (name, target) :: rest =>
      let cmd := ["rustup"; "target"; "add"; triple target] in
      let* ok := run_command cmd None None in
      if negb ok then
        print ("Failed to add target " +:+ triple target);;
        ret false
      else ensure_targets_loop rest
  end.

Definition ensure_targets : M W bool :=
  print (nl +:+ "Ensuring Rust targets are installed...");;
  ensure_targets_loop TARGETS.

Definition get_build_output_path (target_name : string) : result Path :=
  let? target := TARGETS_getitem target_name in
  Ok (TARGET_DIR // triple target // "release" // "htop-win.exe").

Definition get_final_output_path (target_name : string) : Path :=
  OUTPUT_DIR // ("htop-win-" +:+ target_name +:+ ".exe").

Definition copy_to_output (target_name : string) : M W (option Path) :=
  let* build_path := lift (get_build_output_path target_name) in
  let final_path := get_final_output_path target_name in
  let* present := exists_ build_path in
  if negb present then
    print ("Error: Built executable not found at " +:+ PathOps.to_str build_path);;
    ret None
  else
  mkdir OUTPUT_DIR;;
  print (nl +:+ ">>> Copying " +:+ PathOps.to_str build_path +:+ " -> "
         +:+ PathOps.to_str final_path);;
  copy2 build_path final_path;;
  ret (Some final_path).

Definition build_target (target_name : string) (jobs : option Z) : M W bool :=
  let* target := lift (TARGETS_getitem target_name) in
  let num_jobs := default CPU_COUNT jobs in
  print (nl +:+ rule);;
  print ("Building for " +:+ target_name +:+ " (" +:+ triple target +:+ ")");;
  print ("Using " +:+ Str.of_Z num_jobs +:+ " parallel jobs");;
  print rule;;
  let* env := lift (get_env_for_target os_environ target_name) in
  let env := <["CARGO_BUILD_JOBS" := Str.of_Z num_jobs]> env in
  let cmd := ["cargo"; "build"; "--release"; "--target"; triple target;
              "-j"; Str.of_Z num_jobs] in
  run_command cmd (Some env) (Some PROJECT_DIR).

Definition check_target (target_name : string) : M W bool :=
  let* target := lift (TARGETS_getitem target_name) in
  print (nl +:+ rule);;
  print ("Checking " +:+ target_name +:+ " (" +:+ triple target +:+ ")");;
  print rule;;
  let* env := lift (get_env_for_target os_environ target_name) in
  let cmd := ["cargo"; "check"; "--target"; triple target] in
  run_command cmd (Some env) (Some PROJECT_DIR).

(** [get_system_memory_gb]: [Some kb] stands for the float
    [kb / (1024 * 1024)], [None] for the [0] returned when anything in
    the [try] block raised or no line matched. *)
Definition get_system_memory_gb : M W (option Z) :=
  fun w => (Ok (os_memtotal_kb w), w, []).

(** ** [main]

    The command line as [argparse] hands it over: [choices] leaves three
    actions and two targets, [--jobs] is an [int] or absent. *)

Inductive Action : Type := Check | Build | BuildAll.

Inductive TargetChoice : Type := X64 | ARM64.

Definition choice_name (c : TargetChoice) : string :=
  match c with
  | X64 => "x64"
  | ARM64 => "arm64"
  end.

Record Args : Type := mkArgs {
  args_action : Action;
  args_target : TargetChoice;
  args_jobs : option Z
}.

(** [results[key] = value] on a dict kept in insertion order. *)
Fixpoint dict_set {V} (d : list (string * V)) (key : string) (value : V)
    : list (string * V) :=
  match d with
  | [] => [(key, value)]
  | (k, v) :: d' =>
      if String.eqb k key then (k, value) :: d'
      else (k, v) :: dict_set d' key value
  end.

(** The first loop of the [build-all] branch, over the keys of [TARGETS]. *)
Fixpoint build_all_loop (names : list string) (jobs : option Z)
    (results : list (string * bool)) : M W (list (string * bool)) :=
  match names with
  | [] => ret results
  | target_name :: rest =>
      let* success := build_target target_name jobs in
      build_all_loop rest jobs (dict_set results target_name success)
  end.

(** The second loop of the [build-all] branch, over [results.items()],
    with the variable [all_success] as accumulator. *)
Fixpoint summary_loop (items : list (string * bool)) (all_success : bool)
    : M W bool :=
  match items with
  | [] => ret all_success
  | (target_name, success) :: rest =>
      if success then
        let* output := copy_to_output target_name in
        match output with
        | Some output =>
            let* size := stat_size output in
            print ("  " +:+ target_name +:+ ": " +:+ PathOps.to_str output
                   +:+ " (" +:+ fmt_mb size +:+ " MB)");;
            summary_loop rest all_success
        | None =>
            print ("  " +:+ target_name +:+ ": FAILED to copy");;
            summary_loop rest false
        end
      else
        print ("  " +:+ target_name +:+ ": FAILED to build");;
        summary_loop rest false
  end.

Definition main (args : Args) : M W unit :=
  let jobs := args_jobs args in
  let target := choice_name (args_target args) in
  let* mem_gb := get_system_memory_gb in
  print (nl +:+ rule);;
  print "htop-win Cross-Compilation Build";;
  print rule;;
  print ("  CPU cores: " +:+ Str.of_Z CPU_COUNT);;
  match mem_gb with
  | Some kb =>
      if 0 <? kb then print ("  Total RAM: " +:+ fmt_gb kb +:+ " GB")
      else ret tt
  | None => ret tt
  end;;
  print ("  Parallel jobs: " +:+
         Str.of_Z match jobs with
                  | Some j => if j =? 0 then CPU_COUNT else j
                  | None => CPU_COUNT
                  end);;
  print ("  Output directory: " +:+ PathOps.to_str OUTPUT_DIR);;
  let* ok := check_prerequisites in
  (if negb ok then sys_exit 1 else ret tt);;
  match args_action args with
  | Check =>
      let* ok := ensure_targets in
      (if negb ok then sys_exit 1 else ret tt);;
      let* ok := check_target target in
      (if negb ok then sys_exit 1 else ret tt);;
      print (nl +:+ target +:+ " check passed!")
  | Build =>
      let* ok := ensure_targets in
      (if negb ok then sys_exit 1 else ret tt);;
      let* ok := build_target target jobs in
      (if negb ok then sys_exit 1 else ret tt);;
      let* output := copy_to_output target in
      match output with
      | Some output =>
          print (nl +:+ "Build successful!");;
          print ("  Output: " +:+ PathOps.to_str output)
      | None =>
          let* build_path := lift (get_build_output_path target) in
          print (nl +:+ "Build completed but output not found at "
                 +:+ PathOps.to_str build_path);;
          sys_exit 1
      end
  | BuildAll =>
      let* ok := ensure_targets in
      (if negb ok then sys_exit 1 else ret tt);;
      let* results := build_all_loop (map fst TARGETS) jobs [] in
      print (nl +:+ rule);;
      print "Build Summary";;
      print rule;;
      let* all_success := summary_loop results true in
      (if negb all_success then sys_exit 1 else ret tt)
  end;;
  print (nl +:+ "Done!").

(** What [parser.parse_args()] makes of the command line: it returns the
    arguments; or, on [-h] or [--help], it writes the help and calls
    [sys.exit(0)]; or, on an argument it does not accept (an action or a
    target that is not among the [choices], a job count that is no
    integer, an unknown option), it writes a usage message on standard
    error and calls [sys.exit(2)]. *)
Inductive parse_outcome : Type :=
| Parsed (args : Args)
| HelpShown
| UsageError.

(** [main()] from its first line: [parse_args], then the body [main]
    above with the arguments returned.  What [argparse] writes itself
    is not part of the trace, which holds the [print] calls of the
    script and its calls to the operating system. *)
Definition main_parsing (cmdline : parse_outcome) : M W unit :=
  match cmdline with
  | Parsed args => main args
  | HelpShown => sys_exit 0
  | UsageError => sys_exit 2
  end.

End Script.

(** ** A small machine to run the script on

    The state is the list of files that exist.  A machine is described by
    the tools on the search path, the host environment, and what each
    command does: how it ends and which files it leaves behind.  Creating
    directories and copying never fail here. *)

Module Toy.

Definition path_eqb (p q : Path) : bool := bool_decide (p = q).

Definition has (files : list Path) (p : Path) : bool :=
  existsb (path_eqb p) files.

Record machine : Type := mkMachine {
  tools : list string;
  environ : gmap string string;
  behave : list string -> spawn_outcome * list Path
}.

Definition host (m : machine) : Host (list Path) := {|
  PROJECT_DIR := PathOps.parse "/src/htop-win";
  CPU_COUNT := 8;
  os_environ := environ m;
  os_which := fun _ name => existsb (String.eqb name) (tools m);
  os_exists := has;
  os_spawn := fun files cmd _ _ =>
    match behave m cmd with
    | (out, made) => (out, (files ++ made)%list)
    end;
  os_mkdir := fun files p => (None, files);
  os_copy2 := fun files src dst => (None, (files ++ [dst])%list);
  os_stat_size := fun files p => if has files p then Some 1048576 else None;
  os_memtotal_kb := fun _ => Some 16777216;
  fmt_gb := fun _ => "16.0";
  fmt_mb := fun _ => "1.00"
|}.

Definition all_tools : list string :=
  ["cargo"; "rustup"; "x86_64-w64-mingw32-gcc"].

Definition clang : Path := LLVM_MINGW // "aarch64-w64-mingw32-clang".

Definition usual_environ : gmap string string :=
  <["PATH" := "/usr/bin"]> (<["HOME" := "/root"]> ∅).

(** The executable that [cargo build --target triple] leaves behind. *)
Definition artifact (triple : string) : Path :=
  PathOps.parse "/src/htop-win" // "target" // triple // "release" // "htop-win.exe".

(** Every command succeeds, and a build produces its executable. *)
Definition good (cmd : list string) : spawn_outcome * list Path :=
  match cmd with
  | ["cargo"; "build"; _; _; triple; _; _] => (Exited 0, [artifact triple])
  | _ => (Exited 0, [])
  end.

End Toy.

(** * Vocabulary

    The names in which the properties below are stated: the two
    descriptors of the table, the commands and lines of output of each
    phase, classes of events, and what it means for a target to have been
    built or staged in a trace. *)

Definition x64 : Target :=
  {| triple := "x86_64-pc-windows-gnu";
     cc := "x86_64-w64-mingw32-gcc";
     ar := "x86_64-w64-mingw32-ar";
     linker := "x86_64-w64-mingw32-gcc";
     use_llvm_mingw := false |}.

Definition arm64 : Target :=
  {| triple := "aarch64-pc-windows-gnullvm";
     cc := "aarch64-w64-mingw32-clang";
     ar := "llvm-ar";
     linker := "aarch64-w64-mingw32-clang";
     use_llvm_mingw := true |}.

(** The keys that [get_env_for_target] writes for a target. *)
Definition written_keys (t : Target) : list string :=
  ([cc_key t; ar_key t; linker_key t]
   ++ (if Str.contains "gnullvm" (triple t) then [rustflags_key t] else [])
   ++ (if use_llvm_mingw t then ["PATH"] else []))%list.

(** A host environment without [PATH] that already carries the
    static-runtime flags under the x64 key. *)
Definition flagged_environ : gmap string string :=
  {[ "CARGO_TARGET_X86_64_PC_WINDOWS_GNU_RUSTFLAGS" := "-C target-feature=+crt-static" ]}.

(** The commands started by a run, each with the value its environment
    gives to [CARGO_BUILD_JOBS]. *)
Definition jobs_of_children (tr : list event)
    : list (list string * option string) :=
  omap (fun e => match e with
                 | ESpawn cmd env _ _ => Some (cmd, env !! "CARGO_BUILD_JOBS")
                 | _ => None
                 end) tr.

(** The commands started by a run, in order. *)
Definition children (tr : list event) : list (list string) :=
  omap (fun e => match e with
                 | ESpawn cmd _ _ _ => Some cmd
                 | _ => None
                 end) tr.

(** The children of a run, in order, each with the way it ended. *)
Definition spawned (tr : list event) : list (list string * spawn_outcome) :=
  omap (fun e => match e with
                 | ESpawn cmd _ _ out => Some (cmd, out)
                 | _ => None
                 end) tr.

(** The copies of a run that succeeded, in order: source and
    destination. *)
Definition copies (tr : list event) : list (Path * Path) :=
  omap (fun e => match e with
                 | ECopy src dst None => Some (src, dst)
                 | _ => None
                 end) tr.

(** The characters of a string. *)
Definition chars (s : string) : list ascii := list_ascii_of_string s.

Section Vocabulary.

Context {W : Type} `{Host W}.

(** [env or os.environ] and [cwd or PROJECT_DIR]. *)
Definition env_or_environ (env : option (gmap string string))
    : gmap string string :=
  match env with
  | Some e => if decide (e = ∅) then os_environ else e
  | None => os_environ
  end.

Definition cwd_or_project (cwd : option Path) : Path :=
  default PROJECT_DIR cwd.

Definition running_line (cmd : list string) : event :=
  EPrint (nl +:+ ">>> Running: " +:+ Str.join " " cmd).

Definition failed_line (returncode : Z) : event :=
  EPrint ("Error: Command failed with exit code " +:+ Str.of_Z returncode).

(** What [run_command] makes of the way the child ended. *)
Definition runner_result (out : spawn_outcome) : result bool :=
  match out with
  | Exited returncode => Ok (returncode =? 0)
  | NotStarted what => Raise (OSError what)
  end.

Definition runner_diagnostic (out : spawn_outcome) : list event :=
  match out with
  | Exited returncode => if returncode =? 0 then [] else [failed_line returncode]
  | NotStarted _ => []
  end.

Definition is_print (e : event) : Prop :=
  match e with
  | EPrint _ => True
  | _ => False
  end.

Definition clang_path : Path := LLVM_MINGW // "aarch64-w64-mingw32-clang".

(** The three checks, in the order of the source. *)
Definition prereq_ok (w : W) : bool :=
  os_which w "cargo"
  && os_which w "x86_64-w64-mingw32-gcc"
  && os_exists w clang_path.

(** The questions asked of the machine, among the events of a run. *)
Definition probes (tr : list event) : list event :=
  List.filter
    (fun e => match e with EWhich _ _ | EExists _ _ => true | _ => false end)
    tr.

Definition prereq_probes (w : W) : list event :=
  if os_which w "cargo" then
    if os_which w "x86_64-w64-mingw32-gcc" then
      [EWhich "cargo" true; EWhich "x86_64-w64-mingw32-gcc" true;
       EExists clang_path (os_exists w clang_path)]
    else [EWhich "cargo" true; EWhich "x86_64-w64-mingw32-gcc" false]
  else [EWhich "cargo" false].

Definition rustup_cmd (t : Target) : list string :=
  ["rustup"; "target"; "add"; triple t].

(** An event of the installation loop over [items]: a line of output,
    or [rustup target add] for one of the items, run in the host
    environment and the project directory. *)
Definition install_event (items : list (string * Target)) (e : event) : Prop :=
  match e with
  | EPrint _ => True
  | ESpawn cmd env cwd _ =>
      env = os_environ /\ cwd = PROJECT_DIR
      /\ exists name t, (name, t) ∈ items /\ cmd = rustup_cmd t
  | _ => False
  end.

Definition num_jobs (jobs : option Z) : Z := default CPU_COUNT jobs.

Definition build_cmd (t : Target) (jobs : option Z) : list string :=
  ["cargo"; "build"; "--release"; "--target"; triple t;
   "-j"; Str.of_Z (num_jobs jobs)].

Definition build_env (env0 : gmap string string) (jobs : option Z)
    : gmap string string :=
  <["CARGO_BUILD_JOBS" := Str.of_Z (num_jobs jobs)]> env0.

Definition check_cmd (t : Target) : list string :=
  ["cargo"; "check"; "--target"; triple t].

Definition build_banner (name : string) (t : Target) (jobs : option Z)
    : list event :=
  [EPrint (nl +:+ rule);
   EPrint ("Building for " +:+ name +:+ " (" +:+ triple t +:+ ")");
   EPrint ("Using " +:+ Str.of_Z (num_jobs jobs) +:+ " parallel jobs");
   EPrint rule].

Definition check_banner (name : string) (t : Target) : list event :=
  [EPrint (nl +:+ rule);
   EPrint ("Checking " +:+ name +:+ " (" +:+ triple t +:+ ")");
   EPrint rule].

Definition not_found_line (path : Path) : event :=
  EPrint ("Error: Built executable not found at " +:+ PathOps.to_str path).

Definition copying_line (path final : Path) : event :=
  EPrint (nl +:+ ">>> Copying " +:+ PathOps.to_str path +:+ " -> "
          +:+ PathOps.to_str final).

(** An event of the staging loop: anything but a child process or a
    search on the path. *)
Definition staging_event (e : event) : Prop :=
  match e with
  | ESpawn _ _ _ _ | EWhich _ _ => False
  | _ => True
  end.

(** The executable of [name] was found and copied. *)
Definition staged (name : string) (tr : list event) : Prop :=
  exists path : Path,
    get_build_output_path name = Ok path
    /\ EExists path true ∈ tr
    /\ ECopy path (get_final_output_path name) None ∈ tr.

(** Staging of [name] was attempted: the executable was looked for,
    and copied when it was there. *)
Definition staging_attempted (name : string) (tr : list event) : Prop :=
  exists (path : Path) (present : bool),
    get_build_output_path name = Ok path
    /\ EExists path present ∈ tr
    /\ (present = true -> ECopy path (get_final_output_path name) None ∈ tr).

(** What a run of the summary loop guarantees, given the value
    [all_success] it started with, its result and its trace. *)
Definition summary_post (items : list (string * bool)) (all_success : bool)
    (r : result bool) (tr : list event) : Prop :=
  Forall staging_event tr
  /\ (forall c, r <> SysExit c)
  /\ (r = Ok true ->
      all_success = true
      /\ forall name b, (name, b) ∈ items -> b = true /\ staged name tr)
  /\ (forall p, EExists p false ∈ tr -> r <> Ok true)
  /\ ((forall e, r <> Raise e) ->
      forall name, (name, true) ∈ items -> staging_attempted name tr).

(** An event of a build: a line of output, or [cargo build] for a
    registered target, run in the project directory under the derived
    environment extended with [CARGO_BUILD_JOBS]. *)
Definition build_event (jobs : option Z) (e : event) : Prop :=
  match e with
  | EPrint _ => True
  | ESpawn cmd env cwd _ =>
      cwd = PROJECT_DIR
      /\ exists name t env0,
           assoc TARGETS name = Some t
           /\ get_env_for_target os_environ name = Ok env0
           /\ cmd = build_cmd t jobs /\ env = build_env env0 jobs
  | _ => False
  end.

(** [cargo build] for [name] ran and exited with status [c]. *)
Definition built (jobs : option Z) (tr : list event) (name : string) (c : Z)
    : Prop :=
  exists t env,
    assoc TARGETS name = Some t
    /\ ESpawn (build_cmd t jobs) env PROJECT_DIR (Exited c) ∈ tr.

(** The entries added to [results] by builds that ended with [codes]. *)
Definition record_all (results : list (string * bool)) (names : list string)
    (codes : list Z) : list (string * bool) :=
  foldl (fun d nc => dict_set d nc.1 (nc.2 =? 0)) results (zip names codes).

(** What [main] does once the targets are installed: the remainder of
    the branch of the requested action. *)
Definition after_install (args : Args) : M W unit :=
  let jobs := args_jobs args in
  let target := choice_name (args_target args) in
  match args_action args with
  | Check =>
      let* ok := check_target target in
      (if negb ok then sys_exit 1 else ret tt);;
      print (nl +:+ target +:+ " check passed!")
  | Build =>
      let* ok := build_target target jobs in
      (if negb ok then sys_exit 1 else ret tt);;
      let* output := copy_to_output target in
      match output with
      | Some output =>
          print (nl +:+ "Build successful!");;
          print ("  Output: " +:+ PathOps.to_str output)
      | None =>
          let* build_path := lift (get_build_output_path target) in
          print (nl +:+ "Build completed but output not found at "
                 +:+ PathOps.to_str build_path);;
          sys_exit 1
      end
  | BuildAll =>
      let* results := build_all_loop (map fst TARGETS) jobs [] in
      print (nl +:+ rule);;
      print "Build Summary";;
      print rule;;
      let* all_success := summary_loop results true in
      (if negb all_success then sys_exit 1 else ret tt)
  end.

(** The branch of [main] for the requested action is the installation
    of the targets followed by [after_install]. *)
Definition branch (args : Args) : M W unit :=
  let* ok := ensure_targets in
  (if negb ok then sys_exit 1 else ret tt);;
  after_install args.

Definition done_line : event := EPrint (nl +:+ "Done!").

(** The lines printed before the prerequisites are checked. *)
Definition banner_trace (args : Args) (w : W) : list event :=
  ([EPrint (nl +:+ rule);
    EPrint "htop-win Cross-Compilation Build";
    EPrint rule;
    EPrint ("  CPU cores: " +:+ Str.of_Z CPU_COUNT)]
   ++ match os_memtotal_kb w with
      | Some kb =>
          if 0 <? kb then [EPrint ("  Total RAM: " +:+ fmt_gb kb +:+ " GB")]
          else []
      | None => []
      end
   ++ [EPrint ("  Parallel jobs: " +:+
               Str.of_Z match args_jobs args with
                        | Some j => if j =? 0 then CPU_COUNT else j
                        | None => CPU_COUNT
                        end);
       EPrint ("  Output directory: " +:+ PathOps.to_str OUTPUT_DIR)])%list.

(** [main] after its banner: the prerequisite check, the branch of the
    action, and the last line. *)
Definition guarded (args : Args) : M W unit :=
  let* ok := check_prerequisites in
  (if negb ok then sys_exit 1 else ret tt);;
  branch args;;
  print (nl +:+ "Done!").

Definition done_trace (r : result unit) : list event :=
  match r with
  | Ok _ => [done_line]
  | _ => []
  end.

(** An event of [after_install]: no search on the path; a child is
    [cargo build] or [cargo check] for a registered target, run in the
    project directory under the environment derived for that target,
    which for a build is extended with [CARGO_BUILD_JOBS]. *)
Definition action_event (jobs : option Z) (e : event) : Prop :=
  match e with
  | EWhich _ _ => False
  | ESpawn cmd env cwd _ =>
      cwd = PROJECT_DIR
      /\ exists name t env0,
           assoc TARGETS name = Some t
           /\ get_env_for_target os_environ name = Ok env0
           /\ ((cmd = build_cmd t jobs /\ env = build_env env0 jobs)
               \/ (cmd = check_cmd t /\ env = env0))
  | _ => True
  end.

(** The children of a run: [rustup target add] for a registered target
    under the host environment, or [cargo build] or [cargo check] for a
    registered target under its derived environment. *)
Definition main_spawn (jobs : option Z) (cmd : list string)
    (env : gmap string string) (cwd : Path) : Prop :=
  cwd = PROJECT_DIR
  /\ ((env = os_environ
       /\ exists name t, (name, t) ∈ TARGETS /\ cmd = rustup_cmd t)
      \/ exists name t env0,
           assoc TARGETS name = Some t
           /\ get_env_for_target os_environ name = Ok env0
           /\ ((cmd = build_cmd t jobs /\ env = build_env env0 jobs)
               \/ (cmd = check_cmd t /\ env = env0))).

(** The targets an invocation is about: the one given by [--target] for
    [check] and [build], every registered one for [build-all]. *)
Definition selected (args : Args) (name : string) : Prop :=
  match args_action args with
  | BuildAll => exists t, assoc TARGETS name = Some t
  | _ => name = choice_name (args_target args)
  end.

(** What a run with arguments [args] may do.  It looks for [cargo] and
    the x64 compiler on the path and for the llvm-mingw compiler on disk;
    it starts [rustup target add] for registered targets under the host
    environment; for a selected target it starts [cargo check] under the
    derived environment (action [check]) or [cargo build] under the
    derived environment extended with the job count (other actions);
    and, unless the action is [check], it looks for the executable of a
    selected target, creates [OUTPUT_DIR] and copies that executable to
    its staged path, whose size it asks for in a [build-all] run. *)
Definition run_event (args : Args) (e : event) : Prop :=
  match e with
  | EPrint _ => True
  | EWhich name _ => name = "cargo" \/ name = "x86_64-w64-mingw32-gcc"
  | EExists p _ =>
      p = clang_path
      \/ (args_action args <> Check
          /\ exists name, selected args name /\ get_build_output_path name = Ok p)
  | ESpawn cmd env cwd _ =>
      cwd = PROJECT_DIR
      /\ ((env = os_environ
           /\ exists name t, (name, t) ∈ TARGETS /\ cmd = rustup_cmd t)
          \/ exists name t env0,
               selected args name
               /\ assoc TARGETS name = Some t
               /\ get_env_for_target os_environ name = Ok env0
               /\ match args_action args with
                  | Check => cmd = check_cmd t /\ env = env0
                  | _ => cmd = build_cmd t (args_jobs args)
                         /\ env = build_env env0 (args_jobs args)
                  end)
  | EMkdir p _ => args_action args <> Check /\ p = OUTPUT_DIR
  | ECopy src dst _ =>
      args_action args <> Check
      /\ exists name,
           selected args name
           /\ get_build_output_path name = Ok src
           /\ dst = get_final_output_path name
  | EStat p _ =>
      args_action args = BuildAll
      /\ exists name, selected args name /\ p = get_final_output_path name
  end.

(** Events of the phases that build: lines of output and children. *)
Definition spawn_or_print (e : event) : Prop :=
  match e with
  | EPrint _ | ESpawn _ _ _ _ => True
  | _ => False
  end.

(** Events of the prerequisite check: lines of output and questions. *)
Definition probe_or_print (e : event) : Prop :=
  match e with
  | EPrint _ | EWhich _ _ | EExists _ _ => True
  | _ => False
  end.

(** What the banner of [main] shows as the number of parallel jobs. *)
Definition shown_jobs (args : Args) : Z :=
  match args_jobs args with
  | Some j => if j =? 0 then CPU_COUNT else j
  | None => CPU_COUNT
  end.

(** What a successful end of [after_install] means for each action. *)
Definition success_of (args : Args) (building staging : list event) : Prop :=
  let name := choice_name (args_target args) in
  match args_action args with
  | Check =>
      exists t env,
        assoc TARGETS name = Some t
        /\ ESpawn (check_cmd t) env PROJECT_DIR (Exited 0) ∈ building
  | Build => built (args_jobs args) building name 0 /\ staged name staging
  | BuildAll =>
      forall n t, (n, t) ∈ TARGETS ->
        built (args_jobs args) building n 0 /\ staged n staging
  end.

(** The target descriptor of a value of [--target]. *)
Definition choice_target (c : TargetChoice) : Target :=
  match c with
  | X64 => x64
  | ARM64 => arm64
  end.

(** The [cargo] commands of an action, in the order [main] starts them. *)
Definition action_cmds (args : Args) : list (list string) :=
  match args_action args with
  | Check => [check_cmd (choice_target (args_target args))]
  | Build => [build_cmd (choice_target (args_target args)) (args_jobs args)]
  | BuildAll => map (fun item => build_cmd item.2 (args_jobs args)) TARGETS
  end.

(** Events of the phases before the action: lines of output, questions,
    and [rustup target add] for a registered target. *)
Definition setup_event (e : event) : Prop :=
  match e with
  | EPrint _ | EWhich _ _ | EExists _ _ => True
  | ESpawn cmd _ _ _ =>
      exists name t, (name, t) ∈ TARGETS /\ cmd = rustup_cmd t
  | _ => False
  end.

(** The exceptions that leave [main]: the lookup of [PATH] in an
    environment that has none, and the failures of the operating system. *)
Definition escaping (e : exn) : Prop :=
  (e = KeyError "PATH" /\ os_environ !! "PATH" = None)
  \/ exists what, e = OSError what.

(** The machine, in state [w], passes the prerequisite check and ends
    both installations with status zero, [rustup target add] for x64 and
    then for arm64, which leaves it in state [we]. *)
Definition installed (w we : W) : Prop :=
  prereq_ok w = true
  /\ exists wa,
       os_spawn w (rustup_cmd x64) os_environ PROJECT_DIR = (Exited 0, wa)
       /\ os_spawn wa (rustup_cmd arm64) os_environ PROJECT_DIR
          = (Exited 0, we).

(** What the machine, in state [w], answers to the [cargo build] that
    [build_target] starts for [name]: how the child ends and the state
    it leaves.  [None] when no environment can be derived for [name]. *)
Definition build_answer (name : string) (jobs : option Z) (w : W)
    : option (spawn_outcome * W) :=
  match assoc TARGETS name, get_env_for_target os_environ name with
  | Some t, Ok env0 =>
      Some (os_spawn w (build_cmd t jobs) (build_env env0 jobs) PROJECT_DIR)
  | _, _ => None
  end.

(** The copy that stages [name]: from its executable to its staged path. *)
Definition copy_of (name : string) : list (Path * Path) :=
  match get_build_output_path name with
  | Ok path => [(path, get_final_output_path name)]
  | _ => []
  end.

(** The machine, in state [w], lets the executable of [name] be staged:
    the file is there, [OUTPUT_DIR] can be made, the copy succeeds and
    leaves the machine in state [ws], where the size of the copy can be
    read. *)
Definition stages (name : string) (w ws : W) : Prop :=
  exists (path : Path) (w1 : W) (size : Z),
    get_build_output_path name = Ok path
    /\ os_exists w path = true
    /\ os_mkdir w OUTPUT_DIR = (None, w1)
    /\ os_copy2 w1 path (get_final_output_path name) = (None, ws)
    /\ os_stat_size ws (get_final_output_path name) = Some size.

(** The executable of [name] is not there in state [w]. *)
Definition absent (name : string) (w : W) : Prop :=
  exists path : Path,
    get_build_output_path name = Ok path /\ os_exists w path = false.

(** What the machine makes of the staging of a target whose build ended
    with status [c], when no exception is raised: from state [w] it gets
    to state [ws], and [s] tells whether the executable was staged.  A
    build that ended with another status than zero is not staged. *)
Definition round (name : string) (c : Z) (w ws : W) (s : bool) : Prop :=
  (c = 0 /\ stages name w ws /\ s = true)
  \/ (c = 0 /\ absent name w /\ ws = w /\ s = false)
  \/ (c <> 0 /\ ws = w /\ s = false).

(** The machine, in state [w], makes the staging of [name] fail with the
    exception [e] and is left in state [ws]: the executable is there,
    and [OUTPUT_DIR] cannot be made, or the copy fails, or the size of
    the copy cannot be read. *)
Definition staging_fails (name : string) (w ws : W) (e : exn) : Prop :=
  exists path : Path,
    get_build_output_path name = Ok path
    /\ os_exists w path = true
    /\ ((exists what,
           os_mkdir w OUTPUT_DIR = (Some what, ws) /\ e = OSError what)
        \/ (exists w1 what,
              os_mkdir w OUTPUT_DIR = (None, w1)
              /\ os_copy2 w1 path (get_final_output_path name) = (Some what, ws)
              /\ e = OSError what)
        \/ (exists w1,
              os_mkdir w OUTPUT_DIR = (None, w1)
              /\ os_copy2 w1 path (get_final_output_path name) = (None, ws)
              /\ os_stat_size ws (get_final_output_path name) = None
              /\ e = OSError "stat")).

End Vocabulary.

(** ** Machines for the examples *)

(** A machine on which [rustup] is not installed. *)
Definition no_rustup (cmd : list string) : spawn_outcome * list Path :=
  match cmd with
  | "rustup" :: _ => (NotStarted "[Errno 2] No such file or directory: 'rustup'", [])
  | _ => Toy.good cmd
  end.

Definition no_rustup_machine : Toy.machine :=
  Toy.mkMachine ["cargo"; "x86_64-w64-mingw32-gcc"] Toy.usual_environ no_rustup.

(** A machine with both compilers and without [cargo]. *)
Definition no_cargo_machine : Toy.machine :=
  Toy.mkMachine ["rustup"; "x86_64-w64-mingw32-gcc"] Toy.usual_environ Toy.good.

(** A machine on which [cargo build] reports success and leaves no
    executable behind. *)
Definition hollow_machine : Toy.machine :=
  Toy.mkMachine Toy.all_tools Toy.usual_environ (fun _ => (Exited 0, [])).

Definition good_machine : Toy.machine :=
  Toy.mkMachine Toy.all_tools Toy.usual_environ Toy.good.

(** A machine on which the arm64 toolchain cannot be installed. *)
Definition no_arm64_toolchain (cmd : list string) : spawn_outcome * list Path :=
  match cmd with
  | ["rustup"; "target"; "add"; "aarch64-pc-windows-gnullvm"] => (Exited 1, [])
  | _ => Toy.good cmd
  end.

Definition no_arm64_machine : Toy.machine :=
  Toy.mkMachine Toy.all_tools Toy.usual_environ no_arm64_toolchain.

(** A machine on which the arm64 build fails and the x64 build works. *)
Definition arm64_build_fails (cmd : list string) : spawn_outcome * list Path :=
  match cmd with
  | ["cargo"; "build"; _; _; "aarch64-pc-windows-gnullvm"; _; _] => (Exited 101, [])
  | _ => Toy.good cmd
  end.

Definition arm64_fails_machine : Toy.machine :=
  Toy.mkMachine Toy.all_tools Toy.usual_environ arm64_build_fails.

(** A machine whose environment has no [PATH]. *)
Definition pathless_machine : Toy.machine :=
  Toy.mkMachine Toy.all_tools {[ "HOME" := "/root" ]} Toy.good.

(** * Properties *)

(** Paths and lines of output stay as written while a run is unfolded. *)
Arguments PathOps.parse : simpl never.
Arguments PathOps.join : simpl never.
Arguments PathOps.to_str : simpl never.
Arguments Str.join : simpl never.
Arguments Str.of_Z : simpl never.
Arguments Str.times : simpl never.
Arguments LLVM_MINGW : simpl never.
Arguments OUTPUT_DIR : simpl never.
Arguments TARGET_DIR : simpl never.
Arguments rule : simpl never.
Arguments nl : simpl never.

(** ** The target table *)

Lemma TARGETS_eq : TARGETS = [("x64", x64); ("arm64", arm64)].
Proof. reflexivity. Qed.

Lemma eqb_cases (k key : string) :
  (String.eqb k key = true /\ key = k) \/ (String.eqb k key = false /\ key <> k).
Proof.
  destruct (String.eqb_spec k key) as [->|Hne]; [left | right]; split; congruence.
Qed.

(** A registered name is one of the two keys of the table. *)
Lemma registered_cases (name : string) (t : Target) :
  assoc TARGETS name = Some t ->
  (name = "x64" /\ t = x64) \/ (name = "arm64" /\ t = arm64).
Proof.
  rewrite TARGETS_eq. cbn [assoc].
  destruct (eqb_cases "x64" name) as [[-> ->]|[-> _]].
  - intros [= <-]. now left.
  - destruct (eqb_cases "arm64" name) as [[-> ->]|[-> _]].
    + intros [= <-]. now right.
    + discriminate.
Qed.

Lemma registered_elem (name : string) (t : Target) :
  assoc TARGETS name = Some t <-> (name, t) ∈ TARGETS.
Proof.
  split.
  - intros [[-> ->]|[-> ->]]%registered_cases; rewrite TARGETS_eq;
      [apply list_elem_of_here | apply list_elem_of_further, list_elem_of_here].
  - rewrite TARGETS_eq. intros Hin.
    apply elem_of_cons in Hin as [[= -> ->]|Hin]; [reflexivity|].
    apply elem_of_cons in Hin as [[= -> ->]|Hin]; [reflexivity|].
    now apply elem_of_nil in Hin.
Qed.

(** ** The derived environment *)

Example written_keys_x64 :
  written_keys x64 =
  ["CC_x86_64_pc_windows_gnu"; "AR_x86_64_pc_windows_gnu";
   "CARGO_TARGET_X86_64_PC_WINDOWS_GNU_LINKER"].
Proof. reflexivity. Qed.

Example written_keys_arm64 :
  written_keys arm64 =
  ["CC_aarch64_pc_windows_gnullvm"; "AR_aarch64_pc_windows_gnullvm";
   "CARGO_TARGET_AARCH64_PC_WINDOWS_GNULLVM_LINKER";
   "CARGO_TARGET_AARCH64_PC_WINDOWS_GNULLVM_RUSTFLAGS"; "PATH"].
Proof. reflexivity. Qed.

Lemma LLVM_MINGW_str : PathOps.to_str LLVM_MINGW = "/root/toolchains/llvm-mingw/bin".
Proof. reflexivity. Qed.

(** The two runs of [get_env_for_target] that return, as equations. *)
Lemma get_env_x64 (environ : gmap string string) :
  get_env_for_target environ "x64" =
  Ok (<[linker_key x64 := linker x64]>
      (<[ar_key x64 := ar x64]> (<[cc_key x64 := cc x64]> environ))).
Proof. reflexivity. Qed.

Example get_env_x64_empty :
  get_env_for_target ∅ "x64" =
  Ok (<["CARGO_TARGET_X86_64_PC_WINDOWS_GNU_LINKER" := "x86_64-w64-mingw32-gcc"]>
      (<["AR_x86_64_pc_windows_gnu" := "x86_64-w64-mingw32-ar"]>
       (<["CC_x86_64_pc_windows_gnu" := "x86_64-w64-mingw32-gcc"]> ∅))).
Proof. reflexivity. Qed.

Lemma get_env_arm64 (environ : gmap string string) (path : string) :
  environ !! "PATH" = Some path ->
  get_env_for_target environ "arm64" =
  Ok (<[rustflags_key arm64 := crt_static]>
      (<[linker_key arm64 := linker arm64]>
       (<[ar_key arm64 := ar arm64]>
        (<[cc_key arm64 := cc arm64]>
         (<["PATH" := "/root/toolchains/llvm-mingw/bin:" +:+ path]> environ))))).
Proof.
  intros Hpath. unfold get_env_for_target, getitem.
  change (TARGETS_getitem "arm64") with (Ok arm64).
  cbn [rbind use_llvm_mingw arm64]. rewrite Hpath. reflexivity.
Qed.

Lemma get_env_arm64_no_path (environ : gmap string string) :
  environ !! "PATH" = None ->
  get_env_for_target environ "arm64" = Raise (KeyError "PATH").
Proof.
  intros Hpath. unfold get_env_for_target, getitem.
  change (TARGETS_getitem "arm64") with (Ok arm64).
  cbn [rbind use_llvm_mingw arm64]. rewrite Hpath. reflexivity.
Qed.

(** Replaces the key names of a registered target by their values. *)
Ltac eval_key k :=
  let v := eval vm_compute in k in change k with v in *.

Ltac eval_keys :=
  eval_key (cc_key x64); eval_key (ar_key x64); eval_key (linker_key x64);
  eval_key (rustflags_key x64);
  eval_key (cc_key arm64); eval_key (ar_key arm64); eval_key (linker_key arm64);
  eval_key (rustflags_key arm64).

Lemma insert_keeps (m : gmap string string) (i k x : string) :
  is_Some (m !! k) -> is_Some (<[i := x]> m !! k).
Proof.
  intros Hk. apply lookup_insert_is_Some.
  destruct (decide (i = k)); [now left | now right].
Qed.

(** C2. For every registered target and every host environment on which
    the derivation returns (any environment for a target that does not use
    llvm-mingw, one with [PATH] for a target that does), the derived
    environment agrees with the host environment on every key other than
    the ones written for the target, no host variable is removed, and for
    a target that uses llvm-mingw the new [PATH] is the llvm-mingw
    directory, a colon, and the whole former value. *)
Theorem get_env_for_target_superset
    (environ : gmap string string) (name : string) (t : Target) :
  assoc TARGETS name = Some t ->
  (use_llvm_mingw t = true -> is_Some (environ !! "PATH")) ->
  exists env : gmap string string,
    get_env_for_target environ name = Ok env
    /\ (forall k : string, k ∉ written_keys t -> env !! k = environ !! k)
    /\ (forall k : string, is_Some (environ !! k) -> is_Some (env !! k))
    /\ (use_llvm_mingw t = true ->
        forall path : string, environ !! "PATH" = Some path ->
          env !! "PATH" = Some (PathOps.to_str LLVM_MINGW +:+ ":" +:+ path)).
Proof.
  intros [[-> ->]|[-> ->]]%registered_cases Hpath.
  - eexists. split; [apply get_env_x64|]. split; [|split].
    + intros k Hk. rewrite written_keys_x64 in Hk. eval_keys.
      repeat (apply not_elem_of_cons in Hk as [? Hk]).
      now rewrite !lookup_insert_ne by congruence.
    + intros k Hk. now do 3 apply insert_keeps.
    + discriminate.
  - destruct (Hpath eq_refl) as [path Hp].
    eexists. split; [apply (get_env_arm64 _ _ Hp)|]. split; [|split].
    + intros k Hk. rewrite written_keys_arm64 in Hk. eval_keys.
      repeat (apply not_elem_of_cons in Hk as [? Hk]).
      now rewrite !lookup_insert_ne by congruence.
    + intros k Hk. now do 5 apply insert_keeps.
    + intros _ path' Hp'. assert (path' = path) as -> by congruence.
      rewrite !lookup_insert_ne by discriminate.
      now rewrite lookup_insert_eq.
Qed.

Lemma get_env_for_target_superset_witness :
  exists env : gmap string string,
    get_env_for_target Toy.usual_environ "arm64" = Ok env
    /\ (forall k : string, k ∉ written_keys arm64 ->
        env !! k = Toy.usual_environ !! k)
    /\ (forall k : string,
        is_Some (Toy.usual_environ !! k) -> is_Some (env !! k))
    /\ (use_llvm_mingw arm64 = true ->
        forall path : string, Toy.usual_environ !! "PATH" = Some path ->
          env !! "PATH" = Some (PathOps.to_str LLVM_MINGW +:+ ":" +:+ path)).
Proof.
  apply (get_env_for_target_superset Toy.usual_environ "arm64" arm64).
  - reflexivity.
  - intros _. exists "/usr/bin". reflexivity.
Defined.

(** C3, as stated, fails on [flagged_environ]: no environment is derived
    for arm64 at all (the lookup of [PATH] raises), and the environment
    derived for x64 does contain a target-scoped flags variable that asks
    for the static C runtime, inherited from the host. *)
Lemma static_runtime_flag_counterexample :
  get_env_for_target flagged_environ "arm64" = Raise (KeyError "PATH")
  /\ exists env : gmap string string,
       get_env_for_target flagged_environ "x64" = Ok env
       /\ env !! "CARGO_TARGET_X86_64_PC_WINDOWS_GNU_RUSTFLAGS"
          = Some "-C target-feature=+crt-static".
Proof.
  split; [reflexivity|]. eexists. split; reflexivity.
Qed.

(** C3, amended. On every host environment that has [PATH], the
    environment derived for arm64 binds
    [CARGO_TARGET_AARCH64_PC_WINDOWS_GNULLVM_RUSTFLAGS] to the flags that
    ask for the static C runtime.  On every host environment, the
    derivation for x64 returns and writes no such binding: its own flags
    variable is what the host had (absent when the host had none), and no
    key has the static-runtime flags as its value unless the host gave it
    that value. *)
Theorem static_runtime_flag (environ : gmap string string) :
  (is_Some (environ !! "PATH") ->
   exists env : gmap string string,
     get_env_for_target environ "arm64" = Ok env
     /\ env !! "CARGO_TARGET_AARCH64_PC_WINDOWS_GNULLVM_RUSTFLAGS"
        = Some "-C target-feature=+crt-static")
  /\ exists env : gmap string string,
       get_env_for_target environ "x64" = Ok env
       /\ env !! "CARGO_TARGET_X86_64_PC_WINDOWS_GNU_RUSTFLAGS"
          = environ !! "CARGO_TARGET_X86_64_PC_WINDOWS_GNU_RUSTFLAGS"
       /\ forall k : string,
            env !! k = Some "-C target-feature=+crt-static" ->
            environ !! k = Some "-C target-feature=+crt-static".
Proof.
  split.
  - intros [path Hp]. eexists. split; [apply (get_env_arm64 _ _ Hp)|].
    eval_keys. apply lookup_insert_eq.
  - eexists. split; [apply get_env_x64|]. eval_keys. split.
    + now rewrite !lookup_insert_ne by discriminate.
    + intros k.
      repeat (rewrite lookup_insert; case_decide; [discriminate|]).
      trivial.
Qed.

Lemma static_runtime_flag_witness :
  exists env : gmap string string,
    get_env_for_target Toy.usual_environ "arm64" = Ok env
    /\ env !! "CARGO_TARGET_AARCH64_PC_WINDOWS_GNULLVM_RUSTFLAGS"
       = Some "-C target-feature=+crt-static".
Proof.
  apply (static_runtime_flag Toy.usual_environ).
  exists "/usr/bin". reflexivity.
Defined.

(** When does the derivation return?  Always for x64; for arm64 exactly
    when the host environment has [PATH]. *)
Lemma get_env_arm64_returns (environ : gmap string string) :
  (exists env, get_env_for_target environ "arm64" = Ok env)
  <-> is_Some (environ !! "PATH").
Proof.
  split.
  - intros [env Henv]. destruct (environ !! "PATH") as [path|] eqn:Hp; [eauto|].
    rewrite (get_env_arm64_no_path _ Hp) in Henv. discriminate.
  - intros [path Hp]. eexists. apply (get_env_arm64 _ _ Hp).
Qed.

Section OutputPaths.

Context {W : Type} `{Host W}.

(** ** Where the executable is built and where it is staged *)

Lemma TARGET_DIR_parts : TARGET_DIR = (PROJECT_DIR ++ ["target"])%list.
Proof. reflexivity. Qed.

Lemma get_build_output_path_parts (name : string) (t : Target) :
  assoc TARGETS name = Some t ->
  get_build_output_path name
  = Ok (TARGET_DIR ++ [triple t; "release"; "htop-win.exe"])%list.
Proof.
  intros [[-> ->]|[-> ->]]%registered_cases.
  - change (get_build_output_path "x64")
      with (Ok (((TARGET_DIR ++ [triple x64]) ++ ["release"])
                ++ ["htop-win.exe"])%list).
    now rewrite <- !app_assoc.
  - change (get_build_output_path "arm64")
      with (Ok (((TARGET_DIR ++ [triple arm64]) ++ ["release"])
                ++ ["htop-win.exe"])%list).
    now rewrite <- !app_assoc.
Qed.

Lemma get_final_output_path_parts (name : string) (t : Target) :
  assoc TARGETS name = Some t ->
  get_final_output_path name
  = (OUTPUT_DIR ++ ["htop-win-" +:+ name +:+ ".exe"])%list.
Proof. intros [[-> ->]|[-> ->]]%registered_cases; reflexivity. Qed.

(** C9. For every registered target the expected build output is
    [TARGET_DIR] (the directory [target] of the project) followed by the
    parts [triple], ["release"], ["htop-win.exe"]; the staged path is
    [OUTPUT_DIR] followed by the one part [htop-win-<name>.exe], printed
    as [/mnt/c/code/htop-win-<name>.exe]; and two registered targets
    with the same staged path are the same target. *)
Theorem output_paths (name : string) (t : Target) :
  assoc TARGETS name = Some t ->
  TARGET_DIR = (PROJECT_DIR ++ ["target"])%list
  /\ get_build_output_path name
     = Ok (TARGET_DIR ++ [triple t; "release"; "htop-win.exe"])%list
  /\ get_final_output_path name
     = (OUTPUT_DIR ++ ["htop-win-" +:+ name +:+ ".exe"])%list
  /\ PathOps.to_str (get_final_output_path name)
     = "/mnt/c/code/htop-win-" +:+ name +:+ ".exe"
  /\ forall (name' : string) (t' : Target),
       assoc TARGETS name' = Some t' ->
       get_final_output_path name' = get_final_output_path name ->
       name' = name.
Proof.
  intros Hreg. split; [reflexivity|].
  split; [now apply get_build_output_path_parts|].
  split; [now apply (get_final_output_path_parts name t)|].
  destruct (registered_cases _ _ Hreg) as [[-> ->]|[-> ->]];
    (split; [reflexivity|]);
    intros name' t' [[-> ->]|[-> ->]]%registered_cases Heq;
    first [reflexivity | vm_compute in Heq; discriminate].
Qed.

End OutputPaths.

Lemma output_paths_witness :
  let host := Toy.host (Toy.mkMachine Toy.all_tools Toy.usual_environ Toy.good) in
  get_build_output_path (H := host) "arm64"
  = Ok (PathOps.parse "/src/htop-win/target/aarch64-pc-windows-gnullvm/release/htop-win.exe")
  /\ PathOps.to_str (get_final_output_path "arm64") = "/mnt/c/code/htop-win-arm64.exe".
Proof.
  intros host.
  destruct (output_paths (H := host) "arm64" arm64 eq_refl) as (_ & Hb & _ & Hs & _).
  split; [exact Hb | exact Hs].
Defined.

(** ** Running the script *)

Section Runs.

Context {W : Type} `{Host W}.

Lemma bind_ok {A B} (m : M W A) (k : A -> M W B) (w w1 : W) (a : A)
    (t1 : list event) :
  m w = (Ok a, w1, t1) ->
  bind m k w
  = (result_of (k a w1), world_of (k a w1), (t1 ++ trace_of (k a w1))%list).
Proof.
  intros Hm. unfold bind. rewrite Hm.
  now destruct (k a w1) as [[r w2] t2].
Qed.

Lemma bind_raise {A B} (m : M W A) (k : A -> M W B) (w w1 : W) (e : exn)
    (t1 : list event) :
  m w = (Raise e, w1, t1) -> bind m k w = (Raise e, w1, t1).
Proof. intros Hm. unfold bind. now rewrite Hm. Qed.

Lemma bind_exit {A B} (m : M W A) (k : A -> M W B) (w w1 : W) (c : Z)
    (t1 : list event) :
  m w = (SysExit c, w1, t1) -> bind m k w = (SysExit c, w1, t1).
Proof. intros Hm. unfold bind. now rewrite Hm. Qed.

Lemma bind_ok_inv {A B} (m : M W A) (k : A -> M W B) (w w1 w' : W) (a : A)
    (t1 tr : list event) (r : result B) :
  m w = (Ok a, w1, t1) ->
  bind m k w = (r, w', tr) ->
  exists t2, k a w1 = (r, w', t2) /\ tr = (t1 ++ t2)%list.
Proof.
  intros Hm. unfold bind. rewrite Hm.
  destruct (k a w1) as [[r2 w2] t2] eqn:Hk. intros [= <- <- <-].
  now exists t2.
Qed.

Lemma print_inv {B} (line : string) (k : M W B) (w w' : W) (r : result B)
    (tr : list event) :
  (print line;; k) w = (r, w', tr) ->
  exists t2, k w = (r, w', t2) /\ tr = EPrint line :: t2.
Proof.
  unfold bind, print. destruct (k w) as [[r2 w2] t2] eqn:Hk.
  intros [= <- <- <-]. now exists t2.
Qed.

Lemma stat_inv {B} (p : Path) (k : Z -> M W B) (w w' : W) (r : result B)
    (tr : list event) :
  bind (stat_size p) k w = (r, w', tr) ->
  (exists size t2,
      os_stat_size w p = Some size /\ k size w = (r, w', t2)
      /\ tr = EStat p (Some size) :: t2)
  \/ (os_stat_size w p = None /\ r = Raise (OSError "stat") /\ w' = w
      /\ tr = [EStat p None]).
Proof.
  unfold bind, stat_size. destruct (os_stat_size w p) as [size|].
  - destruct (k size w) as [[r2 w2] t2] eqn:Hk. intros [= <- <- <-].
    left. now exists size, t2.
  - intros [= <- <- <-]. now right.
Qed.

(** *** The command runner *)

Lemma run_command_run (cmd : list string) (env : option (gmap string string))
    (cwd : option Path) (w w' : W) (out : spawn_outcome) :
  os_spawn w cmd (env_or_environ env) (cwd_or_project cwd) = (out, w') ->
  run_command cmd env cwd w
  = (runner_result out, w',
     running_line cmd
       :: ESpawn cmd (env_or_environ env) (cwd_or_project cwd) out
       :: runner_diagnostic out).
Proof.
  intros Hs. unfold run_command, bind, print, spawn.
  fold (env_or_environ env). fold (cwd_or_project cwd). rewrite Hs.
  destruct out as [returncode|what]; [|reflexivity].
  cbn. now destruct (returncode =? 0).
Qed.

(** [run_command] returns [True] exactly when the child exited with
    status zero, and [False] with a diagnostic when it exited with
    another status. *)
Lemma run_command_exit_status (cmd : list string)
    (env : option (gmap string string)) (cwd : option Path) (w w' : W)
    (returncode : Z) :
  os_spawn w cmd (env_or_environ env) (cwd_or_project cwd)
  = (Exited returncode, w') ->
  result_of (run_command cmd env cwd w) = Ok (returncode =? 0)
  /\ (returncode <> 0 ->
      failed_line returncode ∈ trace_of (run_command cmd env cwd w)).
Proof.
  intros Hs. rewrite (run_command_run _ _ _ _ _ _ Hs). split; [reflexivity|].
  intros Hne. cbn. apply Z.eqb_neq in Hne. rewrite Hne.
  do 2 apply list_elem_of_further. apply list_elem_of_here.
Qed.

(** C4 fails on the code for a child that cannot be started: the
    [OSError] of [subprocess.run] is not caught by the handler for
    [CalledProcessError], so [run_command] returns nothing and prints no
    diagnostic; the exception leaves the runner. *)
Theorem run_command_spawn_failure_escapes (cmd : list string)
    (env : option (gmap string string)) (cwd : option Path) (w w' : W)
    (what : string) :
  os_spawn w cmd (env_or_environ env) (cwd_or_project cwd)
  = (NotStarted what, w') ->
  result_of (run_command cmd env cwd w) = Raise (OSError what)
  /\ trace_of (run_command cmd env cwd w)
     = [running_line cmd;
        ESpawn cmd (env_or_environ env) (cwd_or_project cwd) (NotStarted what)].
Proof.
  intros Hs. now rewrite (run_command_run _ _ _ _ _ _ Hs).
Qed.

End Runs.

Lemma run_command_spawn_failure_escapes_witness :
  result_of
    (run_command (H := Toy.host no_rustup_machine)
       ["rustup"; "target"; "add"; "x86_64-pc-windows-gnu"] None None [Toy.clang])
  = Raise (OSError "[Errno 2] No such file or directory: 'rustup'").
Proof.
  apply (run_command_spawn_failure_escapes (H := Toy.host no_rustup_machine)
           ["rustup"; "target"; "add"; "x86_64-pc-windows-gnu"] None None
           [Toy.clang] [Toy.clang]).
  reflexivity.
Defined.

(** With [rustup] missing the whole run dies of the exception: the
    prerequisite check does not look for [rustup]. *)
Example main_without_rustup :
  result_of (main (H := Toy.host no_rustup_machine)
               (mkArgs Check X64 None) [Toy.clang])
  = Raise (OSError "[Errno 2] No such file or directory: 'rustup'").
Proof. vm_compute. reflexivity. Qed.

(** ** The phases of a run *)

Section Phases.

Context {W : Type} `{Host W}.

(** Membership in a list written out. *)
Ltac in_list :=
  solve [repeat first [apply list_elem_of_here | apply list_elem_of_further]].

Lemma print_not_spawn (tr : list event) (cmd : list string)
    (env : gmap string string) (cwd : Path) (out : spawn_outcome) :
  Forall is_print tr -> ESpawn cmd env cwd out ∉ tr.
Proof.
  intros Hall Hin. rewrite Forall_forall in Hall. exact (Hall _ Hin).
Qed.

Lemma print_not_exists (tr : list event) (p : Path) (present : bool) :
  Forall is_print tr -> EExists p present ∉ tr.
Proof.
  intros Hall Hin. rewrite Forall_forall in Hall. exact (Hall _ Hin).
Qed.

Lemma runner_diagnostic_prints (out : spawn_outcome) :
  Forall is_print (runner_diagnostic out).
Proof.
  destruct out as [c|what]; cbn; [destruct (c =? 0)|];
    repeat constructor.
Qed.

(** *** Prerequisites *)

Arguments clang_path : simpl never.

Lemma check_prerequisites_run (w : W) :
  exists tp : list event,
    check_prerequisites w = (Ok (prereq_ok w), w, tp)
    /\ probes tp = prereq_probes w
    /\ (forall cmd env cwd out, ESpawn cmd env cwd out ∉ tp)
    /\ (forall p, EExists p false ∈ tp -> prereq_ok w = false).
Proof.
  unfold check_prerequisites, prereq_ok, prereq_probes, bind, print, which,
    exists_, ret.
  fold clang_path.
  destruct (os_which w "cargo"); cbn;
    [destruct (os_which w "x86_64-w64-mingw32-gcc"); cbn;
     [destruct (os_exists w clang_path); cbn|]|];
    (eexists; split; [reflexivity|]; split; [reflexivity|]; split;
     [intros cmd env cwd out Hin | intros p Hin; try reflexivity];
     repeat (apply elem_of_cons in Hin as [Hin|Hin]; [discriminate|]);
     now apply elem_of_nil in Hin).
Qed.

(** *** Toolchain installation *)

Lemma install_event_mono (items items' : list (string * Target)) (e : event) :
  items ⊆ items' -> install_event items e -> install_event items' e.
Proof.
  intros Hsub. destruct e; cbn; try tauto.
  intros (-> & -> & name & t & Hin & ->). repeat split; eauto.
Qed.

(** The loop returns [True] only after every item was installed with
    status zero; it returns [False] or raises as soon as one [rustup]
    ends otherwise, and then some child in the trace did not exit with
    status zero. *)
Lemma ensure_targets_loop_spec (items : list (string * Target)) (w w' : W)
    (r : result bool) (tr : list event) :
  ensure_targets_loop items w = (r, w', tr) ->
  Forall (install_event items) tr
  /\ ((r = Ok true
       /\ (forall name t, (name, t) ∈ items ->
             ESpawn (rustup_cmd t) os_environ PROJECT_DIR (Exited 0) ∈ tr)
       /\ (forall cmd env cwd out,
             ESpawn cmd env cwd out ∈ tr -> out = Exited 0))
      \/ ((r = Ok false \/ exists e, r = Raise e)
          /\ exists cmd env cwd out,
               ESpawn cmd env cwd out ∈ tr /\ out <> Exited 0)).
Proof.
  revert w w' r tr. induction items as [|[name t] rest IH]; intros w w' r tr.
  - intros [= <- <- <-]. split; [constructor|]. left.
    split; [reflexivity|]. split; intros; exfalso; eapply not_elem_of_nil; eauto.
  - cbn [ensure_targets_loop]. fold (rustup_cmd t).
    destruct (os_spawn w (rustup_cmd t) (env_or_environ None)
                (cwd_or_project None)) as [out w1] eqn:Hs.
    pose proof (run_command_run _ None None _ _ _ Hs) as Hrun.
    assert (Hev : install_event ((name, t) :: rest)
                    (ESpawn (rustup_cmd t) os_environ PROJECT_DIR out)).
    { cbn. repeat split. exists name, t. split; [in_list|reflexivity]. }
    destruct out as [c|what].
    + destruct (Z.eqb_spec c 0) as [->|Hc].
      * rewrite (bind_ok _ _ _ _ _ _ Hrun). cbn [negb Z.eqb].
        destruct (ensure_targets_loop rest w1) as [[r2 w2] t2] eqn:Hrest.
        cbn. intros [= <- <- <-].
        destruct (IH _ _ _ _ Hrest) as [Hall Hcases]. split.
        { constructor; [exact I|]. constructor; [exact Hev|].
          eapply Forall_impl; [exact Hall|].
          intros e. apply install_event_mono.
          intros x Hx. now apply list_elem_of_further. }
        destruct Hcases as [(-> & Hinst & Hzero)|(Hr & cmd & env & cwd & out & Hin & Hout)].
        -- left. split; [reflexivity|]. split.
           ++ intros name' t' Hin.
              apply elem_of_cons in Hin as [[= -> ->]|Hin]; [in_list|].
              do 2 apply list_elem_of_further. now apply (Hinst name').
           ++ intros cmd env cwd out Hin.
              apply elem_of_cons in Hin as [Hin|Hin]; [discriminate|].
              apply elem_of_cons in Hin as [[= _ _ _ <-]|Hin]; [reflexivity|].
              eapply Hzero, Hin.
        -- right. split; [exact Hr|]. exists cmd, env, cwd, out.
           split; [|exact Hout]. now do 2 apply list_elem_of_further.
      * rewrite (bind_ok _ _ _ _ _ _ Hrun). cbn [runner_result].
        apply Z.eqb_neq in Hc as Hc'. rewrite Hc'. cbn.
        intros [= <- <- <-]. split.
        { constructor; [exact I|]. constructor; [exact Hev|].
          rewrite Hc'. repeat constructor. }
        right. split; [now left|].
        exists (rustup_cmd t), os_environ, PROJECT_DIR, (Exited c).
        split; [in_list|]. congruence.
    + rewrite (bind_raise _ _ _ _ _ _ Hrun). intros [= <- <- <-]. split.
      { constructor; [exact I|]. constructor; [exact Hev|]. constructor. }
      right. split; [right; eauto|].
      exists (rustup_cmd t), os_environ, PROJECT_DIR, (NotStarted what).
      split; [in_list|]. discriminate.
Qed.

(** *** Building and checking one target *)

Lemma TARGETS_getitem_registered (name : string) (t : Target) :
  assoc TARGETS name = Some t -> TARGETS_getitem name = Ok t.
Proof. intros Hreg. unfold TARGETS_getitem. now rewrite Hreg. Qed.

(** A derived environment is never empty, so [env or os.environ] in
    [run_command] keeps it. *)
Lemma get_env_nonempty (environ env : gmap string string) (name : string) :
  get_env_for_target environ name = Ok env -> env <> ∅.
Proof.
  unfold get_env_for_target.
  destruct (TARGETS_getitem name) as [t| |]; cbn [rbind]; [|discriminate..].
  destruct (use_llvm_mingw t); [destruct (getitem environ "PATH")|];
    cbn [rbind]; try discriminate;
    (destruct (Str.contains "gnullvm" (triple t)); intros [= <-];
     apply insert_non_empty).
Qed.

Lemma env_or_environ_derived (environ env : gmap string string) (name : string) :
  get_env_for_target environ name = Ok env ->
  env_or_environ (Some env) = env.
Proof.
  intros Hne%get_env_nonempty. unfold env_or_environ. now case_decide.
Qed.

Lemma env_or_environ_build (env0 : gmap string string) (jobs : option Z) :
  env_or_environ (Some (build_env env0 jobs)) = build_env env0 jobs.
Proof.
  unfold env_or_environ. case_decide as He; [|reflexivity].
  now destruct (insert_non_empty env0 "CARGO_BUILD_JOBS" (Str.of_Z (num_jobs jobs))).
Qed.

(** A run of [build_target] in which the environment is derived: the
    banner, then [cargo build] under the derived environment extended
    with [CARGO_BUILD_JOBS]. *)
Lemma build_target_run (name : string) (t : Target) (jobs : option Z)
    (env0 : gmap string string) (w w' : W) (out : spawn_outcome) :
  assoc TARGETS name = Some t ->
  get_env_for_target os_environ name = Ok env0 ->
  os_spawn w (build_cmd t jobs) (build_env env0 jobs) PROJECT_DIR = (out, w') ->
  build_target name jobs w
  = (runner_result out, w',
     (build_banner name t jobs
      ++ running_line (build_cmd t jobs)
         :: ESpawn (build_cmd t jobs) (build_env env0 jobs) PROJECT_DIR out
         :: runner_diagnostic out)%list).
Proof.
  intros Hreg Henv Hs. unfold build_target.
  rewrite (TARGETS_getitem_registered _ _ Hreg), Henv.
  fold (num_jobs jobs). fold (build_cmd t jobs). fold (build_env env0 jobs).
  pose proof (run_command_run (build_cmd t jobs) (Some (build_env env0 jobs))
                (Some PROJECT_DIR) w w' out) as Hrun.
  rewrite env_or_environ_build in Hrun. specialize (Hrun Hs).
  unfold bind, lift, print. unfold build_cmd, build_env in Hrun.
  rewrite Hrun. reflexivity.
Qed.

(** A run of [build_target] in which the derivation raises: the banner,
    and no child at all. *)
Lemma build_target_raise (name : string) (t : Target) (jobs : option Z)
    (e : exn) (w : W) :
  assoc TARGETS name = Some t ->
  get_env_for_target os_environ name = Raise e ->
  build_target name jobs w = (Raise e, w, build_banner name t jobs).
Proof.
  intros Hreg Henv. unfold build_target.
  rewrite (TARGETS_getitem_registered _ _ Hreg), Henv. reflexivity.
Qed.

Lemma check_target_run (name : string) (t : Target)
    (env0 : gmap string string) (w w' : W) (out : spawn_outcome) :
  assoc TARGETS name = Some t ->
  get_env_for_target os_environ name = Ok env0 ->
  os_spawn w (check_cmd t) env0 PROJECT_DIR = (out, w') ->
  check_target name w
  = (runner_result out, w',
     (check_banner name t
      ++ running_line (check_cmd t)
         :: ESpawn (check_cmd t) env0 PROJECT_DIR out
         :: runner_diagnostic out)%list).
Proof.
  intros Hreg Henv Hs. unfold check_target.
  rewrite (TARGETS_getitem_registered _ _ Hreg), Henv.
  fold (check_cmd t).
  pose proof (run_command_run (check_cmd t) (Some env0)
                (Some PROJECT_DIR) w w' out) as Hrun.
  rewrite (env_or_environ_derived _ _ _ Henv) in Hrun. specialize (Hrun Hs).
  unfold bind, lift, print. unfold check_cmd in Hrun.
  rewrite Hrun. reflexivity.
Qed.

Lemma check_target_raise (name : string) (t : Target) (e : exn) (w : W) :
  assoc TARGETS name = Some t ->
  get_env_for_target os_environ name = Raise e ->
  check_target name w = (Raise e, w, check_banner name t).
Proof.
  intros Hreg Henv. unfold check_target.
  rewrite (TARGETS_getitem_registered _ _ Hreg), Henv. reflexivity.
Qed.

(** The derivation for a registered target returns or raises; it never
    leaves through [sys.exit]. *)
Lemma get_env_registered (environ : gmap string string) (name : string)
    (t : Target) :
  assoc TARGETS name = Some t ->
  (exists env, get_env_for_target environ name = Ok env)
  \/ (get_env_for_target environ name = Raise (KeyError "PATH")
      /\ environ !! "PATH" = None /\ use_llvm_mingw t = true).
Proof.
  intros [[-> ->]|[-> ->]]%registered_cases.
  - left. eexists. apply get_env_x64.
  - destruct (environ !! "PATH") as [path|] eqn:Hp.
    + left. eexists. apply (get_env_arm64 _ _ Hp).
    + right. split; [now apply get_env_arm64_no_path|]. now split.
Qed.

(** *** Staging *)

(** The four ways a run of [copy_to_output] can go. *)
Lemma copy_to_output_inv (name : string) (path : Path) (w w' : W)
    (r : result (option Path)) (tr : list event) :
  get_build_output_path name = Ok path ->
  copy_to_output name w = (r, w', tr) ->
  let final := get_final_output_path name in
  (os_exists w path = false /\ r = Ok None /\ w' = w
   /\ tr = [EExists path false; not_found_line path])
  \/ (os_exists w path = true
      /\ ((exists what,
             r = Raise (OSError what)
             /\ tr = [EExists path true; EMkdir OUTPUT_DIR (Some what)])
          \/ (exists what,
                r = Raise (OSError what)
                /\ tr = [EExists path true; EMkdir OUTPUT_DIR None;
                         copying_line path final;
                         ECopy path final (Some what)])
          \/ (r = Ok (Some final)
              /\ tr = [EExists path true; EMkdir OUTPUT_DIR None;
                       copying_line path final; ECopy path final None]))).
Proof.
  intros Hpath. unfold copy_to_output. rewrite Hpath.
  unfold bind, lift, exists_, mkdir, copy2, print, ret.
  destruct (os_exists w path) eqn:Hex; cbn.
  - destruct (os_mkdir w OUTPUT_DIR) as [[what|] w1]; cbn.
    + intros [= <- <- <-]. right. split; [reflexivity|]. left. now exists what.
    + destruct (os_copy2 w1 path (get_final_output_path name))
        as [[what|] w2]; cbn; intros [= <- <- <-]; right;
        (split; [reflexivity|]); right; [left; now exists what | now right].
  - intros [= <- <- <-]. now left.
Qed.

Lemma staged_app_l (name : string) (t1 t2 : list event) :
  staged name t1 -> staged name (t1 ++ t2).
Proof.
  intros (path & Hp & He & Hc). exists path. rewrite !elem_of_app. tauto.
Qed.

Lemma staged_app_r (name : string) (t1 t2 : list event) :
  staged name t2 -> staged name (t1 ++ t2).
Proof.
  intros (path & Hp & He & Hc). exists path. rewrite !elem_of_app. tauto.
Qed.

Lemma staging_attempted_app_r (name : string) (t1 t2 : list event) :
  staging_attempted name t2 -> staging_attempted name (t1 ++ t2).
Proof.
  intros (path & present & Hp & He & Hc). exists path, present.
  rewrite !elem_of_app. tauto.
Qed.

Lemma copy_to_output_events (name : string) (path : Path) (w w' : W)
    (r : result (option Path)) (tr : list event) :
  get_build_output_path name = Ok path ->
  copy_to_output name w = (r, w', tr) ->
  Forall staging_event tr
  /\ (forall c, r <> SysExit c)
  /\ (forall p, EExists p false ∈ tr -> r = Ok None)
  /\ (r = Ok None -> EExists path false ∈ tr)
  /\ (forall final, r = Ok (Some final) ->
        final = get_final_output_path name /\ staged name tr)
  /\ ((forall e, r <> Raise e) -> staging_attempted name tr).
Proof.
  intros Hpath Hrun.
  destruct (copy_to_output_inv _ _ _ _ _ _ Hpath Hrun)
    as [(Hex & -> & -> & ->)
       |(Hex & [(what & -> & ->)|[(what & -> & ->)|(-> & ->)]])].
  - split; [repeat constructor|]. split; [discriminate|].
    split; [reflexivity|]. split; [intros _; in_list|].
    split; [discriminate|]. intros _. exists path, false.
    split; [exact Hpath|]. split; [in_list|discriminate].
  - split; [repeat constructor|]. split; [discriminate|]. split.
    { intros p Hin.
      repeat (apply elem_of_cons in Hin as [Hin|Hin]; [discriminate|]).
      now apply elem_of_nil in Hin. }
    split; [discriminate|]. split; [discriminate|].
    intros Hno. now destruct (Hno (OSError what)).
  - split; [repeat constructor|]. split; [discriminate|]. split.
    { intros p Hin.
      repeat (apply elem_of_cons in Hin as [Hin|Hin]; [discriminate|]).
      now apply elem_of_nil in Hin. }
    split; [discriminate|]. split; [discriminate|].
    intros Hno. now destruct (Hno (OSError what)).
  - split; [repeat constructor|]. split; [discriminate|]. split.
    { intros p Hin.
      repeat (apply elem_of_cons in Hin as [Hin|Hin]; [discriminate|]).
      now apply elem_of_nil in Hin. }
    split; [discriminate|]. split.
    { intros final [= <-]. split; [reflexivity|]. exists path.
      split; [exact Hpath|]. split; in_list. }
    intros _. exists path, true. split; [exact Hpath|]. split; [in_list|].
    intros _. in_list.
Qed.

(** *** The summary loop of [build-all] *)

Lemma summary_post_raise (items : list (string * bool)) (all_success : bool)
    (e : exn) (tr : list event) :
  Forall staging_event tr -> summary_post items all_success (Raise e) tr.
Proof.
  intros Hall. split; [exact Hall|]. split; [discriminate|].
  split; [discriminate|]. split; [discriminate|].
  intros Hno. now destruct (Hno e).
Qed.

(** An item that failed, followed by the rest of the loop run with
    [all_success = False]. *)
Lemma summary_post_failed (name : string) (b all_success : bool)
    (rest : list (string * bool)) (r : result bool) (t1 t2 : list event) :
  Forall staging_event t1 ->
  (b = true -> staging_attempted name t1) ->
  summary_post rest false r t2 ->
  summary_post ((name, b) :: rest) all_success r (t1 ++ t2).
Proof.
  intros Ht1 Hatt (Ht2 & Hexit & Htrue & Hprobe & Hrest).
  split; [now apply Forall_app|]. split; [exact Hexit|].
  split; [intros Hr; now destruct (Htrue Hr)|].
  split; [intros p _ Hr; now destruct (Htrue Hr)|].
  intros Hno name' Hin.
  apply elem_of_cons in Hin as [[= -> <-]|Hin].
  - destruct (Hatt eq_refl) as (path & present & Hp & He & Hc).
    exists path, present. rewrite !elem_of_app. tauto.
  - now apply staging_attempted_app_r, Hrest.
Qed.

(** An item that was staged, followed by the rest of the loop run with
    the same [all_success]. *)
Lemma summary_post_staged (name : string) (all_success : bool)
    (rest : list (string * bool)) (r : result bool) (t1 t2 : list event) :
  Forall staging_event t1 ->
  (forall p, EExists p false ∉ t1) ->
  staged name t1 ->
  summary_post rest all_success r t2 ->
  summary_post ((name, true) :: rest) all_success r (t1 ++ t2).
Proof.
  intros Ht1 Hno1 Hst (Ht2 & Hexit & Htrue & Hprobe & Hrest).
  split; [now apply Forall_app|]. split; [exact Hexit|]. split.
  { intros Hr. destruct (Htrue Hr) as [-> Hitems]. split; [reflexivity|].
    intros name' b Hin. apply elem_of_cons in Hin as [[= -> ->]|Hin].
    - split; [reflexivity|]. now apply staged_app_l.
    - destruct (Hitems _ _ Hin) as [-> Hst']. split; [reflexivity|].
      now apply staged_app_r. }
  split.
  { intros p Hin. apply elem_of_app in Hin as [Hin|Hin].
    - now destruct (Hno1 p).
    - now apply (Hprobe p). }
  intros Hno name' Hin. apply elem_of_cons in Hin as [[= ->]|Hin].
  - destruct Hst as (path & Hp & He & Hc). exists path, true.
    rewrite !elem_of_app. tauto.
  - now apply staging_attempted_app_r, Hrest.
Qed.

Lemma summary_loop_spec (items : list (string * bool)) (all_success : bool)
    (w w' : W) (r : result bool) (tr : list event) :
  (forall name b, (name, b) ∈ items -> exists t, assoc TARGETS name = Some t) ->
  summary_loop items all_success w = (r, w', tr) ->
  summary_post items all_success r tr.
Proof.
  revert all_success w w' r tr.
  induction items as [|[name b] rest IH]; intros all_success w w' r tr Hreg.
  - intros [= <- <- <-]. split; [constructor|]. split; [discriminate|].
    split.
    { intros [= ->]. split; [reflexivity|]. intros name b Hin.
      now apply elem_of_nil in Hin. }
    split; [intros p Hin; now apply elem_of_nil in Hin|].
    intros _ name Hin. now apply elem_of_nil in Hin.
  - assert (Hreg' : forall name b, (name, b) ∈ rest ->
                      exists t, assoc TARGETS name = Some t).
    { intros name' b' Hin. apply (Hreg name' b').
      now apply list_elem_of_further. }
    destruct (Hreg name b) as [t Ht]; [apply list_elem_of_here|].
    pose proof (get_build_output_path_parts name t Ht) as Hpath.
    cbn [summary_loop]. destruct b.
    + destruct (copy_to_output name w) as [[ro w1] t1] eqn:Hc.
      destruct (copy_to_output_events _ _ _ _ _ _ Hpath Hc)
        as (Hev & Hexit & Hprobe & Hnone & Hsome & Hatt).
      destruct ro as [[final|]|e|c].
      * destruct (Hsome final eq_refl) as [-> Hst]. intros Hrun.
        apply (bind_ok_inv _ _ _ _ _ _ _ _ _ Hc) in Hrun as (t2 & Hrun & ->).
        apply stat_inv in Hrun
          as [(size & t3 & _ & Hrun & ->)|(_ & -> & -> & ->)].
        -- apply print_inv in Hrun as (t4 & Hrest & ->).
           change (EStat ?p ?sz :: ?line :: t4)
             with ([EStat p sz; line] ++ t4)%list.
           rewrite app_assoc.
           apply summary_post_staged; [| | |now apply (IH _ _ _ _ _ Hreg' Hrest)].
           ++ apply Forall_app. split; [exact Hev|repeat constructor].
           ++ intros p Hin. apply elem_of_app in Hin as [Hin|Hin].
              ** now specialize (Hprobe p Hin).
              ** repeat (apply elem_of_cons in Hin as [Hin|Hin]; [discriminate|]).
                 now apply elem_of_nil in Hin.
           ++ now apply staged_app_l.
        -- apply summary_post_raise.
           apply Forall_app. split; [exact Hev|repeat constructor].
      * intros Hrun.
        apply (bind_ok_inv _ _ _ _ _ _ _ _ _ Hc) in Hrun as (t2 & Hrun & ->).
        apply print_inv in Hrun as (t3 & Hrest & ->).
        change (?p :: t3) with ([p] ++ t3)%list. rewrite app_assoc.
        apply summary_post_failed; [| |now apply (IH _ _ _ _ _ Hreg' Hrest)].
        ++ apply Forall_app. split; [exact Hev|repeat constructor].
        ++ intros _. destruct Hatt as (path & present & Hp & He & Hcp);
             [discriminate|].
           exists path, present. rewrite !elem_of_app. tauto.
      * rewrite (bind_raise _ _ _ _ _ _ Hc). intros [= <- <- <-].
        now apply summary_post_raise.
      * now destruct (Hexit c).
    + intros Hrun. apply print_inv in Hrun as (t3 & Hrest & ->).
      change (?p :: t3) with ([p] ++ t3)%list.
      apply summary_post_failed; [|discriminate|now apply (IH _ _ _ _ _ Hreg' Hrest)].
      repeat constructor.
Qed.

(** *** The build loop of [build-all] *)

Lemma built_app_l jobs t1 t2 name c :
  built jobs t1 name c -> built jobs (t1 ++ t2) name c.
Proof.
  intros (t & env & Ht & Hin). exists t, env. rewrite elem_of_app. tauto.
Qed.

Lemma built_app_r jobs t1 t2 name c :
  built jobs t2 name c -> built jobs (t1 ++ t2) name c.
Proof.
  intros (t & env & Ht & Hin). exists t, env. rewrite elem_of_app. tauto.
Qed.

Lemma prints_build_events jobs (tr : list event) :
  Forall is_print tr -> Forall (build_event jobs) tr.
Proof. intros Hall. eapply Forall_impl; [exact Hall|]. now intros []. Qed.

Lemma build_banner_prints name t jobs : Forall is_print (build_banner name t jobs).
Proof. repeat constructor. Qed.

(** One build: it returns the verdict of the runner on the status of
    [cargo build], or raises; it never calls [sys.exit]. *)
Lemma build_target_spec (name : string) (t : Target) (jobs : option Z)
    (w w' : W) (r : result bool) (tr : list event) :
  assoc TARGETS name = Some t ->
  build_target name jobs w = (r, w', tr) ->
  Forall (build_event jobs) tr
  /\ (forall c, r <> SysExit c)
  /\ (forall b, r = Ok b ->
        exists c,
          built jobs tr name c /\ b = (c =? 0)
          /\ forall cmd env cwd out,
               ESpawn cmd env cwd out ∈ tr ->
               cmd = build_cmd t jobs /\ out = Exited c).
Proof.
  intros Hreg Hrun.
  destruct (get_env_registered os_environ _ _ Hreg) as [[env0 Henv]|(Henv & _)].
  - destruct (os_spawn w (build_cmd t jobs) (build_env env0 jobs) PROJECT_DIR)
      as [out w1] eqn:Hs.
    rewrite (build_target_run _ _ _ _ _ _ _ Hreg Henv Hs) in Hrun.
    injection Hrun as <- <- <-. split; [|split].
    + repeat (apply Forall_cons; split; [exact I|]).
      apply Forall_cons. split.
      * cbn. split; [reflexivity|]. now exists name, t, env0.
      * apply prints_build_events, runner_diagnostic_prints.
    + destruct out; discriminate.
    + intros b Hb. destruct out as [c|what]; [|discriminate].
      injection Hb as <-. exists c. split; [|split; [reflexivity|]].
      * exists t, (build_env env0 jobs). split; [exact Hreg|]. in_list.
      * intros cmd env cwd out' Hin.
        repeat (apply elem_of_cons in Hin as [Hin|Hin]; [discriminate|]).
        apply elem_of_cons in Hin as [[= -> _ _ ->]|Hin]; [now split|].
        now apply print_not_spawn in Hin; [|apply runner_diagnostic_prints].
  - rewrite (build_target_raise _ _ _ _ _ Hreg Henv) in Hrun.
    injection Hrun as <- <- <-. split; [|split].
    + apply prints_build_events, build_banner_prints.
    + discriminate.
    + discriminate.
Qed.

(** The build loop visits every name: when it returns, each target was
    built, whatever the earlier ones returned, and [results] maps each
    name to the verdict on its own exit status. *)
Lemma build_all_loop_spec (names : list string) (jobs : option Z)
    (results : list (string * bool)) (w w' : W)
    (r : result (list (string * bool))) (tr : list event) :
  (forall name, name ∈ names -> exists t, assoc TARGETS name = Some t) ->
  build_all_loop names jobs results w = (r, w', tr) ->
  Forall (build_event jobs) tr
  /\ (forall c, r <> SysExit c)
  /\ (forall res, r = Ok res ->
        exists codes : list Z,
          Forall2 (built jobs tr) names codes
          /\ res = record_all results names codes
          /\ forall cmd env cwd out,
               ESpawn cmd env cwd out ∈ tr ->
               exists name t c,
                 (name, c) ∈ zip names codes
                 /\ assoc TARGETS name = Some t
                 /\ cmd = build_cmd t jobs /\ out = Exited c).
Proof.
  revert results w w' r tr.
  induction names as [|name rest IH]; intros results w w' r tr Hreg.
  - intros [= <- <- <-]. split; [constructor|]. split; [discriminate|].
    intros res [= <-]. exists []. split; [constructor|].
    split; [reflexivity|]. intros cmd env cwd out Hin.
    now apply elem_of_nil in Hin.
  - assert (Hreg' : forall n, n ∈ rest -> exists t, assoc TARGETS n = Some t).
    { intros n Hin. apply Hreg. now apply list_elem_of_further. }
    destruct (Hreg name) as [t Ht]; [apply list_elem_of_here|].
    cbn [build_all_loop]. intros Hrun.
    destruct (build_target name jobs w) as [[rb w1] t1] eqn:Hb.
    destruct (build_target_spec _ _ _ _ _ _ _ Ht Hb) as (Hev & Hexit & Hok).
    destruct rb as [b|e|c].
    + eapply bind_ok_inv in Hrun as (t2 & Hrest & ->); [|exact Hb].
      destruct (IH _ _ _ _ _ Hreg' Hrest) as (Hev2 & Hexit2 & Hok2).
      split; [now apply Forall_app|]. split; [exact Hexit2|].
      intros res Hres.
      destruct (Hok2 res Hres) as (codes & Hall & -> & Honly2).
      destruct (Hok b eq_refl) as (c & Hbuilt & -> & Honly).
      exists (c :: codes). split; [|split; [reflexivity|]].
      * constructor; [now apply built_app_l|].
        eapply Forall2_impl; [exact Hall|]. intros n c'. apply built_app_r.
      * intros cmd env cwd out Hin. apply elem_of_app in Hin as [Hin|Hin].
        -- destruct (Honly _ _ _ _ Hin) as [-> ->]. exists name, t, c.
           split; [apply list_elem_of_here|]. now split.
        -- destruct (Honly2 _ _ _ _ Hin) as (n' & t' & c' & Hz & Hrest').
           exists n', t', c'. split; [|exact Hrest'].
           now apply list_elem_of_further.
    + rewrite (bind_raise _ _ _ _ _ _ Hb) in Hrun. injection Hrun as <- <- <-.
      split; [exact Hev|]. split; discriminate.
    + now destruct (Hexit c).
Qed.

(** *** [main], phase by phase *)

Lemma banner_trace_prints (args : Args) (w : W) :
  Forall is_print (banner_trace args w).
Proof.
  unfold banner_trace.
  destruct (os_memtotal_kb w) as [kb|]; [destruct (0 <? kb)|];
    repeat constructor.
Qed.

Lemma ret_then {A B} (a : A) (k : M W B) (w : W) : (ret a;; k) w = k w.
Proof. unfold bind, ret. now destruct (k w) as [[r w2] t2]. Qed.

Lemma main_run (args : Args) (w : W) :
  main args w
  = (result_of (guarded args w), world_of (guarded args w),
     (banner_trace args w ++ trace_of (guarded args w))%list).
Proof.
  assert (Hg : forall k : M W unit,
             (let* mem_gb := get_system_memory_gb in
              print (nl +:+ rule);;
              print "htop-win Cross-Compilation Build";;
              print rule;;
              print ("  CPU cores: " +:+ Str.of_Z CPU_COUNT);;
              match mem_gb with
              | Some kb =>
                  if 0 <? kb
                  then print ("  Total RAM: " +:+ fmt_gb kb +:+ " GB")
                  else ret tt
              | None => ret tt
              end;;
              print ("  Parallel jobs: " +:+
                     Str.of_Z match args_jobs args with
                              | Some j => if j =? 0 then CPU_COUNT else j
                              | None => CPU_COUNT
                              end);;
              print ("  Output directory: " +:+ PathOps.to_str OUTPUT_DIR);;
              k) w
             = (result_of (k w), world_of (k w),
                (banner_trace args w ++ trace_of (k w))%list)).
  { intros k. unfold banner_trace, bind at 1, get_system_memory_gb.
    destruct (k w) as [[r w'] t] eqn:Hk.
    destruct (os_memtotal_kb w) as [kb|]; [destruct (0 <? kb)|];
      unfold bind, print, ret; rewrite Hk; reflexivity. }
  rewrite <- Hg. destruct args as [[] target jobs]; reflexivity.
Qed.

Lemma guarded_run (args : Args) (w : W) :
  exists tp,
    check_prerequisites w = (Ok (prereq_ok w), w, tp)
    /\ guarded args w
       = if prereq_ok w then
           let x := (branch args;; print (nl +:+ "Done!")) w in
           (result_of x, world_of x, (tp ++ trace_of x)%list)
         else (SysExit 1, w, tp).
Proof.
  destruct (check_prerequisites_run w) as (tp & Hp & _).
  exists tp. split; [exact Hp|]. unfold guarded.
  rewrite (bind_ok _ _ _ _ _ _ Hp). destruct (prereq_ok w); cbn [negb].
  - now rewrite ret_then.
  - unfold bind, sys_exit, lift. cbn. now rewrite app_nil_r.
Qed.

Lemma ensure_targets_spec (w w' : W) (r : result bool) (tr : list event) :
  ensure_targets w = (r, w', tr) ->
  Forall (install_event TARGETS) tr
  /\ ((r = Ok true
       /\ (forall name t, (name, t) ∈ TARGETS ->
             ESpawn (rustup_cmd t) os_environ PROJECT_DIR (Exited 0) ∈ tr)
       /\ (forall cmd env cwd out,
             ESpawn cmd env cwd out ∈ tr -> out = Exited 0))
      \/ ((r = Ok false \/ exists e, r = Raise e)
          /\ exists cmd env cwd out,
               ESpawn cmd env cwd out ∈ tr /\ out <> Exited 0)).
Proof.
  unfold ensure_targets. intros (t2 & Hloop & ->)%print_inv.
  destruct (ensure_targets_loop_spec _ _ _ _ _ Hloop) as [Hall Hcases].
  split; [constructor; [exact I|exact Hall]|].
  destruct Hcases as [(-> & Hinst & Hzero)|(Hr & cmd & env & cwd & out & Hin & Hout)].
  - left. split; [reflexivity|]. split.
    + intros name t Hin. apply list_elem_of_further. now apply (Hinst name).
    + intros cmd env cwd out Hin.
      apply elem_of_cons in Hin as [Hin|Hin]; [discriminate|]. eapply Hzero, Hin.
  - right. split; [exact Hr|]. exists cmd, env, cwd, out.
    split; [now apply list_elem_of_further|exact Hout].
Qed.

(** Every run of [main] is of one of four shapes: stopped by the
    prerequisite check; stopped by an installation that returned
    [False]; killed by an exception during the installation; or carried
    on into the rest of the branch. *)
Lemma main_inv (args : Args) (w : W) :
  let tb := banner_trace args w in
  exists tp,
    check_prerequisites w = (Ok (prereq_ok w), w, tp)
    /\ ((prereq_ok w = false /\ main args w = (SysExit 1, w, tb ++ tp)%list)
        \/ (prereq_ok w = true
            /\ exists re we te,
                 ensure_targets w = (re, we, te)
                 /\ ((re = Ok false
                      /\ main args w = (SysExit 1, we, tb ++ tp ++ te)%list)
                     \/ (exists e,
                           re = Raise e
                           /\ main args w = (Raise e, we, tb ++ tp ++ te)%list)
                     \/ (re = Ok true
                         /\ exists ra wa ta,
                              after_install args we = (ra, wa, ta)
                              /\ main args w
                                 = (ra, wa,
                                    tb ++ tp ++ te ++ ta ++ done_trace ra)%list)))).
Proof.
  intros tb. destruct (guarded_run args w) as (tp & Hp & Hg).
  exists tp. split; [exact Hp|]. rewrite main_run, Hg.
  destruct (prereq_ok w); [right|left; now split].
  split; [reflexivity|].
  destruct (ensure_targets w) as [[re we] te] eqn:He.
  exists re, we, te. split; [reflexivity|].
  destruct (ensure_targets_spec _ _ _ _ He) as [_ [(-> & _)|([->|[e ->]] & _)]].
  - right. right. split; [reflexivity|].
    destruct (after_install args we) as [[ra wa] ta] eqn:Ha.
    exists ra, wa, ta. split; [reflexivity|].
    assert (Hb : branch args w = (ra, wa, (te ++ ta)%list)).
    { unfold branch. rewrite (bind_ok _ _ _ _ _ _ He). cbn [negb].
      now rewrite ret_then, Ha. }
    destruct ra as [[]|e|c].
    + rewrite (bind_ok _ _ _ _ _ _ Hb). cbn. now rewrite <- !app_assoc.
    + rewrite (bind_raise _ _ _ _ _ _ Hb). cbn. now rewrite app_nil_r.
    + rewrite (bind_exit _ _ _ _ _ _ Hb). cbn. now rewrite app_nil_r.
  - left. split; [reflexivity|].
    assert (Hb : branch args w = (SysExit 1, we, te)).
    { unfold branch. rewrite (bind_ok _ _ _ _ _ _ He). cbn.
      now rewrite app_nil_r. }
    now rewrite (bind_exit _ _ _ _ _ _ Hb).
  - right. left. exists e. split; [reflexivity|].
    assert (Hb : branch args w = (Raise e, we, te)).
    { unfold branch. now rewrite (bind_raise _ _ _ _ _ _ He). }
    now rewrite (bind_raise _ _ _ _ _ _ Hb).
Qed.

(** *** The rest of the branch *)

Lemma build_action_events jobs (tr : list event) :
  Forall (build_event jobs) tr -> Forall (action_event jobs) tr.
Proof.
  intros Hall. eapply Forall_impl; [exact Hall|].
  intros [] He; try exact I; try now destruct He.
  destruct He as (-> & name & t & env0 & Ht & Henv & -> & ->).
  split; [reflexivity|]. exists name, t, env0. tauto.
Qed.

Lemma staging_action_events jobs (tr : list event) :
  Forall staging_event tr -> Forall (action_event jobs) tr.
Proof.
  intros Hall. eapply Forall_impl; [exact Hall|].
  intros [] He; try exact I; now destruct He.
Qed.

Lemma print_action_events jobs (tr : list event) :
  Forall is_print tr -> Forall (action_event jobs) tr.
Proof.
  intros Hall. eapply Forall_impl; [exact Hall|].
  intros [] He; try exact I; now destruct He.
Qed.

Lemma build_events_no_probe jobs (tr : list event) (p : Path) (b : bool) :
  Forall (build_event jobs) tr -> EExists p b ∉ tr.
Proof.
  intros Hall Hin. rewrite Forall_forall in Hall. exact (Hall _ Hin).
Qed.

Lemma choice_registered (c : TargetChoice) :
  exists t, assoc TARGETS (choice_name c) = Some t.
Proof. destruct c; eexists; reflexivity. Qed.

Lemma check_target_spec (name : string) (t : Target) (jobs : option Z)
    (w w' : W) (r : result bool) (tr : list event) :
  assoc TARGETS name = Some t ->
  check_target name w = (r, w', tr) ->
  Forall (action_event jobs) tr
  /\ (forall c, r <> SysExit c)
  /\ (forall p b, EExists p b ∉ tr).
Proof.
  intros Hreg Hrun.
  destruct (get_env_registered os_environ _ _ Hreg) as [[env0 Henv]|(Henv & _)].
  - destruct (os_spawn w (check_cmd t) env0 PROJECT_DIR) as [out w1] eqn:Hs.
    rewrite (check_target_run _ _ _ _ _ _ Hreg Henv Hs) in Hrun.
    injection Hrun as <- <- <-.
    pose proof (runner_diagnostic_prints out) as Hd. split; [|split].
    + repeat (apply Forall_cons; split; [exact I|]).
      apply Forall_cons. split.
      * cbn. split; [reflexivity|]. exists name, t, env0. tauto.
      * now apply print_action_events.
    + destruct out; discriminate.
    + intros p b Hin.
      repeat (apply elem_of_cons in Hin as [Hin|Hin]; [discriminate|]).
      now apply print_not_exists in Hin.
  - rewrite (check_target_raise _ _ _ _ Hreg Henv) in Hrun.
    injection Hrun as <- <- <-. split; [|split].
    + repeat constructor.
    + discriminate.
    + intros p b Hin.
      repeat (apply elem_of_cons in Hin as [Hin|Hin]; [discriminate|]).
      now apply elem_of_nil in Hin.
Qed.

(** The build loop over the two registered targets. *)
Lemma build_all_TARGETS (jobs : option Z) (w w' : W)
    (r : result (list (string * bool))) (tr : list event) :
  build_all_loop (map fst TARGETS) jobs [] w = (r, w', tr) ->
  Forall (build_event jobs) tr
  /\ (forall c, r <> SysExit c)
  /\ (forall res, r = Ok res ->
        exists c1 c2,
          res = [("x64", c1 =? 0); ("arm64", c2 =? 0)]
          /\ built jobs tr "x64" c1 /\ built jobs tr "arm64" c2
          /\ forall cmd env cwd out,
               ESpawn cmd env cwd out ∈ tr ->
               (cmd = build_cmd x64 jobs /\ out = Exited c1)
               \/ (cmd = build_cmd arm64 jobs /\ out = Exited c2)).
Proof.
  rewrite TARGETS_eq. cbn [map fst]. intros Hrun.
  assert (Hreg : forall name, name ∈ ["x64"; "arm64"] ->
                   exists t, assoc TARGETS name = Some t).
  { intros name Hin.
    apply elem_of_cons in Hin as [->|Hin]; [now exists x64|].
    apply elem_of_cons in Hin as [->|Hin]; [now exists arm64|].
    now apply elem_of_nil in Hin. }
  destruct (build_all_loop_spec _ _ _ _ _ _ _ Hreg Hrun) as (Hev & Hexit & Hok).
  split; [exact Hev|]. split; [exact Hexit|].
  intros res Hres. destruct (Hok res Hres) as (codes & Hall & -> & Honly).
  apply Forall2_cons_inv_l in Hall as (c1 & codes1 & Hb1 & Hall & ->).
  apply Forall2_cons_inv_l in Hall as (c2 & codes2 & Hb2 & Hall & ->).
  apply Forall2_nil_inv_l in Hall as ->.
  exists c1, c2. split; [reflexivity|]. split; [exact Hb1|].
  split; [exact Hb2|]. intros cmd env cwd out Hin.
  destruct (Honly _ _ _ _ Hin) as (name & t & c & Hz & Ht & -> & ->).
  cbn [zip zip_with] in Hz.
  apply elem_of_cons in Hz as [[= -> ->]|Hz];
    [left; injection Ht as <-; now split|].
  apply elem_of_cons in Hz as [[= -> ->]|Hz];
    [right; injection Ht as <-; now split|].
  now apply elem_of_nil in Hz.
Qed.

Lemma exit_then {B} (c : Z) (k : M W B) (w : W) :
  (sys_exit (A := unit) c;; k) w = (SysExit c, w, []).
Proof. reflexivity. Qed.

(** The [build-all] branch once the targets are installed. *)
Lemma after_install_build_all (target : TargetChoice) (jobs : option Z)
    (we wa : W) (ra : result unit) (ta : list event) :
  after_install (mkArgs BuildAll target jobs) we = (ra, wa, ta) ->
  Forall (action_event jobs) ta
  /\ (forall p, EExists p false ∈ ta -> exit_status ra = 1)
  /\ (ra = Ok tt \/ ra = SysExit 1 \/ exists e, ra = Raise e)
  /\ (ra = Ok tt ->
      forall name t, (name, t) ∈ TARGETS ->
        built jobs ta name 0 /\ staged name ta)
  /\ ((forall e, ra <> Raise e) ->
      forall name t, (name, t) ∈ TARGETS ->
        exists c, built jobs ta name c
                  /\ (c = 0 -> staging_attempted name ta))
  /\ (forall name c, built jobs ta name c -> c <> 0 -> exit_status ra = 1).
Proof.
  unfold after_install. cbn [args_action args_jobs]. intros Hrun.
  destruct (build_all_loop (map fst TARGETS) jobs [] we)
    as [[rb w1] t1] eqn:Hb.
  destruct (build_all_TARGETS _ _ _ _ _ Hb) as (Hev1 & Hexit1 & Hok1).
  destruct rb as [res|e|c]; [| |now destruct (Hexit1 c)].
  2:{ rewrite (bind_raise _ _ _ _ _ _ Hb) in Hrun. injection Hrun as <- <- <-.
      split; [now apply build_action_events|].
      split; [reflexivity|]. split; [right; right; eauto|].
      split; [discriminate|]. split; [|reflexivity].
      intros Hno. now destruct (Hno e). }
  destruct (Hok1 res eq_refl) as (c1 & c2 & -> & Hb1 & Hb2 & Honly).
  eapply bind_ok_inv in Hrun as (t2 & Hrun & Eta); [|exact Hb].
  apply print_inv in Hrun as (t2a & Hrun & E2).
  apply print_inv in Hrun as (t2b & Hrun & E2a).
  apply print_inv in Hrun as (t2c & Hrun & E2b).
  destruct (summary_loop [("x64", c1 =? 0); ("arm64", c2 =? 0)] true w1)
    as [[rs w2] t3] eqn:Hs.
  assert (Hreg : forall name b,
             (name, b) ∈ [("x64", c1 =? 0); ("arm64", c2 =? 0)] ->
             exists t, assoc TARGETS name = Some t).
  { intros name b Hin.
    apply elem_of_cons in Hin as [[= -> _]|Hin]; [now exists x64|].
    apply elem_of_cons in Hin as [[= -> _]|Hin]; [now exists arm64|].
    now apply elem_of_nil in Hin. }
  destruct (summary_loop_spec _ _ _ _ _ _ Hreg Hs)
    as (Hev3 & Hexit3 & Htrue & Hprobe & Hatt).
  set (lines := [EPrint (nl +:+ rule); EPrint "Build Summary"; EPrint rule]).
  assert (Hshape : exists t4, t2c = (t3 ++ t4)%list
                              /\ Forall is_print t4
                              /\ exit_status ra = (if rs is Ok true then 0 else 1)
                              /\ (rs = Ok true -> ra = Ok tt)
                              /\ (rs = Ok false -> ra = SysExit 1)
                              /\ (forall e, rs = Raise e -> ra = Raise e)).
  { destruct rs as [[|]|e|c]; [| | |now destruct (Hexit3 c)].
    - eapply bind_ok_inv in Hrun as (t4 & Hrun & E4); [|exact Hs].
      injection Hrun as <- <- <-. exists [].
      split; [exact E4|]. split; [constructor|]. now repeat split.
    - eapply bind_ok_inv in Hrun as (t4 & Hrun & E4); [|exact Hs].
      injection Hrun as <- <- <-. exists [].
      split; [exact E4|]. split; [constructor|]. now repeat split.
    - rewrite (bind_raise _ _ _ _ _ _ Hs) in Hrun. injection Hrun as <- <- <-.
      exists []. rewrite app_nil_r.
      split; [reflexivity|]. split; [constructor|].
      repeat split; try discriminate. now intros e' [= ->]. }
  destruct Hshape as (t4 & E4 & Ht4 & Hstatus & HokT & HokF & Hraise).
  assert (Eshape : ta = (t1 ++ lines ++ t3 ++ t4)%list) by (now subst).
  clear Eta E2 E2a E2b E4. subst ta.
  assert (Hra : ra = Ok tt -> rs = Ok true).
  { intros ->. destruct rs as [[|]|e|c]; try reflexivity;
      [now specialize (HokF eq_refl) | now specialize (Hraise e eq_refl)
      | now destruct (Hexit3 c)]. }
  split; [|split; [|split; [|split; [|split]]]].
  - apply Forall_app. split; [now apply build_action_events|].
    apply Forall_app. split; [repeat constructor|].
    apply Forall_app. split; [now apply staging_action_events|].
    now apply print_action_events.
  - intros p Hin. rewrite Hstatus.
    apply elem_of_app in Hin as [Hin|Hin];
      [now destruct (build_events_no_probe jobs _ _ _ Hev1 Hin)|].
    apply elem_of_app in Hin as [Hin|Hin].
    { repeat (apply elem_of_cons in Hin as [Hin|Hin]; [discriminate|]).
      now apply elem_of_nil in Hin. }
    apply elem_of_app in Hin as [Hin|Hin];
      [|now destruct (print_not_exists _ _ _ Ht4 Hin)].
    specialize (Hprobe p Hin). now destruct rs as [[|]|e|c].
  - destruct rs as [[|]|e|c]; [left|right; left|right; right|];
      [now apply HokT | now apply HokF | eauto | now destruct (Hexit3 c)].
  - intros Hok name t Hin. destruct (Htrue (Hra Hok)) as [_ Hitems].
    assert (Hc : (c1 =? 0) = true /\ (c2 =? 0) = true).
    { split; [apply (Hitems "x64")|apply (Hitems "arm64")]; in_list. }
    destruct Hc as [->%Z.eqb_eq ->%Z.eqb_eq]. rewrite TARGETS_eq in Hin.
    apply elem_of_cons in Hin as [[= -> ->]|Hin].
    { split; [now apply built_app_l|].
      apply staged_app_r, staged_app_r, staged_app_l.
      apply (Hitems "x64" true). in_list. }
    apply elem_of_cons in Hin as [[= -> ->]|Hin]; [|now apply elem_of_nil in Hin].
    split; [now apply built_app_l|].
    apply staged_app_r, staged_app_r, staged_app_l.
    apply (Hitems "arm64" true). in_list.
  - intros Hno name t Hin.
    assert (Hno' : forall e, rs <> Raise e).
    { intros e ->. now apply (Hno e), Hraise. }
    specialize (Hatt Hno'). rewrite TARGETS_eq in Hin.
    apply elem_of_cons in Hin as [[= -> ->]|Hin].
    { exists c1. split; [now apply built_app_l|]. intros ->.
      apply staging_attempted_app_r, staging_attempted_app_r.
      destruct (Hatt "x64") as (path & present & Hp & He & Hc); [in_list|].
      exists path, present. rewrite !elem_of_app. tauto. }
    apply elem_of_cons in Hin as [[= -> ->]|Hin]; [|now apply elem_of_nil in Hin].
    exists c2. split; [now apply built_app_l|]. intros ->.
    apply staging_attempted_app_r, staging_attempted_app_r.
    destruct (Hatt "arm64") as (path & present & Hp & He & Hc); [in_list|].
    exists path, present. rewrite !elem_of_app. tauto.
  - intros name c (t & env & Ht & Hin) Hc. rewrite Hstatus.
    destruct rs as [[|]|e|c']; try reflexivity. exfalso.
    destruct (Htrue eq_refl) as [_ Hitems].
    assert (Hcs : (c1 =? 0) = true /\ (c2 =? 0) = true).
    { split; [apply (Hitems "x64")|apply (Hitems "arm64")]; in_list. }
    destruct Hcs as [->%Z.eqb_eq ->%Z.eqb_eq].
    apply elem_of_app in Hin as [Hin|Hin].
    + destruct (Honly _ _ _ _ Hin) as [[_ [= ->]]|[_ [= ->]]]; now apply Hc.
    + apply elem_of_app in Hin as [Hin|Hin].
      { repeat (apply elem_of_cons in Hin as [Hin|Hin]; [discriminate|]).
        now apply elem_of_nil in Hin. }
      apply elem_of_app in Hin as [Hin|Hin];
        [|now destruct (print_not_spawn _ _ _ _ _ Ht4 Hin)].
      rewrite Forall_forall in Hev3. exact (Hev3 _ Hin).
Qed.

(** The rest of any branch: its events, its possible results, and the
    fate of a run in which an expected file was looked for and not
    found. *)
Lemma after_install_spec (args : Args) (we wa : W) (ra : result unit)
    (ta : list event) :
  after_install args we = (ra, wa, ta) ->
  Forall (action_event (args_jobs args)) ta
  /\ (forall p, EExists p false ∈ ta -> exit_status ra = 1)
  /\ (ra = Ok tt \/ ra = SysExit 1 \/ exists e, ra = Raise e).
Proof.
  destruct args as [[] target jobs]; cbn [args_jobs].
  - (* check *)
    unfold after_install. cbn [args_action args_target]. intros Hrun.
    destruct (choice_registered target) as [t Ht].
    destruct (check_target (choice_name target) we) as [[rc w1] t1] eqn:Hc.
    destruct (check_target_spec _ _ jobs _ _ _ _ Ht Hc) as (Hev & Hexit & Hno).
    destruct rc as [[|]|e|c]; [| | |now destruct (Hexit c)].
    + eapply bind_ok_inv in Hrun as (t2 & Hrun & ->); [|exact Hc].
      cbn [negb] in Hrun. rewrite ret_then in Hrun.
      injection Hrun as <- <- <-. split; [|split].
      * apply Forall_app. split; [exact Hev|repeat constructor].
      * intros p Hin. exfalso.
        apply elem_of_app in Hin as [Hin|Hin]; [now destruct (Hno p false)|].
        apply elem_of_cons in Hin as [Hin|Hin]; [discriminate|].
        now apply elem_of_nil in Hin.
      * now left.
    + eapply bind_ok_inv in Hrun as (t2 & Hrun & ->); [|exact Hc].
      cbn [negb] in Hrun. rewrite exit_then in Hrun.
      injection Hrun as <- <- <-. rewrite app_nil_r. split; [exact Hev|].
      split; [reflexivity|]. right. now left.
    + rewrite (bind_raise _ _ _ _ _ _ Hc) in Hrun. injection Hrun as <- <- <-.
      split; [exact Hev|]. split; [reflexivity|]. right. right. eauto.
  - (* build *)
    unfold after_install. cbn [args_action args_target args_jobs]. intros Hrun.
    destruct (choice_registered target) as [t Ht].
    pose proof (get_build_output_path_parts _ _ Ht) as Hpath.
    destruct (build_target (choice_name target) jobs we) as [[rb w1] t1] eqn:Hb.
    destruct (build_target_spec _ _ _ _ _ _ _ Ht Hb) as (Hev & Hexit & _).
    apply build_action_events in Hev as Hev'.
    destruct rb as [[|]|e|c]; [| | |now destruct (Hexit c)].
    + eapply bind_ok_inv in Hrun as (t2 & Hrun & ->); [|exact Hb].
      cbn [negb] in Hrun. rewrite ret_then in Hrun.
      destruct (copy_to_output (choice_name target) w1)
        as [[ro w2] t3] eqn:Hc.
      destruct (copy_to_output_events _ _ _ _ _ _ Hpath Hc)
        as (Hev3 & Hexit3 & Hprobe & _ & _ & _).
      apply (staging_action_events jobs) in Hev3 as Hev3'.
      destruct ro as [[final|]|e|c]; [| | |now destruct (Hexit3 c)].
      * eapply bind_ok_inv in Hrun as (t4 & Hrun & ->); [|exact Hc].
        injection Hrun as <- <- <-. split; [|split].
        -- apply Forall_app. split; [exact Hev'|].
           apply Forall_app. split; [exact Hev3'|repeat constructor].
        -- intros p Hin. exfalso.
           apply elem_of_app in Hin as [Hin|Hin];
             [now destruct (build_events_no_probe jobs _ _ _ Hev Hin)|].
           apply elem_of_app in Hin as [Hin|Hin];
             [now specialize (Hprobe p Hin)|].
           repeat (apply elem_of_cons in Hin as [Hin|Hin]; [discriminate|]).
           now apply elem_of_nil in Hin.
        -- now left.
      * eapply bind_ok_inv in Hrun as (t4 & Hrun & ->); [|exact Hc].
        rewrite Hpath in Hrun. injection Hrun as <- <- <-. split; [|split].
        -- apply Forall_app. split; [exact Hev'|].
           apply Forall_app. split; [exact Hev3'|repeat constructor].
        -- reflexivity.
        -- right. now left.
      * rewrite (bind_raise _ _ _ _ _ _ Hc) in Hrun.
        injection Hrun as <- <- <-. split; [|split].
        -- now apply Forall_app.
        -- reflexivity.
        -- right. right. eauto.
    + eapply bind_ok_inv in Hrun as (t2 & Hrun & ->); [|exact Hb].
      cbn [negb] in Hrun. rewrite exit_then in Hrun.
      injection Hrun as <- <- <-. rewrite app_nil_r. split; [exact Hev'|].
      split; [reflexivity|]. right. now left.
    + rewrite (bind_raise _ _ _ _ _ _ Hb) in Hrun. injection Hrun as <- <- <-.
      split; [exact Hev'|]. split; [reflexivity|]. right. right. eauto.
  - (* build-all *)
    intros Hrun.
    destruct (after_install_build_all _ _ _ _ _ _ Hrun) as (? & ? & ? & _).
    now repeat split.
Qed.

(** *** Facts about whole runs *)

Lemma install_events_no_probe (tr : list event) (p : Path) (b : bool) :
  Forall (install_event TARGETS) tr -> EExists p b ∉ tr.
Proof.
  intros Hall Hin. rewrite Forall_forall in Hall. exact (Hall _ Hin).
Qed.

Lemma main_spawns (args : Args) (w : W) (cmd : list string)
    (env : gmap string string) (cwd : Path) (out : spawn_outcome) :
  ESpawn cmd env cwd out ∈ trace_of (main args w) ->
  main_spawn (args_jobs args) cmd env cwd.
Proof.
  pose proof (banner_trace_prints args w) as Hb.
  destruct (main_inv args w) as (tp & Hp & Hcases).
  destruct (check_prerequisites_run w) as (tp' & Hp' & _ & Hnospawn & _).
  assert (tp' = tp) as -> by congruence.
  assert (Hinstall : forall te, Forall (install_event TARGETS) te ->
            ESpawn cmd env cwd out ∈ te ->
            main_spawn (args_jobs args) cmd env cwd).
  { intros te Hall Hin. rewrite Forall_forall in Hall.
    destruct (Hall _ Hin) as (-> & -> & name & t & Ht & ->).
    split; [reflexivity|]. left. split; [reflexivity|]. now exists name, t. }
  destruct Hcases as [(_ & ->)|(_ & re & we & te & He & Hcases)].
  { cbn [trace_of snd]. intros Hin. apply elem_of_app in Hin as [Hin|Hin];
      [now destruct (print_not_spawn _ _ _ _ _ Hb Hin)
      |now destruct (Hnospawn _ _ _ _ Hin)]. }
  destruct (ensure_targets_spec _ _ _ _ He) as [Hev _].
  destruct Hcases as [(_ & ->)|[(e & _ & ->)|(_ & ra & wa & ta & Ha & ->)]];
    cbn [trace_of snd]; intros Hin;
    (apply elem_of_app in Hin as [Hin|Hin];
     [now destruct (print_not_spawn _ _ _ _ _ Hb Hin)|]);
    (apply elem_of_app in Hin as [Hin|Hin];
     [now destruct (Hnospawn _ _ _ _ Hin)|]);
    try now apply (Hinstall te).
  apply elem_of_app in Hin as [Hin|Hin]; [now apply (Hinstall te)|].
  destruct (after_install_spec _ _ _ _ _ Ha) as (Hact & _).
  apply elem_of_app in Hin as [Hin|Hin].
  - rewrite Forall_forall in Hact.
    destruct (Hact _ Hin) as (-> & Hrest). split; [reflexivity|]. now right.
  - destruct ra; cbn in Hin;
      [apply elem_of_cons in Hin as [Hin|Hin]; [discriminate|]|..];
      now apply elem_of_nil in Hin.
Qed.

(** Nothing of [l1] comes after the first part of a list split in two
    at an element that the first part does not contain. *)
Lemma split_after_prefix {A} (pre rest l1 l2 : list A) (x : A) :
  x ∉ pre ->
  (pre ++ rest)%list = (l1 ++ x :: l2)%list ->
  exists l, l1 = (pre ++ l)%list.
Proof.
  revert l1. induction pre as [|a pre IH]; intros l1 Hx Heq.
  - now exists l1.
  - apply not_elem_of_cons in Hx as [Hne Hx].
    destruct l1 as [|b l1]; injection Heq as -> Heq; [congruence|].
    destruct (IH _ Hx Heq) as [l ->]. now exists l.
Qed.

(** A file that was looked for and not found makes the exit status [1]. *)
Lemma missing_file_exit_status (args : Args) (w : W) (p : Path) :
  EExists p false ∈ trace_of (main args w) ->
  exit_status (result_of (main args w)) = 1.
Proof.
  pose proof (banner_trace_prints args w) as Hb.
  destruct (main_inv args w) as (tp & Hp & Hcases).
  destruct (check_prerequisites_run w) as (tp' & Hp' & _ & _ & Hprobe).
  assert (tp' = tp) as -> by congruence.
  destruct Hcases as [(_ & ->)|(Hok & re & we & te & He & Hcases)];
    [reflexivity|].
  destruct (ensure_targets_spec _ _ _ _ He) as [Hev _].
  destruct Hcases as [(_ & ->)|[(e & _ & ->)|(_ & ra & wa & ta & Ha & ->)]];
    [reflexivity..|].
  cbn [trace_of result_of fst snd]. intros Hin.
  apply elem_of_app in Hin as [Hin|Hin];
    [now destruct (print_not_exists _ _ _ Hb Hin)|].
  apply elem_of_app in Hin as [Hin|Hin];
    [specialize (Hprobe p Hin); congruence|].
  apply elem_of_app in Hin as [Hin|Hin];
    [now destruct (install_events_no_probe _ _ _ Hev Hin)|].
  destruct (after_install_spec _ _ _ _ _ Ha) as (_ & Hfail & _).
  apply elem_of_app in Hin as [Hin|Hin]; [now apply (Hfail p)|].
  destruct ra; cbn in Hin;
    [apply elem_of_cons in Hin as [Hin|Hin]; [discriminate|]|..];
    now apply elem_of_nil in Hin.
Qed.

End Phases.

(** ** The prerequisite check *)

Section Prerequisites.

Context {W : Type} `{Host W}.

(** C5. [check_prerequisites] returns the conjunction of the three
    checks and leaves the machine as it was; it asks for [cargo], then
    for the x64 compiler, then for the ARM64 compiler under llvm-mingw,
    and stops asking at the first one that is missing, so it fails
    without [cargo] whatever else is present.  For every action, a run
    whose prerequisite check fails ends in [sys.exit(1)] without having
    started any process. *)
Theorem check_prerequisites_gate (w : W) :
  result_of (check_prerequisites w) = Ok (prereq_ok w)
  /\ world_of (check_prerequisites w) = w
  /\ probes (trace_of (check_prerequisites w)) = prereq_probes w
  /\ (os_which w "cargo" = false ->
      result_of (check_prerequisites w) = Ok false
      /\ probes (trace_of (check_prerequisites w)) = [EWhich "cargo" false])
  /\ forall args : Args,
       result_of (check_prerequisites w) = Ok false ->
       result_of (main args w) = SysExit 1
       /\ forall cmd env cwd out, ESpawn cmd env cwd out ∉ trace_of (main args w).
Proof.
  destruct (check_prerequisites_run w) as (tp & Hp & Hprobes & Hnospawn & _).
  rewrite Hp. cbn [result_of world_of trace_of fst snd].
  split; [reflexivity|]. split; [reflexivity|]. split; [exact Hprobes|].
  split.
  - intros Hcargo. rewrite Hprobes. unfold prereq_ok, prereq_probes.
    now rewrite Hcargo.
  - intros args [= Hfail].
    destruct (main_inv args w) as (tp' & Hp' & [(_ & ->)|(Hok & _)]);
      [|congruence].
    assert (tp' = tp) as -> by congruence.
    cbn [result_of trace_of fst snd]. split; [reflexivity|].
    intros cmd env cwd out Hin. apply elem_of_app in Hin as [Hin|Hin].
    + exact (print_not_spawn _ _ _ _ _ (banner_trace_prints args w) Hin).
    + exact (Hnospawn _ _ _ _ Hin).
Qed.

End Prerequisites.

Lemma check_prerequisites_gate_witness :
  result_of (check_prerequisites (H := Toy.host no_cargo_machine) [Toy.clang])
  = Ok false
  /\ result_of (main (H := Toy.host no_cargo_machine)
                  (mkArgs BuildAll X64 None) [Toy.clang])
     = SysExit 1.
Proof.
  pose proof (check_prerequisites_gate (H := Toy.host no_cargo_machine)
                [Toy.clang]) as (_ & _ & _ & Hcargo & Hmain).
  destruct (Hcargo eq_refl) as [Hfalse _]. split; [exact Hfalse|].
  exact (proj1 (Hmain (mkArgs BuildAll X64 None) Hfalse)).
Defined.

(** ** Staging *)

Section Staging.

Context {W : Type} `{Host W}.

(** C6. When the expected executable of a registered target is not
    there, [copy_to_output] returns [None], having only looked for the
    file and reported it missing.  In every run of [main], a file that
    was looked for and not found makes the exit status [1]; and a
    [build] run whose [cargo build] returned success while the
    executable is absent ends in [sys.exit(1)]. *)
Theorem missing_artifact_fails :
  (forall (w : W) (name : string) (t : Target) (path : Path),
      assoc TARGETS name = Some t ->
      get_build_output_path name = Ok path ->
      os_exists w path = false ->
      copy_to_output name w
      = (Ok None, w, [EExists path false; not_found_line path]))
  /\ (forall (args : Args) (w : W) (p : Path),
        EExists p false ∈ trace_of (main args w) ->
        exit_status (result_of (main args w)) = 1)
  /\ (forall (w we wb : W) (target : TargetChoice) (jobs : option Z)
             (te tb : list event) (path : Path),
        prereq_ok w = true ->
        ensure_targets w = (Ok true, we, te) ->
        build_target (choice_name target) jobs we = (Ok true, wb, tb) ->
        get_build_output_path (choice_name target) = Ok path ->
        os_exists wb path = false ->
        result_of (main (mkArgs Build target jobs) w) = SysExit 1).
Proof.
  assert (Hcopy : forall (w : W) (name : string) (path : Path),
             get_build_output_path name = Ok path ->
             os_exists w path = false ->
             copy_to_output name w
             = (Ok None, w, [EExists path false; not_found_line path])).
  { intros w name path Hpath Hex.
    destruct (copy_to_output name w) as [[r w'] tr] eqn:Hrun.
    destruct (copy_to_output_inv _ _ _ _ _ _ Hpath Hrun)
      as [(_ & -> & -> & ->)|(Hex' & _)]; [reflexivity|congruence]. }
  split; [intros w name t path _; apply Hcopy|]. split.
  - apply missing_file_exit_status.
  - intros w we wb target jobs te tb path Hok He Hb Hpath Hex.
    destruct (main_inv (mkArgs Build target jobs) w)
      as (tp & Hp & [(Hno & _)|(_ & re & we' & te' & He' & Hcases)]);
      [congruence|].
    rewrite He in He'. injection He' as <- <- <-.
    destruct Hcases as [([=] & _)|[(e & [=] & _)|(_ & ra & wa & ta & Ha & ->)]].
    cbn [result_of fst]. unfold after_install in Ha.
    cbn [args_action args_target args_jobs] in Ha.
    eapply bind_ok_inv in Ha as (t2 & Ha & _); [|exact Hb].
    cbn [negb] in Ha. rewrite ret_then in Ha.
    eapply bind_ok_inv in Ha as (t3 & Ha & _); [|exact (Hcopy _ _ _ Hpath Hex)].
    rewrite Hpath in Ha. now injection Ha as <- _ _.
Qed.

End Staging.

Lemma missing_artifact_fails_witness :
  copy_to_output (H := Toy.host hollow_machine) "x64" [Toy.clang]
  = (Ok None, [Toy.clang],
     [EExists (Toy.artifact "x86_64-pc-windows-gnu") false;
      not_found_line (Toy.artifact "x86_64-pc-windows-gnu")])
  /\ exit_status
       (result_of (main (H := Toy.host hollow_machine)
                     (mkArgs BuildAll X64 None) [Toy.clang])) = 1
  /\ result_of (main (H := Toy.host hollow_machine)
                  (mkArgs Build X64 None) [Toy.clang]) = SysExit 1.
Proof.
  pose proof (missing_artifact_fails (H := Toy.host hollow_machine))
    as (Hcopy & Hmain & Hbuild).
  split; [|split].
  - apply (Hcopy [Toy.clang] "x64" x64); reflexivity.
  - apply (Hmain _ _ (Toy.artifact "x86_64-pc-windows-gnu")).
    vm_compute. repeat first [apply list_elem_of_here | apply list_elem_of_further].
  - eapply (Hbuild [Toy.clang] [Toy.clang] [Toy.clang] X64 None);
      [reflexivity | vm_compute; reflexivity | vm_compute; reflexivity
      | reflexivity | reflexivity].
Defined.

(** ** The parallelism hint *)

(** C7, as stated, fails: [get_env_for_target] binds no parallelism
    variable, and in a [check] run with [-j 4] no child receives one,
    neither the installations nor [cargo check]. *)
Lemma jobs_binding_counterexample :
  (exists env : gmap string string,
      get_env_for_target Toy.usual_environ "x64" = Ok env
      /\ env !! "CARGO_BUILD_JOBS" = None)
  /\ jobs_of_children
       (trace_of (main (H := Toy.host good_machine)
                    (mkArgs Check X64 (Some 4)) [Toy.clang]))
     = [(["rustup"; "target"; "add"; "x86_64-pc-windows-gnu"], None);
        (["rustup"; "target"; "add"; "aarch64-pc-windows-gnullvm"], None);
        (["cargo"; "check"; "--target"; "x86_64-pc-windows-gnu"], None)].
Proof.
  split; [eexists; split; reflexivity|]. vm_compute. reflexivity.
Qed.

Section Jobs.

Context {W : Type} `{Host W}.

Lemma get_env_keeps_jobs (environ env : gmap string string) (name : string) :
  get_env_for_target environ name = Ok env ->
  env !! "CARGO_BUILD_JOBS" = environ !! "CARGO_BUILD_JOBS".
Proof.
  unfold get_env_for_target, TARGETS_getitem.
  destruct (assoc TARGETS name) as [t|] eqn:Ht; [|discriminate].
  destruct (registered_cases _ _ Ht) as [[-> ->]|[-> ->]]; cbn [rbind].
  - intros [= <-]. eval_keys. cbn.
    now rewrite !lookup_insert_ne by discriminate.
  - unfold getitem. destruct (environ !! "PATH") as [path|]; [|discriminate].
    intros [= <-]. eval_keys. cbn.
    now rewrite !lookup_insert_ne by discriminate.
Qed.

(** C7, amended. [get_env_for_target] leaves [CARGO_BUILD_JOBS] as the
    host environment has it; it is [build_target] that sets it.  In
    every run, every [cargo build] that is started gets
    [CARGO_BUILD_JOBS] bound to the job count, and the same number after
    [-j], where the job count is the [--jobs] argument when there is one
    and [CPU_COUNT] otherwise.  The other children get no such binding:
    every [cargo check] is started without [-j] and with
    [CARGO_BUILD_JOBS] exactly as the host environment has it, absent
    when the host has none; every [rustup] is started with the host
    environment itself; and a run has no other children than these. *)
Theorem build_jobs_binding (args : Args) (w : W) :
  (forall (environ env : gmap string string) (name : string),
      get_env_for_target environ name = Ok env ->
      env !! "CARGO_BUILD_JOBS" = environ !! "CARGO_BUILD_JOBS")
  /\ (forall cmd env cwd out,
       ESpawn ("cargo" :: "build" :: cmd) env cwd out ∈ trace_of (main args w) ->
       let n := match args_jobs args with
                | Some j => j
                | None => CPU_COUNT
                end in
       env !! "CARGO_BUILD_JOBS" = Some (Str.of_Z n)
       /\ exists t, cmd = ["--release"; "--target"; triple t; "-j"; Str.of_Z n])
  /\ (forall cmd env cwd out,
        ESpawn ("cargo" :: "check" :: cmd) env cwd out ∈ trace_of (main args w) ->
        env !! "CARGO_BUILD_JOBS" = os_environ !! "CARGO_BUILD_JOBS"
        /\ exists t, cmd = ["--target"; triple t])
  /\ (forall cmd env cwd out,
        ESpawn ("rustup" :: cmd) env cwd out ∈ trace_of (main args w) ->
        env = os_environ)
  /\ (forall cmd env cwd out,
        ESpawn cmd env cwd out ∈ trace_of (main args w) ->
        exists rest,
          cmd = "cargo" :: "build" :: rest
          \/ cmd = "cargo" :: "check" :: rest
          \/ cmd = "rustup" :: rest).
Proof.
  split; [apply get_env_keeps_jobs|]. split; [|split; [|split]].
  - intros cmd env cwd out Hin n.
    assert (Hn : n = num_jobs (args_jobs args))
      by (now destruct (args_jobs args)).
    destruct (main_spawns _ _ _ _ _ _ Hin)
      as (_ & [(_ & name & t & _ & Hcmd)
              |(name & t & env0 & _ & _ & [(Hcmd & ->)|(Hcmd & _)])]);
      try discriminate Hcmd.
    injection Hcmd as ->. rewrite Hn. split.
    + unfold build_env. apply lookup_insert_eq.
    + now exists t.
  - intros cmd env cwd out Hin.
    destruct (main_spawns _ _ _ _ _ _ Hin)
      as (_ & [(_ & name & t & _ & Hcmd)
              |(name & t & env0 & _ & Henv & [(Hcmd & _)|(Hcmd & ->)])]);
      try discriminate Hcmd.
    injection Hcmd as ->. split.
    + now apply get_env_keeps_jobs with name.
    + now exists t.
  - intros cmd env cwd out Hin.
    destruct (main_spawns _ _ _ _ _ _ Hin)
      as (_ & [(-> & _)
              |(name & t & env0 & _ & _ & [(Hcmd & _)|(Hcmd & _)])]);
      [reflexivity|discriminate Hcmd..].
  - intros cmd env cwd out Hin.
    destruct (main_spawns _ _ _ _ _ _ Hin)
      as (_ & [(_ & name & t & _ & ->)
              |(name & t & env0 & _ & _ & [(-> & _)|(-> & _)])]);
      eexists; [right; right|left|right; left]; reflexivity.
Qed.

End Jobs.

Lemma build_jobs_binding_witness :
  (<["CARGO_BUILD_JOBS" := "4"]>
        (<["CARGO_TARGET_X86_64_PC_WINDOWS_GNU_LINKER" := "x86_64-w64-mingw32-gcc"]>
         (<["AR_x86_64_pc_windows_gnu" := "x86_64-w64-mingw32-ar"]>
          (<["CC_x86_64_pc_windows_gnu" := "x86_64-w64-mingw32-gcc"]>
           Toy.usual_environ))) : gmap string string)
  !! "CARGO_BUILD_JOBS" = Some (Str.of_Z 4).
Proof.
  refine (proj1 (proj1 (proj2 (build_jobs_binding (H := Toy.host good_machine)
                                 (mkArgs Build X64 (Some 4)) [Toy.clang]))
                   ["--release"; "--target"; "x86_64-pc-windows-gnu"; "-j"; "4"]
                   _ (PathOps.parse "/src/htop-win") (Exited 0) _)).
  vm_compute. repeat first [apply list_elem_of_here | apply list_elem_of_further].
Defined.

(** ** Installing the toolchains *)

(** C8, as stated, fails: a [check] of the x64 target alone also installs
    the arm64 toolchain. *)
Lemma install_selected_only_counterexample :
  children (trace_of (main (H := Toy.host good_machine)
                        (mkArgs Check X64 None) [Toy.clang]))
  = [["rustup"; "target"; "add"; "x86_64-pc-windows-gnu"];
     ["rustup"; "target"; "add"; "aarch64-pc-windows-gnullvm"];
     ["cargo"; "check"; "--target"; "x86_64-pc-windows-gnu"]].
Proof. vm_compute. reflexivity. Qed.

Section Toolchains.

Context {W : Type} `{Host W}.

(** C8, amended. Whatever the action and the selected target, the
    toolchains installed are those of the registered targets: every
    [rustup] child is [rustup target add] for a registered target; no
    [cargo] child is started before [rustup target add] has succeeded
    for every registered target; and when a [rustup] child ends
    otherwise than with status zero, the run exits with status [1]
    without having started any [cargo] child. *)
Theorem toolchains_before_builds (args : Args) (w : W) :
  let tr := trace_of (main args w) in
  (forall cmd env cwd out,
      ESpawn ("rustup" :: cmd) env cwd out ∈ tr ->
      exists name t, (name, t) ∈ TARGETS /\ cmd = ["target"; "add"; triple t])
  /\ (forall l1 l2 cmd env cwd out,
        tr = (l1 ++ ESpawn ("cargo" :: cmd) env cwd out :: l2)%list ->
        forall name t, (name, t) ∈ TARGETS ->
          ESpawn ["rustup"; "target"; "add"; triple t] os_environ PROJECT_DIR
            (Exited 0) ∈ l1)
  /\ (forall cmd env cwd out,
        ESpawn ("rustup" :: cmd) env cwd out ∈ tr ->
        out <> Exited 0 ->
        exit_status (result_of (main args w)) = 1
        /\ forall cmd' env' cwd' out',
             ESpawn ("cargo" :: cmd') env' cwd' out' ∉ tr)
  /\ (prereq_ok w = true ->
      (forall name t, (name, t) ∈ TARGETS ->
         ESpawn ["rustup"; "target"; "add"; triple t] os_environ PROJECT_DIR
           (Exited 0) ∈ tr)
      \/ exists cmd env cwd out,
           ESpawn ("rustup" :: cmd) env cwd out ∈ tr /\ out <> Exited 0).
Proof.
  intros tr. subst tr.
  pose proof (banner_trace_prints args w) as Hb.
  destruct (check_prerequisites_run w) as (tp & Hp & _ & Hnospawn & _).
  assert (Hquiet : forall te, Forall (install_event TARGETS) te ->
            forall cmd env cwd out,
              ESpawn ("cargo" :: cmd) env cwd out
              ∉ (banner_trace args w ++ tp ++ te)%list).
  { intros te Hev cmd env cwd out Hin.
    apply elem_of_app in Hin as [Hin|Hin];
      [now destruct (print_not_spawn _ _ _ _ _ Hb Hin)|].
    apply elem_of_app in Hin as [Hin|Hin];
      [now destruct (Hnospawn _ _ _ _ Hin)|].
    rewrite Forall_forall in Hev.
    now destruct (Hev _ Hin) as (_ & _ & name & t & _ & [=]). }
  split; [|split; [|split]].
  - intros cmd env cwd out Hin.
    destruct (main_spawns _ _ _ _ _ _ Hin)
      as (_ & [(_ & name & t & Ht & Hcmd)
              |(name & t & env0 & _ & _ & [(Hcmd & _)|(Hcmd & _)])]);
      try discriminate Hcmd.
    injection Hcmd as ->. now exists name, t.
  - intros l1 l2 cmd env cwd out Heq name t Hreg.
    destruct (main_inv args w) as (tp' & Hp' & Hcases).
    assert (tp' = tp) as -> by congruence.
    assert (Hhere : ESpawn ("cargo" :: cmd) env cwd out ∈ trace_of (main args w)).
    { rewrite Heq. apply elem_of_app. right. apply list_elem_of_here. }
    destruct Hcases as [(_ & Hrun)|(_ & re & we & te & He & Hcases)].
    { rewrite Hrun in Hhere. cbn [trace_of snd] in Hhere.
      rewrite <- (app_nil_r tp) in Hhere.
      now destruct (Hquiet [] ltac:(constructor) _ _ _ _ Hhere). }
    destruct (ensure_targets_spec _ _ _ _ He) as [Hev Hres].
    destruct Hcases as [(_ & Hrun)|[(e & _ & Hrun)|(-> & ra & wa & ta & Ha & Hrun)]];
      rewrite Hrun in Hhere, Heq; cbn [trace_of snd] in Hhere, Heq;
      try now destruct (Hquiet te Hev _ _ _ _ Hhere).
    destruct Hres as [(_ & Hinst & _)|([[=]|[e [=]]] & _)].
    rewrite !app_assoc in Heq. rewrite <- (app_assoc _ ta) in Heq.
    apply split_after_prefix in Heq as [l ->].
    + apply elem_of_app. left. apply elem_of_app. right.
      now apply (Hinst name).
    + rewrite <- app_assoc. now apply Hquiet.
  - intros cmd env cwd out Hin Hout.
    destruct (main_inv args w) as (tp' & Hp' & Hcases).
    assert (tp' = tp) as -> by congruence.
    destruct Hcases as [(_ & Hrun)|(_ & re & we & te & He & Hcases)].
    { rewrite Hrun in *. cbn [trace_of result_of fst snd] in *.
      split; [reflexivity|]. intros cmd' env' cwd' out' Hin'.
      rewrite <- (app_nil_r tp) in Hin'.
      now destruct (Hquiet [] ltac:(constructor) _ _ _ _ Hin'). }
    destruct (ensure_targets_spec _ _ _ _ He) as [Hev Hres].
    destruct Hcases as [(_ & Hrun)|[(e & _ & Hrun)|(-> & ra & wa & ta & Ha & Hrun)]];
      rewrite Hrun in *; cbn [trace_of result_of fst snd] in *;
      try (split; [reflexivity|]; now apply Hquiet).
    exfalso. destruct Hres as [(_ & _ & Hzero)|([[=]|[e [=]]] & _)].
    apply elem_of_app in Hin as [Hin|Hin];
      [now destruct (print_not_spawn _ _ _ _ _ Hb Hin)|].
    apply elem_of_app in Hin as [Hin|Hin];
      [now destruct (Hnospawn _ _ _ _ Hin)|].
    apply elem_of_app in Hin as [Hin|Hin]; [now apply Hout, (Hzero _ _ _ _ Hin)|].
    destruct (after_install_spec _ _ _ _ _ Ha) as (Hact & _).
    apply elem_of_app in Hin as [Hin|Hin].
    + rewrite Forall_forall in Hact.
      destruct (Hact _ Hin)
        as (_ & name & t & env0 & _ & _ & [([=] & _)|([=] & _)]).
    + destruct ra; cbn in Hin;
        [apply elem_of_cons in Hin as [Hin|Hin]; [discriminate|]|..];
        now apply elem_of_nil in Hin.
  - intros Hok.
    destruct (main_inv args w)
      as (tp' & _ & [(Hfail & _)|(_ & re & we & te & He & Hcases)]);
      [congruence|].
    assert (Hte : forall e, e ∈ te -> e ∈ trace_of (main args w)).
    { intros e Hin.
      destruct Hcases as [(_ & ->)|[(e' & _ & ->)|(_ & ra & wa & ta & Ha & ->)]];
        cbn [trace_of snd]; rewrite !elem_of_app; tauto. }
    destruct (ensure_targets_spec _ _ _ _ He)
      as [Hev [(_ & Hinst & _)|(_ & cmd & env & cwd & out & Hin & Hout)]].
    + left. intros name t Hreg. now apply Hte, (Hinst name).
    + right. rewrite Forall_forall in Hev.
      destruct (Hev _ Hin) as (_ & _ & name & t & _ & ->).
      exists ["target"; "add"; triple t], env, cwd, out.
      split; [now apply Hte|exact Hout].
Qed.

End Toolchains.

Lemma toolchains_before_builds_witness :
  exit_status
    (result_of (main (H := Toy.host no_arm64_machine)
                  (mkArgs Build X64 None) [Toy.clang])) = 1.
Proof.
  refine (proj1 (proj1 (proj2 (proj2 (toolchains_before_builds
                                        (H := Toy.host no_arm64_machine)
                                        (mkArgs Build X64 None) [Toy.clang])))
                   ["target"; "add"; "aarch64-pc-windows-gnullvm"]
                   Toy.usual_environ (PathOps.parse "/src/htop-win") (Exited 1)
                   _ _)).
  - vm_compute.
    repeat first [apply list_elem_of_here | apply list_elem_of_further].
  - discriminate.
Defined.

(** ** Building every target *)

Section BuildAll.

Context {W : Type} `{Host W}.

(** Facts about every [build-all] run, told by its events: when it
    gets past the prerequisite check and the installations and no
    exception cuts it short, [cargo build] was run for every registered
    target, and the executable of every target built with status zero
    was looked for and, when there, copied; the exit status is [0] only if
    every registered target was built with status zero and staged; a
    build that ended with another status, or an expected executable that
    was not found, makes the exit status [1]; and the exit status is
    never anything but [0] or [1]. *)
Lemma build_all_exit_facts (w : W) (target : TargetChoice)
    (jobs : option Z) :
  let run := main (mkArgs BuildAll target jobs) w in
  (prereq_ok w = true ->
   result_of (ensure_targets w) = Ok true ->
   (forall e, result_of run <> Raise e) ->
   forall name t, (name, t) ∈ TARGETS ->
     exists c, built jobs (trace_of run) name c
               /\ (c = 0 -> staging_attempted name (trace_of run)))
  /\ (exit_status (result_of run) = 0 ->
      forall name t, (name, t) ∈ TARGETS ->
        built jobs (trace_of run) name 0 /\ staged name (trace_of run))
  /\ (forall name c,
        built jobs (trace_of run) name c -> c <> 0 ->
        exit_status (result_of run) = 1)
  /\ (forall name path,
        get_build_output_path name = Ok path ->
        EExists path false ∈ trace_of run ->
        exit_status (result_of run) = 1)
  /\ (exit_status (result_of run) = 0 \/ exit_status (result_of run) = 1).
Proof.
  intros run. subst run. set (args := mkArgs BuildAll target jobs).
  pose proof (banner_trace_prints args w) as Hb.
  destruct (check_prerequisites_run w) as (tp & Hp & _ & Hnospawn & _).
  destruct (main_inv args w) as (tp' & Hp' & Hcases).
  assert (tp' = tp) as -> by congruence.
  split; [|split; [|split; [|split]]].
  - intros Hok Hens Hno name t Hreg.
    destruct Hcases as [(Hfail & _)|(_ & re & we & te & He & Hcases)];
      [congruence|].
    rewrite He in Hens. cbn [result_of fst] in Hens. subst re.
    destruct Hcases as [([=] & _)|[(e & [=] & _)|(_ & ra & wa & ta & Ha & Hrun)]].
    rewrite Hrun in *. cbn [result_of trace_of fst snd] in *.
    destruct (after_install_build_all _ _ _ _ _ _ Ha)
      as (_ & _ & _ & _ & Hatt & _).
    destruct (Hatt Hno name t Hreg) as (c & Hbuilt & Hstage).
    exists c. split.
    + now apply built_app_r, built_app_r, built_app_r, built_app_l.
    + intros Hc. destruct (Hstage Hc) as (path & present & Hpath & He' & Hc').
      exists path, present. rewrite !elem_of_app. tauto.
  - intros Hzero name t Hreg.
    destruct Hcases as [(_ & Hrun)|(_ & re & we & te & He & Hcases)];
      [now rewrite Hrun in Hzero|].
    destruct Hcases as [(_ & Hrun)|[(e & _ & Hrun)|(_ & ra & wa & ta & Ha & Hrun)]];
      rewrite Hrun in *; cbn [result_of trace_of fst snd] in *;
      try discriminate Hzero.
    destruct (after_install_build_all _ _ _ _ _ _ Ha)
      as (_ & _ & Hres & Hall & _).
    assert (ra = Ok tt) as ->.
    { destruct Hres as [->|[->|[e ->]]]; [reflexivity|discriminate..]. }
    destruct (Hall eq_refl name t Hreg) as [Hbuilt (path & Hpath & He' & Hc')].
    split.
    + now apply built_app_r, built_app_r, built_app_r, built_app_l.
    + exists path. rewrite !elem_of_app. tauto.
  - intros name c (t & env & Ht & Hin) Hc.
    destruct Hcases as [(_ & Hrun)|(_ & re & we & te & He & Hcases)];
      [now rewrite Hrun|].
    destruct Hcases as [(_ & Hrun)|[(e & _ & Hrun)|(_ & ra & wa & ta & Ha & Hrun)]];
      rewrite Hrun in *; cbn [result_of trace_of fst snd] in *;
      try reflexivity.
    destruct (ensure_targets_spec _ _ _ _ He) as [Hev _].
    destruct (after_install_build_all _ _ _ _ _ _ Ha)
      as (_ & _ & _ & _ & _ & Hfail).
    apply (Hfail name c); [|exact Hc]. exists t, env. split; [exact Ht|].
    apply elem_of_app in Hin as [Hin|Hin];
      [now destruct (print_not_spawn _ _ _ _ _ Hb Hin)|].
    apply elem_of_app in Hin as [Hin|Hin];
      [now destruct (Hnospawn _ _ _ _ Hin)|].
    apply elem_of_app in Hin as [Hin|Hin].
    { rewrite Forall_forall in Hev.
      now destruct (Hev _ Hin) as (_ & _ & name' & t' & _ & [=]). }
    apply elem_of_app in Hin as [Hin|Hin]; [exact Hin|].
    destruct ra; cbn in Hin;
      [apply elem_of_cons in Hin as [Hin|Hin]; [discriminate|]|..];
      now apply elem_of_nil in Hin.
  - intros name path _. apply missing_file_exit_status.
  - destruct Hcases as [(_ & ->)|(_ & re & we & te & He & Hcases)];
      [now right|].
    destruct Hcases as [(_ & ->)|[(e & _ & ->)|(_ & ra & wa & ta & Ha & ->)]];
      [now right..|].
    destruct (after_install_build_all _ _ _ _ _ _ Ha)
      as (_ & _ & [->|[->|[e ->]]] & _); [now left|now right..].
Qed.

End BuildAll.

(** The run of the specification's example: one build succeeds, the other
    fails; the exit status is [1] and the executable that was built is
    staged. *)
Example build_all_one_failure :
  let run := main (H := Toy.host arm64_fails_machine)
               (mkArgs BuildAll X64 None) [Toy.clang] in
  result_of run = SysExit 1
  /\ children (trace_of run)
     = [["rustup"; "target"; "add"; "x86_64-pc-windows-gnu"];
        ["rustup"; "target"; "add"; "aarch64-pc-windows-gnullvm"];
        ["cargo"; "build"; "--release"; "--target"; "x86_64-pc-windows-gnu";
         "-j"; "8"];
        ["cargo"; "build"; "--release"; "--target"; "aarch64-pc-windows-gnullvm";
         "-j"; "8"]]
  /\ Toy.has (world_of run) (PathOps.parse "/mnt/c/code/htop-win-x64.exe") = true
  /\ Toy.has (world_of run) (PathOps.parse "/mnt/c/code/htop-win-arm64.exe") = false.
Proof. vm_compute. repeat split. Qed.

(** ** The search path and the arm64 environment *)

Section SearchPath.

Context {W : Type} `{Host W}.

(** C10. On a host environment without [PATH] the derivation raises
    [KeyError] for arm64 and returns for x64; for arm64 it returns
    exactly when [PATH] is present.  Nothing catches the exception:
    [build_target] and [check_target] raise it before starting any
    process, and a [check] or [build] of arm64 that gets past the
    prerequisite check and the installation dies of it. *)
Theorem arm64_needs_PATH :
  (forall environ : gmap string string,
      environ !! "PATH" = None ->
      get_env_for_target environ "arm64" = Raise (KeyError "PATH")
      /\ exists env, get_env_for_target environ "x64" = Ok env)
  /\ (forall environ : gmap string string,
        (exists env, get_env_for_target environ "arm64" = Ok env)
        <-> is_Some (environ !! "PATH"))
  /\ (os_environ !! "PATH" = None ->
      forall (w : W) (jobs : option Z),
        build_target "arm64" jobs w
        = (Raise (KeyError "PATH"), w, build_banner "arm64" arm64 jobs)
        /\ check_target "arm64" w
           = (Raise (KeyError "PATH"), w, check_banner "arm64" arm64))
  /\ (os_environ !! "PATH" = None ->
      forall (w : W) (action : Action) (jobs : option Z),
        action <> BuildAll ->
        prereq_ok w = true ->
        result_of (ensure_targets w) = Ok true ->
        result_of (main (mkArgs action ARM64 jobs) w) = Raise (KeyError "PATH")).
Proof.
  split; [|split; [|split]].
  - intros environ Hp. split; [now apply get_env_arm64_no_path|].
    eexists. apply get_env_x64.
  - apply get_env_arm64_returns.
  - intros Hp w jobs. apply get_env_arm64_no_path in Hp. split.
    + now apply build_target_raise.
    + now apply check_target_raise.
  - intros Hp w action jobs Haction Hok Hens.
    apply get_env_arm64_no_path in Hp.
    destruct (main_inv (mkArgs action ARM64 jobs) w)
      as (tp & _ & [(Hfail & _)|(_ & re & we & te & He & Hcases)]);
      [congruence|].
    rewrite He in Hens. cbn [result_of fst] in Hens. subst re.
    destruct Hcases as [([=] & _)|[(e & [=] & _)|(_ & ra & wa & ta & Ha & ->)]].
    cbn [result_of fst]. unfold after_install in Ha.
    cbn [args_action args_target args_jobs choice_name] in Ha.
    destruct action; [| |congruence].
    + rewrite (bind_raise _ _ _ _ _ _
                 (check_target_raise "arm64" arm64 _ we eq_refl Hp)) in Ha.
      now injection Ha as <- _ _.
    + rewrite (bind_raise _ _ _ _ _ _
                 (build_target_raise "arm64" arm64 jobs _ we eq_refl Hp)) in Ha.
      now injection Ha as <- _ _.
Qed.

End SearchPath.

Lemma arm64_needs_PATH_witness :
  get_env_for_target ({[ "HOME" := "/root" ]} : gmap string string) "arm64"
  = Raise (KeyError "PATH")
  /\ result_of (main (H := Toy.host pathless_machine)
                  (mkArgs Check ARM64 None) [Toy.clang])
     = Raise (KeyError "PATH").
Proof.
  pose proof (arm64_needs_PATH (H := Toy.host pathless_machine))
    as (Hraise & _ & _ & Hmain).
  split.
  - apply Hraise. reflexivity.
  - apply Hmain; [reflexivity | discriminate | reflexivity
                 | vm_compute; reflexivity].
Defined.


(** * Further properties of the script *)

Ltac elem_here :=
  solve [repeat first [apply list_elem_of_here | apply list_elem_of_further]].

Ltac not_elem Hin :=
  repeat (apply elem_of_cons in Hin as [Hin|Hin]; [discriminate|]);
  now apply elem_of_nil in Hin.

(** ** The command runner, once more *)

Section Runner.

Context {W : Type} `{Host W}.

(** X1. [run_command] starts exactly one child, whatever the outcome (it
    never retries), under the given environment unless that is [None] or
    an empty dict, in which case the child gets [os.environ], and in the
    given directory or else the project directory.  When it returns, the
    child has exited, the value returned says whether the status was
    zero, and a status other than zero has been reported on the output. *)
Theorem run_command_single_child (cmd : list string)
    (env : option (gmap string string)) (cwd : option Path) (w : W) :
  let run := run_command cmd env cwd w in
  spawned (trace_of run)
  = [(cmd, fst (os_spawn w cmd (env_or_environ env) (cwd_or_project cwd)))]
  /\ (forall cmd' env' cwd' out,
        ESpawn cmd' env' cwd' out ∈ trace_of run ->
        env' = match env with
               | Some e => if decide (e = ∅) then os_environ else e
               | None => os_environ
               end
        /\ cwd' = match cwd with Some d => d | None => PROJECT_DIR end)
  /\ (forall b, result_of run = Ok b ->
        exists returncode,
          spawned (trace_of run) = [(cmd, Exited returncode)]
          /\ b = (returncode =? 0)
          /\ (b = false ->
              EPrint ("Error: Command failed with exit code "
                      +:+ Str.of_Z returncode) ∈ trace_of run)).
Proof.
  intros run. subst run.
  destruct (os_spawn w cmd (env_or_environ env) (cwd_or_project cwd))
    as [out w'] eqn:Hs.
  rewrite (run_command_run _ _ _ _ _ _ Hs).
  cbn [trace_of result_of fst snd].
  assert (Hsp : spawned (running_line cmd
                         :: ESpawn cmd (env_or_environ env) (cwd_or_project cwd) out
                         :: runner_diagnostic out) = [(cmd, out)]).
  { destruct out as [c|what]; [destruct (c =? 0) eqn:Hc|];
      unfold runner_diagnostic; rewrite ?Hc; reflexivity. }
  split; [|split].
  - exact Hsp.
  - intros cmd' env' cwd' out' Hin.
    apply elem_of_cons in Hin as [Hin|Hin]; [discriminate|].
    apply elem_of_cons in Hin as [[= -> -> -> ->]|Hin].
    + split; [reflexivity|]. now destruct cwd.
    + now destruct (print_not_spawn _ _ _ _ _ (runner_diagnostic_prints out) Hin).
  - intros b Hb. destruct out as [c|what]; [|discriminate].
    injection Hb as <-. exists c. split; [exact Hsp|]. split; [reflexivity|].
    intros Hc. unfold runner_diagnostic. rewrite Hc.
    do 2 apply list_elem_of_further. apply list_elem_of_here.
Qed.

End Runner.

(** ** Names that are not in the table *)

Section Unregistered.

Context {W : Type} `{Host W}.

(** X2. For a name that is not a key of [TARGETS], every function that
    looks the target up raises [KeyError] with that name, before it
    prints, asks or starts anything; [get_final_output_path] does not
    look the name up and returns a path all the same. *)
Theorem unregistered_target_raises (name : string) :
  assoc TARGETS name = None ->
  (forall environ : gmap string string,
      get_env_for_target environ name = Raise (KeyError name))
  /\ get_build_output_path name = Raise (KeyError name)
  /\ get_final_output_path name
     = OUTPUT_DIR // ("htop-win-" +:+ name +:+ ".exe")
  /\ forall (w : W) (jobs : option Z),
       build_target name jobs w = (Raise (KeyError name), w, [])
       /\ check_target name w = (Raise (KeyError name), w, [])
       /\ copy_to_output name w = (Raise (KeyError name), w, []).
Proof.
  intros Hnone.
  assert (Hget : TARGETS_getitem name = Raise (KeyError name)).
  { unfold TARGETS_getitem. now rewrite Hnone. }
  split; [|split; [|split]].
  - intros environ. unfold get_env_for_target. now rewrite Hget.
  - unfold get_build_output_path. now rewrite Hget.
  - reflexivity.
  - intros w jobs. split; [|split].
    + unfold build_target. now rewrite Hget.
    + unfold check_target. now rewrite Hget.
    + unfold copy_to_output, get_build_output_path. now rewrite Hget.
Qed.

End Unregistered.

Lemma unregistered_target_raises_witness :
  get_build_output_path (H := Toy.host good_machine) "riscv64"
  = Raise (KeyError "riscv64").
Proof.
  apply (unregistered_target_raises (H := Toy.host good_machine) "riscv64").
  reflexivity.
Defined.

(** ** The toolchain variables *)

(** X3. The environment derived for a registered target binds the
    compiler, archiver and linker variables of its triple to the binaries
    of the descriptor, whatever the host environment had under those
    names. *)
Theorem toolchain_selectors (environ env : gmap string string)
    (name : string) (t : Target) :
  assoc TARGETS name = Some t ->
  get_env_for_target environ name = Ok env ->
  env !! ("CC_" +:+ Str.replace "-" "_" (triple t)) = Some (cc t)
  /\ env !! ("AR_" +:+ Str.replace "-" "_" (triple t)) = Some (ar t)
  /\ env !! ("CARGO_TARGET_" +:+ Str.upper (Str.replace "-" "_" (triple t))
             +:+ "_LINKER") = Some (linker t).
Proof.
  intros [[-> ->]|[-> ->]]%registered_cases.
  - rewrite get_env_x64. intros [= <-].
    change ("CC_" +:+ Str.replace "-" "_" (triple x64)) with (cc_key x64).
    change ("AR_" +:+ Str.replace "-" "_" (triple x64)) with (ar_key x64).
    change ("CARGO_TARGET_" +:+ Str.upper (Str.replace "-" "_" (triple x64))
            +:+ "_LINKER") with (linker_key x64).
    eval_keys. cbn [cc ar linker x64].
    rewrite !lookup_insert. repeat split; repeat (case_decide; try congruence).
  - destruct (environ !! "PATH") as [path|] eqn:Hp;
      [|now rewrite (get_env_arm64_no_path _ Hp)].
    rewrite (get_env_arm64 _ _ Hp). intros [= <-].
    change ("CC_" +:+ Str.replace "-" "_" (triple arm64)) with (cc_key arm64).
    change ("AR_" +:+ Str.replace "-" "_" (triple arm64)) with (ar_key arm64).
    change ("CARGO_TARGET_" +:+ Str.upper (Str.replace "-" "_" (triple arm64))
            +:+ "_LINKER") with (linker_key arm64).
    eval_keys. cbn [cc ar linker arm64].
    rewrite !lookup_insert. repeat split; repeat (case_decide; try congruence).
Qed.

Lemma toolchain_selectors_witness :
  (<["CARGO_TARGET_X86_64_PC_WINDOWS_GNU_LINKER" := "x86_64-w64-mingw32-gcc"]>
     (<["AR_x86_64_pc_windows_gnu" := "x86_64-w64-mingw32-ar"]>
      (<["CC_x86_64_pc_windows_gnu" := "x86_64-w64-mingw32-gcc"]>
       (<["CC_x86_64_pc_windows_gnu" := "cc"]> ∅))) : gmap string string)
  !! ("CC_" +:+ Str.replace "-" "_" (triple x64)) = Some (cc x64).
Proof.
  refine (proj1 (toolchain_selectors (<["CC_x86_64_pc_windows_gnu" := "cc"]> ∅)
                   _ "x64" x64 _ _)); reflexivity.
Defined.

(** ** The names of the variables *)

Lemma replace_no_hyphen (s : string) :
  "-"%char ∉ chars (Str.replace "-" "_" s).
Proof.
  induction s as [|c s IH]; [apply not_elem_of_nil|].
  cbn. apply not_elem_of_cons. split; [|exact IH].
  destruct (Ascii.eqb_spec c "-"); [discriminate|congruence].
Qed.

Lemma replace_length (old new : ascii) (s : string) :
  String.length (Str.replace old new s) = String.length s.
Proof. induction s as [|c s IH]; [reflexivity|]. cbn. now rewrite IH. Qed.

Lemma upper_ascii_hyphen (c : ascii) :
  Str.upper_ascii c = "-"%char -> c = "-"%char.
Proof.
  destruct c as [[] [] [] [] [] [] [] []]; vm_compute; congruence.
Qed.

Lemma upper_no_hyphen (s : string) :
  "-"%char ∉ chars s -> "-"%char ∉ chars (Str.upper s).
Proof.
  induction s as [|c s IH]; [trivial|].
  cbn. rewrite !not_elem_of_cons. intros [Hc Hs]. split; [|now apply IH].
  intros Hup. apply Hc. symmetry. now apply upper_ascii_hyphen.
Qed.

Lemma chars_app (s1 s2 : string) :
  chars (s1 +:+ s2) = (chars s1 ++ chars s2)%list.
Proof.
  induction s1 as [|c s1 IH]; [reflexivity|].
  change (String c s1 +:+ s2) with (String c (s1 +:+ s2)).
  unfold chars in *. cbn [list_ascii_of_string app]. now rewrite IH.
Qed.

(** X4. Whatever the triple of a descriptor, the names of the four
    variables derived from it contain no hyphen, and the normalised
    triple is as long as the triple. *)
Theorem derived_keys_have_no_hyphen (t : Target) :
  String.length (Str.replace "-" "_" (triple t)) = String.length (triple t)
  /\ ("-"%char ∉ chars (cc_key t))
  /\ ("-"%char ∉ chars (ar_key t))
  /\ ("-"%char ∉ chars (linker_key t))
  /\ ("-"%char ∉ chars (rustflags_key t)).
Proof.
  pose proof (replace_no_hyphen (triple t)) as Hr.
  pose proof (upper_no_hyphen _ Hr) as Hu.
  split; [|split; [|split; [|split]]].
  - apply replace_length.
  - unfold cc_key, env_triple_of. rewrite chars_app, not_elem_of_app.
    split; [|exact Hr]. intros Hin. not_elem Hin.
  - unfold ar_key, env_triple_of. rewrite chars_app, not_elem_of_app.
    split; [|exact Hr]. intros Hin. not_elem Hin.
  - unfold linker_key, env_triple_of. rewrite !chars_app, !not_elem_of_app.
    split; [|split; [exact Hu|]]; intros Hin; not_elem Hin.
  - unfold rustflags_key, env_triple_of. rewrite !chars_app, !not_elem_of_app.
    split; [|split; [exact Hu|]]; intros Hin; not_elem Hin.
Qed.

(** ** The summary loop never forgets a failure *)

Section Summary.

Context {W : Type} `{Host W}.

(** X5. Whatever the items and the state of the machine, the summary loop
    returns [True] only if it was entered with [all_success = True] and
    every item records a successful build; entered with
    [all_success = False] it never returns [True]. *)
Theorem summary_loop_keeps_failure (items : list (string * bool))
    (all_success : bool) (w : W) :
  result_of (summary_loop items all_success w) = Ok true ->
  all_success = true /\ Forall (fun item => item.2 = true) items.
Proof.
  revert all_success w.
  induction items as [|[name b] rest IH]; intros all_success w.
  - cbn. intros [= ->]. split; [reflexivity|constructor].
  - cbn [summary_loop]. destruct b.
    + destruct (copy_to_output name w) as [[ro w1] t1] eqn:Hc.
      destruct ro as [[final|]|e|c].
      * rewrite (bind_ok _ _ _ _ _ _ Hc). cbn [result_of fst].
        destruct ((let* size := stat_size final in _) w1)
          as [[r2 w2] t2] eqn:Hrest.
        cbn. intros ->.
        apply stat_inv in Hrest as [(size & t3 & _ & Hrest & _)|(_ & [=] & _)].
        apply print_inv in Hrest as (t4 & Hrest & _).
        destruct (IH all_success w1) as [Hall Hrest'];
          [now rewrite Hrest|].
        split; [exact Hall|]. now constructor.
      * rewrite (bind_ok _ _ _ _ _ _ Hc). cbn [result_of fst].
        destruct ((print _;; summary_loop rest false) w1)
          as [[r2 w2] t2] eqn:Hrest.
        cbn. intros ->.
        apply print_inv in Hrest as (t4 & Hrest & _).
        destruct (IH false w1) as [Hf _]; [now rewrite Hrest|discriminate Hf].
      * now rewrite (bind_raise _ _ _ _ _ _ Hc).
      * now rewrite (bind_exit _ _ _ _ _ _ Hc).
    + destruct ((print _;; summary_loop rest false) w)
        as [[r2 w2] t2] eqn:Hrest.
      cbn. intros ->.
      apply print_inv in Hrest as (t4 & Hrest & _).
      destruct (IH false w) as [Hf _]; [now rewrite Hrest|discriminate Hf].
Qed.

End Summary.

Lemma summary_loop_keeps_failure_witness :
  true = true /\ Forall (fun item : string * bool => item.2 = true) [("x64", true)].
Proof.
  apply (summary_loop_keeps_failure (H := Toy.host good_machine)
           [("x64", true)] true
           [Toy.clang; Toy.artifact "x86_64-pc-windows-gnu"]).
  vm_compute. reflexivity.
Defined.

(** ** The order of the installations *)

Section InstallOrder.

Context {W : Type} `{Host W}.

Lemma spawned_app (t1 t2 : list event) :
  spawned (t1 ++ t2) = (spawned t1 ++ spawned t2)%list.
Proof. apply omap_app. Qed.

Lemma spawned_prints (tr : list event) : Forall is_print tr -> spawned tr = [].
Proof.
  induction 1 as [|e tr He _ IH]; [reflexivity|].
  destruct e; first [exact IH | now destruct He].
Qed.

Lemma ensure_targets_loop_order (items : list (string * Target)) (w : W) :
  exists outs : list spawn_outcome,
    spawned (trace_of (ensure_targets_loop items w))
    = zip (map (fun item => ["rustup"; "target"; "add"; triple item.2]) items) outs
    /\ (length outs <= length items)%nat
    /\ (forall i out,
          outs !! i = Some out -> out <> Exited 0 -> S i = length outs)
    /\ (result_of (ensure_targets_loop items w) = Ok true
        <-> length outs = length items
            /\ Forall (fun out => out = Exited 0) outs).
Proof.
  revert w. induction items as [|[name t] rest IH]; intros w.
  - exists []. cbn. split; [reflexivity|]. split; [lia|].
    split; [intros i out [=]|]. split; [now split|reflexivity].
  - cbn [ensure_targets_loop]. fold (rustup_cmd t).
    destruct (os_spawn w (rustup_cmd t) (env_or_environ None)
                (cwd_or_project None)) as [out w1] eqn:Hs.
    pose proof (run_command_run _ None None _ _ _ Hs) as Hrun.
    destruct out as [c|what]; [destruct (Z.eqb_spec c 0) as [->|Hc]|].
    + cbn [runner_result runner_diagnostic Z.eqb] in Hrun.
      rewrite (bind_ok _ _ _ _ _ _ Hrun). cbn [negb].
      cbn [result_of trace_of fst snd].
      destruct (IH w1) as (outs & Hsp & Hlen & Hlast & Hres).
      exists (Exited 0 :: outs).
      split; [|split; [|split]].
      * rewrite spawned_app, Hsp. reflexivity.
      * cbn. lia.
      * intros [|i] out; cbn; [intros [= <-] Hne; now destruct Hne|].
        intros Hi Hne. f_equal. now apply (Hlast i out).
      * rewrite Hres. cbn. split.
        -- intros [-> Hall]. split; [reflexivity|now constructor].
        -- intros [[= Hl] Hall]. split; [exact Hl|].
           now apply Forall_cons in Hall as [_ Hall].
    + apply Z.eqb_neq in Hc as Hc'.
      cbn [runner_result runner_diagnostic] in Hrun. rewrite Hc' in Hrun.
      rewrite (bind_ok _ _ _ _ _ _ Hrun). cbn [negb].
      exists [Exited c]. split; [|split; [|split]].
      * destruct rest; reflexivity.
      * cbn. lia.
      * intros [|i] out; cbn; [reflexivity|discriminate].
      * cbn. split; [discriminate|].
        intros [_ Hall]. apply Forall_cons in Hall as [[= ->] _]. now destruct Hc.
    + rewrite (bind_raise _ _ _ _ _ _ Hrun).
      exists [NotStarted what]. split; [|split; [|split]].
      * destruct rest; reflexivity.
      * cbn. lia.
      * intros [|i] out; cbn; [reflexivity|discriminate].
      * cbn. split; [discriminate|].
        intros [_ Hall]. now apply Forall_cons in Hall as [[=] _].
Qed.

(** X6. [ensure_targets] runs [rustup target add] for the registered
    targets in the order of the table and stops at the first one that
    does not end with status zero: the children it started are the
    commands of a first part of the table, only the last of them can
    have failed, and it returns [True] exactly when it went through the
    whole table and every installation ended with status zero. *)
Theorem ensure_targets_in_order (w : W) :
  exists outs : list spawn_outcome,
    spawned (trace_of (ensure_targets w))
    = zip [["rustup"; "target"; "add"; "x86_64-pc-windows-gnu"];
           ["rustup"; "target"; "add"; "aarch64-pc-windows-gnullvm"]] outs
    /\ (length outs <= 2)%nat
    /\ (forall i out,
          outs !! i = Some out -> out <> Exited 0 -> S i = length outs)
    /\ (result_of (ensure_targets w) = Ok true
        <-> outs = [Exited 0; Exited 0]).
Proof.
  destruct (ensure_targets_loop_order TARGETS w)
    as (outs & Hsp & Hlen & Hlast & Hres).
  exists outs. unfold ensure_targets.
  destruct (ensure_targets_loop TARGETS w) as [[r w'] tr] eqn:Hloop.
  unfold bind, print. rewrite Hloop.
  cbn [result_of trace_of fst snd] in *.
  split; [exact Hsp|]. split; [exact Hlen|]. split; [exact Hlast|].
  rewrite Hres. split.
  - intros [Hl Hall]. destruct outs as [|o1 [|o2 [|o3 outs]]]; try discriminate.
    apply Forall_cons in Hall as [-> Hall].
    now apply Forall_cons in Hall as [-> _].
  - intros ->. split; [reflexivity|]. now repeat constructor.
Qed.

End InstallOrder.


(** ** What a run may do *)

Section RunEvents.

Context {W : Type} `{Host W}.

(** A property of events holds of a whole run when it holds of each of
    its steps. *)
Lemma bind_trace_all {A B} (P : event -> Prop) (m : M W A) (k : A -> M W B)
    (w : W) :
  Forall P (trace_of (m w)) ->
  (forall a w1 t1, m w = (Ok a, w1, t1) -> Forall P (trace_of (k a w1))) ->
  Forall P (trace_of (bind m k w)).
Proof.
  intros Hm Hk. unfold bind.
  destruct (m w) as [[[a|e|c] w1] t1] eqn:Hrun; try exact Hm.
  specialize (Hk a w1 t1 eq_refl). destruct (k a w1) as [[r w2] t2].
  apply Forall_app. now split.
Qed.

Lemma print_trace_all (P : event -> Prop) (line : string) (w : W) :
  P (EPrint line) -> Forall P (trace_of (print line w)).
Proof. intros Hp. repeat constructor. exact Hp. Qed.

Lemma run_command_trace_all (P : event -> Prop) (cmd : list string)
    (env : option (gmap string string)) (cwd : option Path) (w : W) :
  (forall line, P (EPrint line)) ->
  (forall out, P (ESpawn cmd (env_or_environ env) (cwd_or_project cwd) out)) ->
  Forall P (trace_of (run_command cmd env cwd w)).
Proof.
  intros Hprint Hspawn.
  destruct (os_spawn w cmd (env_or_environ env) (cwd_or_project cwd))
    as [out w'] eqn:Hs.
  rewrite (run_command_run _ _ _ _ _ _ Hs). cbn [trace_of snd].
  constructor; [apply Hprint|]. constructor; [apply Hspawn|].
  eapply Forall_impl; [apply runner_diagnostic_prints|].
  intros [] He; first [apply Hprint | now destruct He].
Qed.

Lemma check_prerequisites_events (args : Args) (w : W) :
  Forall (run_event args) (trace_of (check_prerequisites w)).
Proof.
  unfold check_prerequisites, bind, print, which, exists_, ret.
  fold clang_path.
  destruct (os_which w "cargo"); cbn;
    [destruct (os_which w "x86_64-w64-mingw32-gcc"); cbn;
     [destruct (os_exists w clang_path); cbn|]|];
    repeat first [apply Forall_nil; exact I
                 | apply Forall_cons; split; [cbn; tauto|]].
Qed.

Lemma ensure_targets_events (args : Args) (w : W) :
  Forall (run_event args) (trace_of (ensure_targets w)).
Proof.
  destruct (ensure_targets w) as [[r w'] tr] eqn:He.
  destruct (ensure_targets_spec _ _ _ _ He) as [Hev _]. cbn [trace_of snd].
  eapply Forall_impl; [exact Hev|].
  intros [] Hi; try exact I; try now destruct Hi.
  destruct Hi as (-> & -> & name & t & Hin & ->).
  split; [reflexivity|]. left. split; [reflexivity|]. now exists name, t.
Qed.

Lemma getitem_registered (name : string) (t : Target) :
  TARGETS_getitem name = Ok t -> assoc TARGETS name = Some t.
Proof.
  unfold TARGETS_getitem. destruct (assoc TARGETS name) as [t'|]; congruence.
Qed.

Lemma build_target_events (args : Args) (name : string) (w : W) :
  args_action args <> Check ->
  selected args name ->
  Forall (run_event args) (trace_of (build_target name (args_jobs args) w)).
Proof.
  intros Hact Hsel. unfold build_target.
  destruct (TARGETS_getitem name) as [t|e|c] eqn:Ht; [|constructor..].
  apply getitem_registered in Ht as Hreg.
  apply bind_trace_all; [constructor|]. intros a ? ? Ha.
  cbv [lift] in Ha. injection Ha as <- <- <-.
  do 4 (apply bind_trace_all; [now apply print_trace_all|]; intros _ ? _ _).
  destruct (get_env_for_target os_environ name) as [env0|e|c] eqn:Henv;
    [|constructor..].
  apply bind_trace_all; [constructor|]. intros a ? ? Ha.
  cbv [lift] in Ha. injection Ha as <- <- <-.
  fold (num_jobs (args_jobs args)). fold (build_cmd t (args_jobs args)).
  fold (build_env env0 (args_jobs args)).
  apply run_command_trace_all; [now intros|]. intros out.
  rewrite env_or_environ_build. cbn. split; [reflexivity|]. right.
  exists name, t, env0. repeat (split; [assumption|]).
  now destruct (args_action args).
Qed.

Lemma check_target_events (args : Args) (name : string) (w : W) :
  args_action args = Check ->
  selected args name ->
  Forall (run_event args) (trace_of (check_target name w)).
Proof.
  intros Hact Hsel. unfold check_target.
  destruct (TARGETS_getitem name) as [t|e|c] eqn:Ht; [|constructor..].
  apply getitem_registered in Ht as Hreg.
  apply bind_trace_all; [constructor|]. intros a ? ? Ha.
  cbv [lift] in Ha. injection Ha as <- <- <-.
  do 3 (apply bind_trace_all; [now apply print_trace_all|]; intros _ ? _ _).
  destruct (get_env_for_target os_environ name) as [env0|e|c] eqn:Henv;
    [|constructor..].
  apply bind_trace_all; [constructor|]. intros a ? ? Ha.
  cbv [lift] in Ha. injection Ha as <- <- <-.
  fold (check_cmd t).
  apply run_command_trace_all; [now intros|]. intros out.
  rewrite (env_or_environ_derived _ _ _ Henv). cbn. split; [reflexivity|]. right.
  exists name, t, env0. repeat (split; [assumption|]).
  now rewrite Hact.
Qed.

Lemma copy_to_output_run_events (args : Args) (name : string) (w : W) :
  args_action args <> Check ->
  selected args name ->
  Forall (run_event args) (trace_of (copy_to_output name w)).
Proof.
  intros Hact Hsel. unfold copy_to_output.
  destruct (get_build_output_path name) as [path|e|c] eqn:Hpath;
    [|constructor..].
  apply bind_trace_all; [constructor|]. intros a ? ? Ha.
  cbv [lift] in Ha. injection Ha as <- <- <-.
  unfold bind, exists_, mkdir, copy2, print, ret.
  assert (Hex : forall b, run_event args (EExists path b)).
  { intros b. right. split; [exact Hact|]. now exists name. }
  assert (Hcp : forall err,
             run_event args (ECopy path (get_final_output_path name) err)).
  { intros err. split; [exact Hact|]. now exists name. }
  assert (Hmk : forall err, run_event args (EMkdir OUTPUT_DIR err)).
  { intros err. now split. }
  destruct (os_exists w path); cbn.
  - destruct (os_mkdir w OUTPUT_DIR) as [[what|] w2]; cbn.
    + apply Forall_cons. split; [apply Hex|].
      apply Forall_cons. split; [apply Hmk|]. constructor.
    + destruct (os_copy2 w2 path (get_final_output_path name))
        as [[what|] w3]; cbn;
        (apply Forall_cons; split; [apply Hex|]);
        (apply Forall_cons; split; [apply Hmk|]);
        (apply Forall_cons; split; [exact I|]);
        (apply Forall_cons; split; [apply Hcp|]); constructor.
  - apply Forall_cons. split; [apply Hex|].
    apply Forall_cons. split; [exact I|]. constructor.
Qed.

Lemma build_all_loop_events (args : Args) (names : list string)
    (results : list (string * bool)) (w : W) :
  args_action args = BuildAll ->
  (forall name, name ∈ names -> exists t, assoc TARGETS name = Some t) ->
  Forall (run_event args)
    (trace_of (build_all_loop names (args_jobs args) results w)).
Proof.
  intros Hact. revert results w.
  induction names as [|name rest IH]; intros results w Hreg; [constructor|].
  cbn [build_all_loop]. apply bind_trace_all.
  - apply build_target_events; [congruence|].
    unfold selected. rewrite Hact. apply Hreg, list_elem_of_here.
  - intros success w1 _ _. apply IH. intros n Hin.
    now apply Hreg, list_elem_of_further.
Qed.

Lemma summary_loop_events (args : Args) (items : list (string * bool))
    (all_success : bool) (w : W) :
  args_action args = BuildAll ->
  (forall name b, (name, b) ∈ items -> exists t, assoc TARGETS name = Some t) ->
  Forall (run_event args) (trace_of (summary_loop items all_success w)).
Proof.
  intros Hact. revert all_success w.
  induction items as [|[name b] rest IH]; intros all_success w Hreg;
    [constructor|].
  assert (Hreg' : forall n b', (n, b') ∈ rest ->
                    exists t, assoc TARGETS n = Some t).
  { intros n b' Hin. apply (Hreg n b'). now apply list_elem_of_further. }
  destruct (Hreg name b) as [t Ht]; [apply list_elem_of_here|].
  assert (Hsel : selected args name).
  { unfold selected. rewrite Hact. now exists t. }
  cbn [summary_loop]. destruct b.
  - apply bind_trace_all;
      [apply copy_to_output_run_events; [congruence|exact Hsel]|].
    intros [final|] w1 t1 Hc.
    + destruct (copy_to_output_events _ _ _ _ _ _
                  (get_build_output_path_parts _ _ Ht) Hc)
        as (_ & _ & _ & _ & Hsome & _).
      destruct (Hsome final eq_refl) as [-> _].
      apply bind_trace_all.
      * assert (Hst : forall size,
                   run_event args (EStat (get_final_output_path name) size)).
        { intros size. split; [exact Hact|]. now exists name. }
        unfold stat_size.
        destruct (os_stat_size w1 (get_final_output_path name));
          (apply Forall_cons; split; [apply Hst|constructor]).
      * intros size w2 _ _. apply bind_trace_all; [now apply print_trace_all|].
        intros _ w3 _ _. now apply IH.
    + apply bind_trace_all; [now apply print_trace_all|].
      intros _ w2 _ _. now apply IH.
  - apply bind_trace_all; [now apply print_trace_all|].
    intros _ w2 _ _. now apply IH.
Qed.

Lemma exit_or_go_events (P : event -> Prop) (ok : bool) (w : W) :
  Forall P (trace_of ((if negb ok then sys_exit 1 else ret tt) w)).
Proof. destruct ok; constructor. Qed.

(** Every event of a run is one that [run_event] allows. *)
Lemma main_events (args : Args) (w : W) :
  Forall (run_event args) (trace_of (main args w)).
Proof.
  unfold main.
  apply bind_trace_all; [constructor|]. intros mem_gb ? _ _.
  do 4 (apply bind_trace_all; [now apply print_trace_all|]; intros _ ? _ _).
  apply bind_trace_all.
  { destruct mem_gb as [kb|]; [destruct (0 <? kb)|];
      first [now apply print_trace_all | constructor]. }
  intros _ ? _ _.
  do 2 (apply bind_trace_all; [now apply print_trace_all|]; intros _ ? _ _).
  apply bind_trace_all; [apply check_prerequisites_events|]. intros ok ? _ _.
  apply bind_trace_all; [apply exit_or_go_events|]. intros _ ? _ _.
  apply bind_trace_all; [|intros _ ? _ _; now apply print_trace_all].
  destruct (choice_registered (args_target args)) as [t Ht].
  destruct (args_action args) eqn:Hact.
  - apply bind_trace_all; [apply ensure_targets_events|]. intros ok1 ? _ _.
    apply bind_trace_all; [apply exit_or_go_events|]. intros _ ? _ _.
    apply bind_trace_all;
      [apply check_target_events; [exact Hact|unfold selected; now rewrite Hact]|].
    intros ok2 ? _ _.
    apply bind_trace_all; [apply exit_or_go_events|]. intros _ ? _ _.
    now apply print_trace_all.
  - assert (Hsel : selected args (choice_name (args_target args))).
    { unfold selected. now rewrite Hact. }
    assert (Hne : args_action args <> Check) by congruence.
    apply bind_trace_all; [apply ensure_targets_events|]. intros ok1 ? _ _.
    apply bind_trace_all; [apply exit_or_go_events|]. intros _ ? _ _.
    apply bind_trace_all; [now apply build_target_events|].
    intros ok2 ? _ _.
    apply bind_trace_all; [apply exit_or_go_events|]. intros _ ? _ _.
    apply bind_trace_all; [now apply copy_to_output_run_events|].
    intros [output|] ? _ _.
    + apply bind_trace_all; [now apply print_trace_all|]. intros _ ? _ _.
      now apply print_trace_all.
    + apply bind_trace_all; [destruct (get_build_output_path _); constructor|].
      intros path ? _ _.
      apply bind_trace_all; [now apply print_trace_all|]. intros _ ? _ _.
      constructor.
  - apply bind_trace_all; [apply ensure_targets_events|]. intros ok1 ? _ _.
    apply bind_trace_all; [apply exit_or_go_events|]. intros _ ? _ _.
    apply bind_trace_all.
    { apply build_all_loop_events; [exact Hact|].
      intros name Hin. rewrite TARGETS_eq in Hin. cbn [map fst] in Hin.
      apply elem_of_cons in Hin as [->|Hin]; [now exists x64|].
      apply elem_of_cons in Hin as [->|Hin]; [now exists arm64|].
      now apply elem_of_nil in Hin. }
    intros results ? ? Hloop.
    do 3 (apply bind_trace_all; [now apply print_trace_all|]; intros _ ? _ _).
    destruct (build_all_TARGETS _ _ _ _ _ Hloop) as (_ & _ & Hres).
    destruct (Hres results eq_refl) as (c1 & c2 & -> & _).
    apply bind_trace_all; [|intros all ? _ _; apply exit_or_go_events].
    apply summary_loop_events; [exact Hact|].
    intros name b Hin.
    apply elem_of_cons in Hin as [[= -> _]|Hin]; [now exists x64|].
    apply elem_of_cons in Hin as [[= -> _]|Hin]; [now exists arm64|].
    now apply elem_of_nil in Hin.
Qed.

End RunEvents.

(** ** What each action leaves alone *)

Section Actions.

Context {W : Type} `{Host W}.

Lemma run_event_elem (args : Args) (w : W) (e : event) :
  e ∈ trace_of (main args w) -> run_event args e.
Proof.
  intros Hin. pose proof (main_events args w) as Hall.
  rewrite Forall_forall in Hall. now apply Hall.
Qed.

(** X7. A [check] run stages nothing: it creates no directory, copies no
    file and asks for no size; the only file it looks for is the
    llvm-mingw compiler of the prerequisite check; and every [cargo]
    child it starts is [cargo check --target] for the triple of the
    selected target, under exactly the environment that
    [get_env_for_target] derives for it (no job count is added and no
    [-j] is passed). *)
Theorem check_run_stages_nothing (target : TargetChoice) (jobs : option Z)
    (w : W) :
  let tr := trace_of (main (mkArgs Check target jobs) w) in
  (forall p err, EMkdir p err ∉ tr)
  /\ (forall src dst err, ECopy src dst err ∉ tr)
  /\ (forall p size, EStat p size ∉ tr)
  /\ (forall p present,
        EExists p present ∈ tr -> p = LLVM_MINGW // "aarch64-w64-mingw32-clang")
  /\ (forall cmd env cwd out,
        ESpawn ("cargo" :: cmd) env cwd out ∈ tr ->
        exists t,
          assoc TARGETS (choice_name target) = Some t
          /\ cmd = ["check"; "--target"; triple t]
          /\ get_env_for_target os_environ (choice_name target) = Ok env).
Proof.
  intros tr. subst tr. set (args := mkArgs Check target jobs).
  split; [|split; [|split; [|split]]].
  - intros p err Hin. now destruct (run_event_elem _ _ _ Hin) as [Hne _].
  - intros src dst err Hin. now destruct (run_event_elem _ _ _ Hin) as [Hne _].
  - intros p size Hin. now destruct (run_event_elem _ _ _ Hin) as [[=] _].
  - intros p present Hin.
    destruct (run_event_elem _ _ _ Hin) as [->|[Hne _]]; [reflexivity|].
    now destruct Hne.
  - intros cmd env cwd out Hin.
    destruct (run_event_elem _ _ _ Hin)
      as (_ & [(_ & name & t & _ & [=])
              |(name & t & env0 & Hsel & Ht & Henv & Hcmd & ->)]).
    cbn in Hsel. subst name. injection Hcmd as ->. now exists t.
Qed.

(** X8. A [build] run is about the selected target only: every [cargo]
    child is [cargo build --release --target] for its triple, every file
    looked for after the prerequisite check is its expected executable,
    and every copy is from that executable to the staged path of that
    target; no size is asked for. *)
Theorem build_run_selected_only (target : TargetChoice) (jobs : option Z)
    (w : W) :
  let tr := trace_of (main (mkArgs Build target jobs) w) in
  let name := choice_name target in
  (forall cmd env cwd out,
      ESpawn ("cargo" :: cmd) env cwd out ∈ tr ->
      exists t,
        assoc TARGETS name = Some t
        /\ "cargo" :: cmd = build_cmd t jobs)
  /\ (forall p present,
        EExists p present ∈ tr ->
        p = LLVM_MINGW // "aarch64-w64-mingw32-clang"
        \/ get_build_output_path name = Ok p)
  /\ (forall src dst err,
        ECopy src dst err ∈ tr ->
        get_build_output_path name = Ok src
        /\ dst = get_final_output_path name)
  /\ (forall p size, EStat p size ∉ tr).
Proof.
  intros tr name. subst tr name. set (args := mkArgs Build target jobs).
  split; [|split; [|split]].
  - intros cmd env cwd out Hin.
    destruct (run_event_elem _ _ _ Hin)
      as (_ & [(_ & name & t & _ & [=])
              |(name & t & env0 & Hsel & Ht & Henv & Hcmd & _)]).
    cbn in Hsel. subst name. exists t. now split.
  - intros p present Hin.
    destruct (run_event_elem _ _ _ Hin) as [->|(_ & name & Hsel & Hp)];
      [now left|].
    cbn in Hsel. subst name. now right.
  - intros src dst err Hin.
    destruct (run_event_elem _ _ _ Hin) as (_ & name & Hsel & Hp & ->).
    cbn in Hsel. subst name. now split.
  - intros p size Hin. now destruct (run_event_elem _ _ _ Hin) as [[=] _].
Qed.

(** X9. In every run, whatever the action: every child is started in the
    project directory; [rustup] gets the host environment unchanged; the
    only path ever given to [mkdir] is [OUTPUT_DIR] (the call is
    [mkdir(parents=True, exist_ok=True)], so what the script may create
    is [OUTPUT_DIR] with the ancestors it lacks); and every copy is from the
    expected executable of a registered target, under [TARGET_DIR], to
    the staged path [htop-win-<name>.exe] of that same target under
    [OUTPUT_DIR]. *)
Theorem run_writes_only_staged_files (args : Args) (w : W) :
  let tr := trace_of (main args w) in
  (forall cmd env cwd out,
      ESpawn cmd env cwd out ∈ tr ->
      cwd = PROJECT_DIR
      /\ (forall cmd', cmd = "rustup" :: cmd' -> env = os_environ))
  /\ (forall p err, EMkdir p err ∈ tr -> p = OUTPUT_DIR)
  /\ (forall src dst err,
        ECopy src dst err ∈ tr ->
        exists name t,
          assoc TARGETS name = Some t
          /\ src = (TARGET_DIR ++ [triple t; "release"; "htop-win.exe"])%list
          /\ dst = (OUTPUT_DIR ++ ["htop-win-" +:+ name +:+ ".exe"])%list).
Proof.
  intros tr. subst tr. split; [|split].
  - intros cmd env cwd out Hin.
    destruct (run_event_elem _ _ _ Hin)
      as (-> & [(-> & _)|(name & t & env0 & _ & _ & _ & Hcmd)]);
      (split; [reflexivity|]); [reflexivity|].
    intros cmd' ->. destruct (args_action args); now destruct Hcmd as [[=] _].
  - intros p err Hin. now destruct (run_event_elem _ _ _ Hin) as [_ ->].
  - intros src dst err Hin.
    destruct (run_event_elem _ _ _ Hin) as (_ & name & Hsel & Hp & ->).
    assert (Hreg : exists t, assoc TARGETS name = Some t).
    { unfold selected in Hsel.
      destruct (args_action args); try exact Hsel;
        subst name; apply choice_registered. }
    destruct Hreg as [t Ht]. exists name, t. split; [exact Ht|].
    rewrite (get_build_output_path_parts _ _ Ht) in Hp. injection Hp as <-.
    split; [reflexivity|]. now apply get_final_output_path_parts with t.
Qed.

End Actions.


(** ** Builds come first, staging after *)

Section Shape.

Context {W : Type} `{Host W}.

Lemma bind_trace_elem {A B} (e : event) (m : M W A) (k : A -> M W B) (w : W) :
  e ∈ trace_of (bind m k w) ->
  e ∈ trace_of (m w)
  \/ exists a w1 t1, m w = (Ok a, w1, t1) /\ e ∈ trace_of (k a w1).
Proof.
  unfold bind. destruct (m w) as [[[a|x|c] w1] t1] eqn:Hm; try now left.
  destruct (k a w1) as [[r w2] t2] eqn:Hk. cbn [trace_of snd].
  intros [Hin|Hin]%elem_of_app; [now left|].
  right. exists a, w1, t1. split; [reflexivity|]. now rewrite Hk.
Qed.

Lemma check_prerequisites_quiet (w : W) :
  Forall probe_or_print (trace_of (check_prerequisites w)).
Proof.
  unfold check_prerequisites, bind, print, which, exists_, ret.
  destruct (os_which w "cargo"); cbn;
    [destruct (os_which w "x86_64-w64-mingw32-gcc"); cbn;
     [destruct (os_exists w (LLVM_MINGW // "aarch64-w64-mingw32-clang")); cbn|]|];
    repeat first [apply Forall_nil; exact I
                 | apply Forall_cons; split; [exact I|]].
Qed.

(** Two registered targets with the same expected executable are the
    same target. *)
Lemma build_output_path_inj (n1 n2 : string) (t1 t2 : Target) (p : Path) :
  assoc TARGETS n1 = Some t1 ->
  assoc TARGETS n2 = Some t2 ->
  get_build_output_path n1 = Ok p ->
  get_build_output_path n2 = Ok p ->
  n1 = n2.
Proof.
  intros H1 H2.
  rewrite (get_build_output_path_parts _ _ H1),
          (get_build_output_path_parts _ _ H2).
  intros [= <-] [= Heq]. apply app_inv_head in Heq.
  destruct (registered_cases _ _ H1) as [[-> ->]|[-> ->]],
           (registered_cases _ _ H2) as [[-> ->]|[-> ->]];
    first [reflexivity | discriminate Heq].
Qed.

Lemma copy_to_output_copies (name : string) (w : W) (src dst : Path)
    (err : option string) :
  ECopy src dst err ∈ trace_of (copy_to_output name w) ->
  get_build_output_path name = Ok src /\ dst = get_final_output_path name.
Proof.
  destruct (get_build_output_path name) as [path|e|c] eqn:Hpath.
  - destruct (copy_to_output name w) as [[r w'] tr] eqn:Hrun.
    cbn [trace_of snd]. intros Hin.
    destruct (copy_to_output_inv _ _ _ _ _ _ Hpath Hrun)
      as [(_ & _ & _ & ->)
         |(_ & [(what & _ & ->)|[(what & _ & ->)|(_ & ->)]])];
      repeat (apply elem_of_cons in Hin as [Hin|Hin];
              [first [discriminate Hin | now injection Hin as <- <- _]|]);
      now apply elem_of_nil in Hin.
  - unfold copy_to_output. rewrite Hpath. intros Hin.
    now apply elem_of_nil in Hin.
  - unfold copy_to_output. rewrite Hpath. intros Hin.
    now apply elem_of_nil in Hin.
Qed.

(** The summary loop copies executables of successful builds only. *)
Lemma summary_loop_copies (items : list (string * bool)) (all_success : bool)
    (w : W) (src dst : Path) (err : option string) :
  ECopy src dst err ∈ trace_of (summary_loop items all_success w) ->
  exists name, (name, true) ∈ items /\ get_build_output_path name = Ok src.
Proof.
  revert all_success w. induction items as [|[name b] rest IH];
    intros all_success w; [intros Hin; now apply elem_of_nil in Hin|].
  assert (Hrest : forall a w1,
             ECopy src dst err ∈ trace_of (summary_loop rest a w1) ->
             exists n, (n, true) ∈ (name, b) :: rest
                       /\ get_build_output_path n = Ok src).
  { intros a w1 Hin. destruct (IH _ _ Hin) as (n & Hn & Hp).
    exists n. split; [now apply list_elem_of_further|exact Hp]. }
  assert (Hline : forall line a w1,
             ECopy src dst err ∈ trace_of ((print line;; summary_loop rest a) w1) ->
             exists n, (n, true) ∈ (name, b) :: rest
                       /\ get_build_output_path n = Ok src).
  { intros line a w1 Hin.
    apply bind_trace_elem in Hin as [Hin|(_ & w2 & _ & _ & Hin)];
      [not_elem Hin|now apply (Hrest a w2)]. }
  cbn [summary_loop]. destruct b; [|apply Hline]. intros Hin.
  apply bind_trace_elem in Hin as [Hin|(out & w1 & t1 & Hc & Hin)].
  - apply copy_to_output_copies in Hin as [Hp _].
    exists name. split; [apply list_elem_of_here|exact Hp].
  - destruct out as [final|]; [|exact (Hline _ false w1 Hin)].
    apply bind_trace_elem in Hin as [Hin|(size & w2 & _ & _ & Hin)].
    + unfold stat_size in Hin. destruct (os_stat_size w1 final); not_elem Hin.
    + exact (Hline _ all_success w2 Hin).
Qed.

Lemma check_target_inv (name : string) (t : Target) (w w' : W)
    (r : result bool) (tr : list event) :
  assoc TARGETS name = Some t ->
  check_target name w = (r, w', tr) ->
  Forall spawn_or_print tr
  /\ (forall c, r <> SysExit c)
  /\ (r = Ok true ->
      exists env, ESpawn (check_cmd t) env PROJECT_DIR (Exited 0) ∈ tr).
Proof.
  intros Hreg Hrun.
  destruct (get_env_registered os_environ _ _ Hreg) as [[env0 Henv]|(Henv & _)].
  - destruct (os_spawn w (check_cmd t) env0 PROJECT_DIR) as [out w1] eqn:Hs.
    rewrite (check_target_run _ _ _ _ _ _ Hreg Henv Hs) in Hrun.
    injection Hrun as <- <- <-. split; [|split].
    + repeat (apply Forall_cons; split; [exact I|]).
      eapply Forall_impl; [apply runner_diagnostic_prints|]. now intros [].
    + destruct out; discriminate.
    + destruct out as [c|what]; [|discriminate]. intros [= Hc].
      apply Z.eqb_eq in Hc as ->. exists env0. elem_here.
  - rewrite (check_target_raise _ _ _ _ Hreg Henv) in Hrun.
    injection Hrun as <- <- <-. split; [repeat constructor|].
    split; discriminate.
Qed.

Lemma build_events_spawn_or_print (jobs : option Z) (tr : list event) :
  Forall (build_event jobs) tr -> Forall spawn_or_print tr.
Proof. intros Hall. eapply Forall_impl; [exact Hall|]. now intros []. Qed.

Lemma prints_spawn_or_print (tr : list event) :
  Forall is_print tr -> Forall spawn_or_print tr.
Proof. intros Hall. eapply Forall_impl; [exact Hall|]. now intros []. Qed.

Lemma prints_staging (tr : list event) :
  Forall is_print tr -> Forall staging_event tr.
Proof. intros Hall. eapply Forall_impl; [exact Hall|]. now intros []. Qed.

Lemma spawn_or_print_no_copy (tr : list event) (src dst : Path)
    (err : option string) :
  Forall spawn_or_print tr -> ECopy src dst err ∉ tr.
Proof. intros Hall Hin. rewrite Forall_forall in Hall. exact (Hall _ Hin). Qed.

Lemma spawn_or_print_no_mkdir (tr : list event) (p : Path)
    (err : option string) :
  Forall spawn_or_print tr -> EMkdir p err ∉ tr.
Proof. intros Hall Hin. rewrite Forall_forall in Hall. exact (Hall _ Hin). Qed.

Lemma staging_no_spawn (tr : list event) (cmd : list string)
    (env : gmap string string) (cwd : Path) (out : spawn_outcome) :
  Forall staging_event tr -> ESpawn cmd env cwd out ∉ tr.
Proof. intros Hall Hin. rewrite Forall_forall in Hall. exact (Hall _ Hin). Qed.

(** The rest of a branch falls into two parts: first lines of output and
    children, then staging and no child; an executable is copied in the
    second part only if every build of its target in the first part ended
    with status zero. *)
Lemma after_install_shape (args : Args) (we wa : W) (ra : result unit)
    (ta : list event) :
  after_install args we = (ra, wa, ta) ->
  exists building staging : list event,
    ta = (building ++ staging)%list
    /\ Forall spawn_or_print building
    /\ Forall staging_event staging
    /\ (forall name t src dst err c,
          assoc TARGETS name = Some t ->
          get_build_output_path name = Ok src ->
          ECopy src dst err ∈ staging ->
          built (args_jobs args) building name c ->
          c = 0)
    /\ (ra = Ok tt -> success_of args building staging).
Proof.
  destruct args as [[] target jobs]; unfold success_of;
    cbn [args_action args_target args_jobs]; unfold after_install;
    cbn [args_action args_target args_jobs]; intros Hrun;
    destruct (choice_registered target) as [t Ht].
  - (* check *)
    destruct (check_target (choice_name target) we) as [[rc w1] t1] eqn:Hc.
    destruct (check_target_inv _ _ _ _ _ _ Ht Hc) as (Hev & Hexit & Hok).
    assert (Hshape : exists t2, ta = (t1 ++ t2)%list /\ Forall is_print t2
                                /\ (ra = Ok tt -> rc = Ok true)).
    { destruct rc as [[|]|e|c]; [| | |now destruct (Hexit c)].
      - eapply bind_ok_inv in Hrun as (t2 & Hrun & ->); [|exact Hc].
        cbn [negb] in Hrun. rewrite ret_then in Hrun.
        injection Hrun as <- <- <-. eexists. split; [reflexivity|].
        split; [repeat constructor|reflexivity].
      - eapply bind_ok_inv in Hrun as (t2 & Hrun & ->); [|exact Hc].
        cbn [negb] in Hrun. rewrite exit_then in Hrun.
        injection Hrun as <- <- <-. exists [].
        split; [reflexivity|]. split; [constructor|discriminate].
      - rewrite (bind_raise _ _ _ _ _ _ Hc) in Hrun. injection Hrun as <- <- <-.
        exists []. rewrite app_nil_r.
        split; [reflexivity|]. split; [constructor|discriminate]. }
    destruct Hshape as (t2 & -> & Ht2 & Hra).
    exists (t1 ++ t2)%list, []. rewrite app_nil_r.
    split; [reflexivity|].
    split; [apply Forall_app; split; [exact Hev|now apply prints_spawn_or_print]|].
    split; [constructor|]. split.
    + intros name t' src dst err c _ _ Hin. now apply elem_of_nil in Hin.
    + intros Hok'. destruct (Hok (Hra Hok')) as [env Hin].
      exists t, env. split; [exact Ht|]. apply elem_of_app. now left.
  - (* build *)
    pose proof (get_build_output_path_parts _ _ Ht) as Hpath.
    destruct (build_target (choice_name target) jobs we) as [[rb w1] t1] eqn:Hb.
    destruct (build_target_spec _ _ _ _ _ _ _ Ht Hb) as (Hev & Hexit & Hok).
    apply build_events_spawn_or_print in Hev.
    destruct rb as [[|]|e|c]; [| | |now destruct (Hexit c)].
    + destruct (Hok true eq_refl) as (c0 & Hbuilt & Hc0 & Honly).
      symmetry in Hc0. apply Z.eqb_eq in Hc0 as ->.
      eapply bind_ok_inv in Hrun as (t2 & Hrun & ->); [|exact Hb].
      cbn [negb] in Hrun. rewrite ret_then in Hrun.
      destruct (copy_to_output (choice_name target) w1)
        as [[ro w2] t3] eqn:Hc.
      destruct (copy_to_output_events _ _ _ _ _ _ Hpath Hc)
        as (Hev3 & Hexit3 & _ & _ & Hsome & _).
      assert (Hshape : exists t4, t2 = (t3 ++ t4)%list /\ Forall is_print t4
                 /\ (ra = Ok tt -> exists final, ro = Ok (Some final))).
      { destruct ro as [[final|]|e|c]; [| | |now destruct (Hexit3 c)].
        - eapply bind_ok_inv in Hrun as (t4 & Hrun & ->); [|exact Hc].
          injection Hrun as <- <- <-. eexists. split; [reflexivity|].
          split; [repeat constructor|]. intros _. now exists final.
        - eapply bind_ok_inv in Hrun as (t4 & Hrun & ->); [|exact Hc].
          rewrite Hpath in Hrun. injection Hrun as <- <- <-.
          eexists. split; [reflexivity|].
          split; [repeat constructor|discriminate].
        - rewrite (bind_raise _ _ _ _ _ _ Hc) in Hrun.
          injection Hrun as <- <- <-. exists []. rewrite app_nil_r.
          split; [reflexivity|]. split; [constructor|discriminate]. }
      destruct Hshape as (t4 & -> & Ht4 & Hra).
      exists t1, (t3 ++ t4)%list. split; [reflexivity|]. split; [exact Hev|].
      split; [apply Forall_app; split; [exact Hev3|now apply prints_staging]|].
      split.
      * intros name t' src dst err c _ _ _ (t'' & env & _ & Hin).
        now destruct (Honly _ _ _ _ Hin) as [_ [= ->]].
      * intros Hok'. destruct (Hra Hok') as [final ->].
        split; [exact Hbuilt|].
        destruct (Hsome final eq_refl) as [_ Hst]. now apply staged_app_l.
    + eapply bind_ok_inv in Hrun as (t2 & Hrun & ->); [|exact Hb].
      cbn [negb] in Hrun. rewrite exit_then in Hrun.
      injection Hrun as <- <- <-. exists t1, []. split; [reflexivity|].
      split; [exact Hev|]. split; [constructor|]. split; [|discriminate].
      intros name t' src dst err c _ _ Hin. now apply elem_of_nil in Hin.
    + rewrite (bind_raise _ _ _ _ _ _ Hb) in Hrun. injection Hrun as <- <- <-.
      exists t1, []. rewrite app_nil_r. split; [reflexivity|].
      split; [exact Hev|]. split; [constructor|]. split; [|discriminate].
      intros name t' src dst err c _ _ Hin. now apply elem_of_nil in Hin.
  - (* build-all *)
    destruct (build_all_loop (map fst TARGETS) jobs [] we)
      as [[rb w1] t1] eqn:Hb.
    destruct (build_all_TARGETS _ _ _ _ _ Hb) as (Hev1 & Hexit1 & Hok1).
    apply build_events_spawn_or_print in Hev1.
    destruct rb as [res|e|c]; [| |now destruct (Hexit1 c)].
    2:{ rewrite (bind_raise _ _ _ _ _ _ Hb) in Hrun. injection Hrun as <- <- <-.
        exists t1, []. rewrite app_nil_r. split; [reflexivity|].
        split; [exact Hev1|]. split; [constructor|]. split; [|discriminate].
        intros name t' src dst err c _ _ Hin. now apply elem_of_nil in Hin. }
    destruct (Hok1 res eq_refl) as (c1 & c2 & -> & Hb1 & Hb2 & Honly).
    eapply bind_ok_inv in Hrun as (t2 & Hrun & Eta); [|exact Hb].
    apply print_inv in Hrun as (t2a & Hrun & E2).
    apply print_inv in Hrun as (t2b & Hrun & E2a).
    apply print_inv in Hrun as (t2c & Hrun & E2b).
    destruct (summary_loop [("x64", c1 =? 0); ("arm64", c2 =? 0)] true w1)
      as [[rs w2] t3] eqn:Hs.
    assert (Hreg : forall name b,
               (name, b) ∈ [("x64", c1 =? 0); ("arm64", c2 =? 0)] ->
               exists t, assoc TARGETS name = Some t).
    { intros name b Hin.
      apply elem_of_cons in Hin as [[= -> _]|Hin]; [now exists x64|].
      apply elem_of_cons in Hin as [[= -> _]|Hin]; [now exists arm64|].
      now apply elem_of_nil in Hin. }
    destruct (summary_loop_spec _ _ _ _ _ _ Hreg Hs)
      as (Hev3 & Hexit3 & Htrue & _ & _).
    assert (Hshape : t2c = t3 /\ (ra = Ok tt -> rs = Ok true)).
    { destruct rs as [[|]|e|c]; [| | |now destruct (Hexit3 c)].
      - eapply bind_ok_inv in Hrun as (t4 & Hrun & E4); [|exact Hs].
        injection Hrun as <- <- <-. now rewrite app_nil_r in E4.
      - eapply bind_ok_inv in Hrun as (t4 & Hrun & E4); [|exact Hs].
        injection Hrun as <- <- <-. now rewrite app_nil_r in E4.
      - rewrite (bind_raise _ _ _ _ _ _ Hs) in Hrun.
        now injection Hrun as <- <- <-. }
    destruct Hshape as [-> Hra]. subst t2b t2a t2 ta.
    exists (t1 ++ [EPrint (nl +:+ rule); EPrint "Build Summary"; EPrint rule])%list,
           t3.
    split; [now rewrite <- app_assoc|].
    split; [apply Forall_app; split; [exact Hev1|repeat constructor]|].
    split; [exact Hev3|]. split.
    + intros name t' src dst err c Hreg' Hsrc Hcopy (t'' & env & Ht'' & Hin).
      assert (Hs' : summary_loop [("x64", c1 =? 0); ("arm64", c2 =? 0)] true w1
                    = (rs, w2, t3)) by exact Hs.
      assert (Hcopy' : ECopy src dst err
                       ∈ trace_of (summary_loop
                                     [("x64", c1 =? 0); ("arm64", c2 =? 0)]
                                     true w1)) by (now rewrite Hs').
      apply summary_loop_copies in Hcopy' as (n & Hn & Hpn).
      destruct (Hreg _ _ Hn) as [tn Htn].
      assert (n = name) as -> by (eapply build_output_path_inj; eauto).
      apply elem_of_app in Hin as [Hin|Hin]; [|not_elem Hin].
      rewrite Hreg' in Ht''. injection Ht'' as <-.
      destruct (Honly _ _ _ _ Hin) as [[Hcmd [= ->]]|[Hcmd [= ->]]].
      * assert (name = "x64") as ->.
        { destruct (registered_cases _ _ Hreg') as [[-> ->]|[-> ->]];
            first [reflexivity | discriminate Hcmd]. }
        apply elem_of_cons in Hn as [[= Hz]|Hn]; [now apply Z.eqb_eq|].
        apply elem_of_cons in Hn as [[=]|Hn]. now apply elem_of_nil in Hn.
      * assert (name = "arm64") as ->.
        { destruct (registered_cases _ _ Hreg') as [[-> ->]|[-> ->]];
            first [reflexivity | discriminate Hcmd]. }
        apply elem_of_cons in Hn as [[=]|Hn].
        apply elem_of_cons in Hn as [[= Hz]|Hn]; [now apply Z.eqb_eq|].
        now apply elem_of_nil in Hn.
    + intros Hok' n tn Hin. destruct (Htrue (Hra Hok')) as [_ Hitems].
      assert (Hcs : (c1 =? 0) = true /\ (c2 =? 0) = true).
      { split; [apply (Hitems "x64")|apply (Hitems "arm64")]; elem_here. }
      destruct Hcs as [->%Z.eqb_eq ->%Z.eqb_eq]. rewrite TARGETS_eq in Hin.
      apply elem_of_cons in Hin as [[= -> ->]|Hin].
      { split; [now apply built_app_l|]. apply (Hitems "x64" true). elem_here. }
      apply elem_of_cons in Hin as [[= -> ->]|Hin]; [|now apply elem_of_nil in Hin].
      split; [now apply built_app_l|]. apply (Hitems "arm64" true). elem_here.
Qed.

End Shape.


(** ** The children of a whole run *)

Section Children.

Context {W : Type} `{Host W}.

Lemma spawned_elem (tr : list event) (cmd : list string)
    (env : gmap string string) (cwd : Path) (out : spawn_outcome) :
  ESpawn cmd env cwd out ∈ tr -> (cmd, out) ∈ spawned tr.
Proof.
  intros Hin. apply list_elem_of_omap.
  exists (ESpawn cmd env cwd out). now split.
Qed.

Lemma spawned_none (tr : list event) :
  (forall cmd env cwd out, ESpawn cmd env cwd out ∉ tr) -> spawned tr = [].
Proof.
  induction tr as [|e tr IH]; [reflexivity|]. intros Hno.
  assert (Htl : spawned tr = []).
  { apply IH. intros cmd env cwd out Hin.
    apply (Hno cmd env cwd out). now apply list_elem_of_further. }
  destruct e; try exact Htl.
  exfalso. eapply Hno. apply list_elem_of_here.
Qed.

Lemma spawned_staging (tr : list event) :
  Forall staging_event tr -> spawned tr = [].
Proof.
  intros Hall. apply spawned_none. intros cmd env cwd out.
  now apply staging_no_spawn.
Qed.

Lemma spawned_probes (tr : list event) :
  Forall probe_or_print tr -> spawned tr = [].
Proof.
  intros Hall. apply spawned_none. intros cmd env cwd out Hin.
  rewrite Forall_forall in Hall. exact (Hall _ Hin).
Qed.

Lemma spawned_run_command (ban : list event) (cmd : list string)
    (env : gmap string string) (cwd : Path) (out : spawn_outcome) :
  Forall is_print ban ->
  spawned (ban ++ running_line cmd :: ESpawn cmd env cwd out
                   :: runner_diagnostic out)
  = [(cmd, out)].
Proof.
  intros Hban. rewrite spawned_app, (spawned_prints _ Hban).
  change (spawned (running_line cmd :: ESpawn cmd env cwd out
                     :: runner_diagnostic out))
    with ((cmd, out) :: spawned (runner_diagnostic out)).
  now rewrite (spawned_prints _ (runner_diagnostic_prints out)).
Qed.

Lemma choice_target_registered (c : TargetChoice) :
  assoc TARGETS (choice_name c) = Some (choice_target c).
Proof. now destruct c. Qed.

(** One check: a single [cargo check], unless the environment could not
    be derived. *)
Lemma check_target_children (name : string) (t : Target) (w w' : W)
    (r : result bool) (tr : list event) :
  assoc TARGETS name = Some t ->
  check_target name w = (r, w', tr) ->
  (exists out, r = runner_result out /\ spawned tr = [(check_cmd t, out)])
  \/ (r = Raise (KeyError "PATH") /\ os_environ !! "PATH" = None
      /\ spawned tr = []).
Proof.
  intros Hreg Hrun.
  destruct (get_env_registered os_environ _ _ Hreg)
    as [[env0 Henv]|(Henv & Hpath & _)].
  - destruct (os_spawn w (check_cmd t) env0 PROJECT_DIR) as [out w1] eqn:Hs.
    rewrite (check_target_run _ _ _ _ _ _ Hreg Henv Hs) in Hrun.
    injection Hrun as <- <- <-. left. exists out. split; [reflexivity|].
    apply (spawned_run_command (check_banner name t)). repeat constructor.
  - rewrite (check_target_raise _ _ _ _ Hreg Henv) in Hrun.
    injection Hrun as <- <- <-. right. now repeat split.
Qed.

(** One build: a single [cargo build], unless the environment could not
    be derived. *)
Lemma build_target_children (name : string) (t : Target) (jobs : option Z)
    (w w' : W) (r : result bool) (tr : list event) :
  assoc TARGETS name = Some t ->
  build_target name jobs w = (r, w', tr) ->
  (exists out, r = runner_result out /\ spawned tr = [(build_cmd t jobs, out)])
  \/ (r = Raise (KeyError "PATH") /\ os_environ !! "PATH" = None
      /\ spawned tr = []).
Proof.
  intros Hreg Hrun.
  destruct (get_env_registered os_environ _ _ Hreg)
    as [[env0 Henv]|(Henv & Hpath & _)].
  - destruct (os_spawn w (build_cmd t jobs) (build_env env0 jobs) PROJECT_DIR)
      as [out w1] eqn:Hs.
    rewrite (build_target_run _ _ _ _ _ _ _ Hreg Henv Hs) in Hrun.
    injection Hrun as <- <- <-. left. exists out. split; [reflexivity|].
    apply (spawned_run_command (build_banner name t jobs)), build_banner_prints.
  - rewrite (build_target_raise _ _ _ _ _ Hreg Henv) in Hrun.
    injection Hrun as <- <- <-. right. now repeat split.
Qed.

Lemma runner_result_ok (out : spawn_outcome) (b : bool) :
  runner_result out = Ok b -> exists c, out = Exited c /\ b = (c =? 0).
Proof. destruct out as [c|what]; [|discriminate]. intros [= <-]. now exists c. Qed.

(** The first loop of [build-all]: one [cargo build] for x64, then one
    for arm64. *)
Lemma build_all_children (jobs : option Z) (w w' : W)
    (res : list (string * bool)) (tr : list event) :
  build_all_loop (map fst TARGETS) jobs [] w = (Ok res, w', tr) ->
  exists c1 c2,
    res = [("x64", c1 =? 0); ("arm64", c2 =? 0)]
    /\ spawned tr = [(build_cmd x64 jobs, Exited c1);
                     (build_cmd arm64 jobs, Exited c2)].
Proof.
  rewrite TARGETS_eq. cbn [map fst build_all_loop]. intros Hrun.
  destruct (build_target "x64" jobs w) as [[r1 w1] t1] eqn:H1.
  destruct (build_target_children "x64" x64 jobs _ _ _ _ eq_refl H1)
    as [(out1 & -> & Hsp1)|(-> & _)];
    [|now rewrite (bind_raise _ _ _ _ _ _ H1) in Hrun].
  destruct out1 as [c1|what];
    [|now rewrite (bind_raise _ _ _ _ _ _ H1) in Hrun].
  eapply bind_ok_inv in Hrun as (t2 & Hrun & ->); [|exact H1].
  destruct (build_target "arm64" jobs w1) as [[r2 w2] t3] eqn:H2.
  destruct (build_target_children "arm64" arm64 jobs _ _ _ _ eq_refl H2)
    as [(out2 & -> & Hsp2)|(-> & _)];
    [|now rewrite (bind_raise _ _ _ _ _ _ H2) in Hrun].
  destruct out2 as [c2|what];
    [|now rewrite (bind_raise _ _ _ _ _ _ H2) in Hrun].
  eapply bind_ok_inv in Hrun as (t4 & Hrun & ->); [|exact H2].
  injection Hrun as <- <- <-. exists c1, c2. split; [reflexivity|].
  now rewrite !spawned_app, Hsp1, Hsp2.
Qed.

(** The children of the rest of a branch that no exception cuts short
    are the [cargo] commands of the action, each started once, in order;
    and the rest of the branch runs to its end only if each of them
    ended with status zero. *)
Lemma after_install_children (args : Args) (we wa : W) (ra : result unit)
    (ta : list event) :
  after_install args we = (ra, wa, ta) ->
  (forall e, ra <> Raise e) ->
  exists codes : list Z,
    spawned ta = zip (action_cmds args) (map Exited codes)
    /\ length codes = length (action_cmds args)
    /\ (ra = Ok tt -> Forall (fun c => c = 0) codes).
Proof.
  destruct args as [[] target jobs]; unfold after_install, action_cmds;
    cbn [args_action args_target args_jobs]; intros Hrun Hno;
    pose proof (choice_target_registered target) as Ht.
  - (* check *)
    destruct (check_target (choice_name target) we) as [[rc w1] t1] eqn:Hc.
    destruct (check_target_children _ _ _ _ _ _ Ht Hc)
      as [(out & -> & Hsp)|(-> & _)];
      [|rewrite (bind_raise _ _ _ _ _ _ Hc) in Hrun; injection Hrun as <- _ _;
        now destruct (Hno (KeyError "PATH"))].
    destruct out as [c|what];
      [|rewrite (bind_raise _ _ _ _ _ _ Hc) in Hrun; injection Hrun as <- _ _;
        now destruct (Hno (OSError what))].
    eapply bind_ok_inv in Hrun as (t2 & Hrun & ->); [|exact Hc].
    exists [c]. rewrite spawned_app, Hsp. revert Hrun.
    destruct (Z.eqb_spec c 0) as [->|Hc0]; cbn [negb].
    + rewrite ret_then. intros [= <- <- <-].
      split; [reflexivity|]. split; [reflexivity|]. now repeat constructor.
    + rewrite exit_then. intros [= <- <- <-].
      split; [reflexivity|]. split; [reflexivity|]. discriminate.
  - (* build *)
    pose proof (get_build_output_path_parts _ _ Ht) as Hpath.
    destruct (build_target (choice_name target) jobs we) as [[rb w1] t1] eqn:Hb.
    destruct (build_target_children _ _ _ _ _ _ _ Ht Hb)
      as [(out & -> & Hsp)|(-> & _)];
      [|rewrite (bind_raise _ _ _ _ _ _ Hb) in Hrun; injection Hrun as <- _ _;
        now destruct (Hno (KeyError "PATH"))].
    destruct out as [c|what];
      [|rewrite (bind_raise _ _ _ _ _ _ Hb) in Hrun; injection Hrun as <- _ _;
        now destruct (Hno (OSError what))].
    eapply bind_ok_inv in Hrun as (t2 & Hrun & ->); [|exact Hb].
    exists [c]. rewrite spawned_app, Hsp. revert Hrun.
    destruct (Z.eqb_spec c 0) as [->|Hc0]; cbn [negb].
    + rewrite ret_then. intros Hrun.
      assert (Hst : Forall staging_event t2).
      { change t2 with (trace_of (ra, wa, t2)). rewrite <- Hrun.
        apply bind_trace_all.
        - destruct (copy_to_output (choice_name target) w1)
            as [[ro w2] t3] eqn:Hcp.
          now destruct (copy_to_output_events _ _ _ _ _ _ Hpath Hcp).
        - intros [final|] w2 t3 _; [repeat constructor|].
          rewrite Hpath. repeat constructor. }
      rewrite (spawned_staging _ Hst).
      split; [reflexivity|]. split; [reflexivity|]. now repeat constructor.
    + rewrite exit_then. intros [= <- <- <-].
      split; [reflexivity|]. split; [reflexivity|]. discriminate.
  - (* build-all *)
    destruct (build_all_loop (map fst TARGETS) jobs [] we)
      as [[rb w1] t1] eqn:Hb.
    destruct (build_all_TARGETS _ _ _ _ _ Hb) as (_ & Hexit1 & _).
    destruct rb as [res|e|c]; [| |now destruct (Hexit1 c)];
      [|rewrite (bind_raise _ _ _ _ _ _ Hb) in Hrun; injection Hrun as <- _ _;
        now destruct (Hno e)].
    destruct (build_all_children _ _ _ _ _ Hb) as (c1 & c2 & -> & Hsp).
    eapply bind_ok_inv in Hrun as (t2 & Hrun & ->); [|exact Hb].
    apply print_inv in Hrun as (t2a & Hrun & ->).
    apply print_inv in Hrun as (t2b & Hrun & ->).
    apply print_inv in Hrun as (t2c & Hrun & ->).
    destruct (summary_loop [("x64", c1 =? 0); ("arm64", c2 =? 0)] true w1)
      as [[rs w2] t3] eqn:Hs.
    assert (Hreg : forall name b,
               (name, b) ∈ [("x64", c1 =? 0); ("arm64", c2 =? 0)] ->
               exists t, assoc TARGETS name = Some t).
    { intros name b Hin.
      apply elem_of_cons in Hin as [[= -> _]|Hin]; [now exists x64|].
      apply elem_of_cons in Hin as [[= -> _]|Hin]; [now exists arm64|].
      now apply elem_of_nil in Hin. }
    destruct (summary_loop_spec _ _ _ _ _ _ Hreg Hs)
      as (Hev3 & Hexit3 & Htrue & _ & _).
    assert (Hshape : t2c = t3 /\ (ra = Ok tt -> rs = Ok true)).
    { destruct rs as [[|]|e|c]; [| | |now destruct (Hexit3 c)].
      - eapply bind_ok_inv in Hrun as (t4 & Hrun & E4); [|exact Hs].
        injection Hrun as <- <- <-. now rewrite app_nil_r in E4.
      - eapply bind_ok_inv in Hrun as (t4 & Hrun & E4); [|exact Hs].
        injection Hrun as <- <- <-. now rewrite app_nil_r in E4.
      - rewrite (bind_raise _ _ _ _ _ _ Hs) in Hrun.
        now injection Hrun as <- <- <-. }
    destruct Hshape as [-> Hra]. exists [c1; c2].
    rewrite spawned_app, Hsp, TARGETS_eq.
    change (spawned (EPrint (nl +:+ rule) :: EPrint "Build Summary"
                       :: EPrint rule :: t3)) with (spawned t3).
    rewrite (spawned_staging _ Hev3).
    split; [reflexivity|]. split; [reflexivity|]. intros Hok.
    destruct (Htrue (Hra Hok)) as [_ Hitems].
    assert (Hcs : (c1 =? 0) = true /\ (c2 =? 0) = true).
    { split; [apply (Hitems "x64")|apply (Hitems "arm64")]; elem_here. }
    destruct Hcs as [->%Z.eqb_eq ->%Z.eqb_eq]. now repeat constructor.
Qed.

End Children.

(** ** Whole runs *)

Section WholeRun.

Context {W : Type} `{Host W}.

Lemma prints_setup (tr : list event) :
  Forall is_print tr -> Forall setup_event tr.
Proof. intros Hall. eapply Forall_impl; [exact Hall|]. now intros []. Qed.

Lemma probes_setup (tr : list event) :
  Forall probe_or_print tr -> Forall setup_event tr.
Proof. intros Hall. eapply Forall_impl; [exact Hall|]. now intros []. Qed.

Lemma install_setup (tr : list event) :
  Forall (install_event TARGETS) tr -> Forall setup_event tr.
Proof.
  intros Hall. eapply Forall_impl; [exact Hall|].
  intros [] He; first [exact I | now destruct He].
Qed.

Lemma setup_not_build (tr : list event) (t : Target) (jobs : option Z)
    (env : gmap string string) (cwd : Path) (out : spawn_outcome) :
  Forall setup_event tr -> ESpawn (build_cmd t jobs) env cwd out ∉ tr.
Proof.
  intros Hall Hin. rewrite Forall_forall in Hall.
  pose proof (Hall _ Hin) as He. cbn in He.
  destruct He as (name & t' & _ & He).
  unfold build_cmd, rustup_cmd in He. discriminate He.
Qed.

Lemma main_result_cases (args : Args) (w : W) :
  result_of (main args w) = Ok tt
  \/ result_of (main args w) = SysExit 1
  \/ exists e, result_of (main args w) = Raise e.
Proof.
  destruct (main_inv args w)
    as (tp & _ & [(_ & ->)|(_ & re & we & te & _
                            & [(_ & ->)|[(e & _ & ->)
                                        |(_ & ra & wa & ta & Ha & ->)]])]);
    cbn [result_of fst]; eauto.
  now destruct (after_install_spec _ _ _ _ _ Ha) as (_ & _ & Hc).
Qed.

Lemma exit_zero_ok (args : Args) (w : W) :
  exit_status (result_of (main args w)) = 0 -> result_of (main args w) = Ok tt.
Proof.
  destruct (main_result_cases args w) as [->|[->|[e ->]]];
    [reflexivity|discriminate..].
Qed.

Lemma success_ends_done (args : Args) (w : W) :
  result_of (main args w) = Ok tt ->
  exists tr', trace_of (main args w) = (tr' ++ [done_line])%list.
Proof.
  destruct (main_inv args w)
    as (tp & _ & [(_ & ->)|(_ & re & we & te & _
                            & [(_ & ->)|[(e & _ & ->)
                                        |(_ & ra & wa & ta & Ha & ->)]])]);
    cbn [result_of trace_of fst snd]; try discriminate.
  intros ->. exists (banner_trace args w ++ tp ++ te ++ ta)%list.
  cbn [done_trace]. now rewrite <- !app_assoc.
Qed.

(** In a run that reaches its end every child ended with status zero. *)
Lemma success_children (args : Args) (w : W) (cmd : list string)
    (env : gmap string string) (cwd : Path) (out : spawn_outcome) :
  result_of (main args w) = Ok tt ->
  ESpawn cmd env cwd out ∈ trace_of (main args w) ->
  out = Exited 0.
Proof.
  pose proof (banner_trace_prints args w) as Hb.
  destruct (check_prerequisites_run w) as (tp' & Hp' & _ & Hnospawn & _).
  destruct (main_inv args w)
    as (tp & Hp & [(_ & ->)|(_ & re & we & te & He
                             & [(_ & ->)|[(e & _ & ->)
                                         |(Hre & ra & wa & ta & Ha & ->)]])]);
    cbn [result_of trace_of fst snd]; try discriminate.
  assert (tp' = tp) as -> by congruence.
  intros -> Hin.
  apply elem_of_app in Hin as [Hin|Hin];
    [now destruct (print_not_spawn _ _ _ _ _ Hb Hin)|].
  apply elem_of_app in Hin as [Hin|Hin]; [now destruct (Hnospawn _ _ _ _ Hin)|].
  apply elem_of_app in Hin as [Hin|Hin].
  { destruct (ensure_targets_spec _ _ _ _ He)
      as [_ [(_ & _ & Hzero)|([Hr|[e Hr]] & _)]];
      [now apply (Hzero _ _ _ _ Hin)|congruence..]. }
  apply elem_of_app in Hin as [Hin|Hin]; [|not_elem Hin].
  destruct (after_install_children _ _ _ _ _ Ha) as (codes & Hsp & _ & Hok);
    [discriminate|].
  apply spawned_elem in Hin. rewrite Hsp in Hin.
  apply elem_of_zip_r, list_elem_of_fmap in Hin as (c & -> & Hc).
  specialize (Hok eq_refl). rewrite Forall_forall in Hok.
  now rewrite (Hok _ Hc).
Qed.

(** Every run falls into three parts: the setup, with the prerequisite
    check and the installations; the builds or the check; and the
    staging, during which no child is started.  An executable is copied
    in the third part only if every build of its target in the second
    part ended with status zero. *)
Lemma main_shape (args : Args) (w : W) :
  exists setup building staging : list event,
    trace_of (main args w) = (setup ++ building ++ staging)%list
    /\ Forall setup_event setup
    /\ Forall spawn_or_print building
    /\ Forall staging_event staging
    /\ (forall name t src dst err c,
          assoc TARGETS name = Some t ->
          get_build_output_path name = Ok src ->
          ECopy src dst err ∈ staging ->
          built (args_jobs args) building name c ->
          c = 0)
    /\ (result_of (main args w) = Ok tt -> success_of args building staging).
Proof.
  pose proof (banner_trace_prints args w) as Hb.
  pose proof (check_prerequisites_quiet w) as Hq.
  destruct (main_inv args w) as (tp & Hp & Hcases).
  rewrite Hp in Hq. cbn [trace_of snd] in Hq.
  assert (Hearly : forall r w' tr,
             main args w = (r, w', tr) -> Forall setup_event tr ->
             r <> Ok tt ->
             exists setup building staging : list event,
               trace_of (main args w) = (setup ++ building ++ staging)%list
               /\ Forall setup_event setup
               /\ Forall spawn_or_print building
               /\ Forall staging_event staging
               /\ (forall name t src dst err c,
                     assoc TARGETS name = Some t ->
                     get_build_output_path name = Ok src ->
                     ECopy src dst err ∈ staging ->
                     built (args_jobs args) building name c ->
                     c = 0)
               /\ (result_of (main args w) = Ok tt ->
                   success_of args building staging)).
  { intros r w' tr -> Hall Hr. exists tr, [], [].
    cbn [trace_of result_of fst snd]. rewrite app_nil_r.
    split; [reflexivity|]. split; [exact Hall|].
    split; [constructor|]. split; [constructor|]. split.
    - intros name t src dst err c _ _ Hin. now apply elem_of_nil in Hin.
    - intros Hok. now destruct Hr. }
  destruct Hcases as [(_ & Hmain)|(_ & re & we & te & He & Hcases)].
  { eapply Hearly; [exact Hmain| |discriminate].
    apply Forall_app. split; [now apply prints_setup|now apply probes_setup]. }
  destruct (ensure_targets_spec _ _ _ _ He) as [Hev _].
  assert (Hpre : Forall setup_event (banner_trace args w ++ tp ++ te)).
  { apply Forall_app. split; [now apply prints_setup|].
    apply Forall_app. split; [now apply probes_setup|now apply install_setup]. }
  destruct Hcases as [(_ & Hmain)|[(e & _ & Hmain)|(_ & ra & wa & ta & Ha & Hmain)]];
    [eapply Hearly; [exact Hmain|exact Hpre|discriminate]..|].
  destruct (after_install_shape _ _ _ _ _ Ha)
    as (building & staging & -> & Hbuild & Hstage & Hcopy & Hok).
  exists (banner_trace args w ++ tp ++ te)%list, building,
         (staging ++ done_trace ra)%list.
  rewrite Hmain. cbn [trace_of result_of fst snd].
  split; [now rewrite <- !app_assoc|]. split; [exact Hpre|].
  split; [exact Hbuild|].
  assert (Hdone : Forall is_print (done_trace ra))
    by (destruct ra; repeat constructor).
  split; [apply Forall_app; split; [exact Hstage|now apply prints_staging]|].
  split.
  - intros name t src dst err c Ht Hsrc Hin Hbuilt.
    apply elem_of_app in Hin as [Hin|Hin].
    + exact (Hcopy _ _ _ _ _ _ Ht Hsrc Hin Hbuilt).
    + rewrite Forall_forall in Hdone. now destruct (Hdone _ Hin).
  - intros Hra. specialize (Hok Hra). unfold success_of in *.
    destruct (args_action args).
    + exact Hok.
    + destruct Hok as [Hbt Hst]. split; [exact Hbt|now apply staged_app_l].
    + intros n t Hin. destruct (Hok n t Hin) as [Hbt Hst].
      split; [exact Hbt|now apply staged_app_l].
Qed.

(** The build of [name] that a whole run shows took place in its second
    part. *)
Lemma built_in_building (jobs : option Z) (setup building staging : list event)
    (name : string) (c : Z) :
  Forall setup_event setup ->
  Forall staging_event staging ->
  built jobs (setup ++ building ++ staging) name c ->
  built jobs building name c.
Proof.
  intros Hsetup Hstage (t & env & Ht & Hin). exists t, env.
  split; [exact Ht|].
  apply elem_of_app in Hin as [Hin|Hin];
    [now destruct (setup_not_build _ _ _ _ _ _ Hsetup Hin)|].
  apply elem_of_app in Hin as [Hin|Hin]; [exact Hin|].
  now destruct (staging_no_spawn _ _ _ _ _ Hstage Hin).
Qed.

End WholeRun.

(** ** The exceptions that leave a run *)

Section Exceptions.

Context {W : Type} `{Host W}.

Lemma bind_raises {A B} (P : exn -> Prop) (m : M W A) (k : A -> M W B)
    (w : W) (e : exn) :
  (result_of (m w) = Raise e -> P e) ->
  (forall a w1 t1, m w = (Ok a, w1, t1) -> result_of (k a w1) = Raise e -> P e) ->
  result_of (bind m k w) = Raise e -> P e.
Proof.
  intros Hm Hk. unfold bind.
  destruct (m w) as [[[a|e'|c] w1] t1] eqn:Hrun.
  - specialize (Hk a w1 t1 eq_refl). destruct (k a w1) as [[r w2] t2].
    exact Hk.
  - intros [= ->]. now apply Hm.
  - discriminate.
Qed.

Lemma print_raises {B} (P : exn -> Prop) (line : string) (k : M W B) (w : W)
    (e : exn) :
  (result_of (k w) = Raise e -> P e) ->
  result_of ((print line;; k) w) = Raise e -> P e.
Proof.
  intros Hk. apply bind_raises; [discriminate|].
  intros [] w1 t1 [= <- _]. exact Hk.
Qed.

Lemma run_command_raises (cmd : list string) (env : option (gmap string string))
    (cwd : option Path) (w : W) (e : exn) :
  result_of (run_command cmd env cwd w) = Raise e -> escaping e.
Proof.
  destruct (os_spawn w cmd (env_or_environ env) (cwd_or_project cwd))
    as [out w'] eqn:Hs.
  rewrite (run_command_run _ _ _ _ _ _ Hs). cbn [result_of fst].
  destruct out as [c|what]; [discriminate|]. intros [= <-]. right. eauto.
Qed.

Lemma ensure_targets_loop_raises (items : list (string * Target)) (w : W)
    (e : exn) :
  result_of (ensure_targets_loop items w) = Raise e -> escaping e.
Proof.
  revert w. induction items as [|[name t] rest IH]; intros w;
    cbn [ensure_targets_loop]; [discriminate|].
  apply bind_raises; [apply run_command_raises|].
  intros [] w1 t1 _; cbn [negb]; [apply IH|discriminate].
Qed.

Lemma ensure_targets_raises (w : W) (e : exn) :
  result_of (ensure_targets w) = Raise e -> escaping e.
Proof. apply print_raises, ensure_targets_loop_raises. Qed.

Lemma runner_result_raises (out : spawn_outcome) (e : exn) :
  runner_result out = Raise e -> escaping e.
Proof. destruct out as [c|what]; [discriminate|]. intros [= <-]. right. eauto. Qed.

Lemma check_target_raises (name : string) (t : Target) (w : W) (e : exn) :
  assoc TARGETS name = Some t ->
  result_of (check_target name w) = Raise e -> escaping e.
Proof.
  intros Ht. destruct (check_target name w) as [[r w'] tr] eqn:Hc.
  destruct (check_target_children _ _ _ _ _ _ Ht Hc)
    as [(out & -> & _)|(-> & Hpath & _)]; cbn [result_of fst].
  - apply runner_result_raises.
  - intros [= <-]. now left.
Qed.

Lemma build_target_raises (name : string) (t : Target) (jobs : option Z)
    (w : W) (e : exn) :
  assoc TARGETS name = Some t ->
  result_of (build_target name jobs w) = Raise e -> escaping e.
Proof.
  intros Ht. destruct (build_target name jobs w) as [[r w'] tr] eqn:Hb.
  destruct (build_target_children _ _ _ _ _ _ _ Ht Hb)
    as [(out & -> & _)|(-> & Hpath & _)]; cbn [result_of fst].
  - apply runner_result_raises.
  - intros [= <-]. now left.
Qed.

Lemma copy_to_output_raises (name : string) (t : Target) (w : W) (e : exn) :
  assoc TARGETS name = Some t ->
  result_of (copy_to_output name w) = Raise e -> escaping e.
Proof.
  intros Ht. pose proof (get_build_output_path_parts _ _ Ht) as Hpath.
  destruct (copy_to_output name w) as [[r w'] tr] eqn:Hc.
  cbn [result_of fst].
  destruct (copy_to_output_inv _ _ _ _ _ _ Hpath Hc)
    as [(_ & -> & _)
       |(_ & [(what & -> & _)|[(what & -> & _)|(-> & _)]])];
    first [discriminate | intros [= <-]; right; eauto].
Qed.

Lemma summary_loop_raises (items : list (string * bool)) (all_success : bool)
    (w : W) (e : exn) :
  (forall name b, (name, b) ∈ items -> exists t, assoc TARGETS name = Some t) ->
  result_of (summary_loop items all_success w) = Raise e -> escaping e.
Proof.
  revert all_success w. induction items as [|[name b] rest IH];
    intros all_success w Hreg; [discriminate|].
  assert (Hrest : forall a w1,
             result_of (summary_loop rest a w1) = Raise e -> escaping e).
  { intros a w1. apply IH. intros n b' Hin.
    apply (Hreg n b'). now apply list_elem_of_further. }
  destruct (Hreg name b) as [t Ht]; [apply list_elem_of_here|].
  cbn [summary_loop]. destruct b; [|apply print_raises, Hrest].
  apply bind_raises; [now apply copy_to_output_raises with t|].
  intros [final|] w1 t1 _; [|apply print_raises, Hrest].
  apply bind_raises.
  - unfold stat_size. destruct (os_stat_size w1 final); [discriminate|].
    intros [= <-]. right. eauto.
  - intros size w2 t2 _. apply print_raises, Hrest.
Qed.

Lemma build_all_raises (jobs : option Z) (w : W) (e : exn) :
  result_of (build_all_loop (map fst TARGETS) jobs [] w) = Raise e ->
  escaping e.
Proof.
  rewrite TARGETS_eq. cbn [map fst build_all_loop].
  apply bind_raises; [now apply build_target_raises with x64|].
  intros b1 w1 t1 _.
  apply bind_raises; [now apply build_target_raises with arm64|].
  intros b2 w2 t2 _. discriminate.
Qed.

Lemma after_install_raises (args : Args) (we : W) (e : exn) :
  result_of (after_install args we) = Raise e -> escaping e.
Proof.
  destruct args as [[] target jobs]; unfold after_install;
    cbn [args_action args_target args_jobs];
    pose proof (choice_target_registered target) as Ht.
  - apply bind_raises; [now apply check_target_raises with (choice_target target)|].
    intros [] w1 t1 _; cbn [negb]; discriminate.
  - apply bind_raises;
      [now apply build_target_raises with (choice_target target)|].
    intros [] w1 t1 _; cbn [negb]; [|discriminate].
    rewrite ret_then.
    apply bind_raises;
      [now apply copy_to_output_raises with (choice_target target)|].
    intros [final|] w2 t2 _; [discriminate|].
    rewrite (get_build_output_path_parts _ _ Ht). discriminate.
  - apply bind_raises; [apply build_all_raises|].
    intros res w1 t1 Hb.
    destruct (build_all_children _ _ _ _ _ Hb) as (c1 & c2 & -> & _).
    do 3 apply print_raises.
    apply bind_raises.
    + apply summary_loop_raises. intros name b Hin.
      apply elem_of_cons in Hin as [[= -> _]|Hin]; [now exists x64|].
      apply elem_of_cons in Hin as [[= -> _]|Hin]; [now exists arm64|].
      now apply elem_of_nil in Hin.
    + intros [] w2 t2 _; discriminate.
Qed.

Lemma main_raises (args : Args) (w : W) (e : exn) :
  result_of (main args w) = Raise e -> escaping e.
Proof.
  destruct (main_inv args w)
    as (tp & _ & [(_ & ->)|(_ & re & we & te & He
                            & [(_ & ->)|[(e' & -> & ->)
                                        |(_ & ra & wa & ta & Ha & ->)]])]);
    cbn [result_of fst]; try discriminate.
  - intros [= ->]. apply (ensure_targets_raises w). now rewrite He.
  - intros ->. apply (after_install_raises args we). now rewrite Ha.
Qed.

End Exceptions.

(** ** What a whole run guarantees *)

Section Guarantees.

Context {W : Type} `{Host W}.

(** X10. In every run, whatever the action: when [cargo build] for a
    target ended with a status other than zero, the exit status of the
    run is [1] and the executable expected for that target is never
    copied, not even one left by an earlier build. *)
Theorem failed_build_never_staged (args : Args) (w : W) (name : string)
    (c : Z) :
  built (args_jobs args) (trace_of (main args w)) name c ->
  c <> 0 ->
  exit_status (result_of (main args w)) = 1
  /\ forall src dst err,
       get_build_output_path name = Ok src ->
       ECopy src dst err ∉ trace_of (main args w).
Proof.
  intros Hbuilt Hc. split.
  - destruct (main_result_cases args w) as [Hok|[->|[e ->]]];
      [|reflexivity..].
    exfalso. destruct Hbuilt as (t & env & _ & Hin).
    apply (success_children _ _ _ _ _ _ Hok) in Hin.
    injection Hin as ->. now apply Hc.
  - intros src dst err Hsrc Hin.
    destruct (main_shape args w)
      as (setup & building & staging & Htr & Hs & Hb & Hst & Hcopy & _).
    rewrite Htr in Hbuilt, Hin.
    pose proof (built_in_building _ _ _ _ _ _ Hs Hst Hbuilt) as Hbb.
    destruct Hbb as (t & env & Ht & Hsp).
    apply elem_of_app in Hin as [Hin|Hin].
    { rewrite Forall_forall in Hs. exact (Hs _ Hin). }
    apply elem_of_app in Hin as [Hin|Hin];
      [now destruct (spawn_or_print_no_copy _ _ _ _ Hb Hin)|].
    apply Hc, (Hcopy name t src dst err c Ht Hsrc Hin). now exists t, env.
Qed.

(** X11. Once a run has begun staging (it has created the output
    directory or copied a file), it starts no further process: in a
    [build-all] run every build has ended before the first executable is
    copied. *)
Theorem no_child_after_staging (args : Args) (w : W) (l1 l2 : list event)
    (e : event) :
  trace_of (main args w) = (l1 ++ e :: l2)%list ->
  (exists p err, e = EMkdir p err) \/ (exists src dst err, e = ECopy src dst err) ->
  forall cmd env cwd out, ESpawn cmd env cwd out ∉ l2.
Proof.
  intros Htr He cmd env cwd out Hin.
  destruct (main_shape args w)
    as (setup & building & staging & Hsh & Hs & Hb & Hst & _).
  rewrite Hsh, app_assoc in Htr.
  assert (Hpre : e ∉ (setup ++ building)%list).
  { intros Hp. rewrite Forall_forall in Hs, Hb.
    apply elem_of_app in Hp as [Hp|Hp];
      [specialize (Hs _ Hp)|specialize (Hb _ Hp)];
      destruct He as [(p & err & ->)|(src & dst & err & ->)];
      first [exact Hs | exact Hb]. }
  destruct (split_after_prefix _ _ _ _ _ Hpre Htr) as [l ->].
  rewrite <- (app_assoc (setup ++ building) l) in Htr.
  apply app_inv_head in Htr. subst staging.
  apply (staging_no_spawn _ cmd env cwd out Hst).
  apply elem_of_app. right. now apply list_elem_of_further.
Qed.

(** X12. Exit status zero means one of two things.  Either [argparse]
    showed the help and called [sys.exit(0)], and then the script did
    nothing at all: it printed nothing, asked nothing of the machine and
    left it as it was.  Or the arguments were parsed and the requested
    action succeeded: a [check] run started [cargo check] for the
    selected target and it ended with status zero; a [build] run built
    the selected target with status zero and copied its executable to
    the staged path; a [build-all] run did so for every registered
    target; every child of the run, the installations included, ended
    with status zero; and the last line printed is [Done!]. *)
Theorem exit_zero_means_success (cmdline : parse_outcome) (w : W) :
  let run := main_parsing cmdline w in
  exit_status (result_of run) = 0 ->
  (cmdline = HelpShown /\ run = (SysExit 0, w, []))
  \/ exists args,
       cmdline = Parsed args
       /\ success_of args (trace_of run) (trace_of run)
       /\ (forall cmd env cwd out,
             ESpawn cmd env cwd out ∈ trace_of run -> out = Exited 0)
       /\ exists tr', trace_of run = (tr' ++ [EPrint (nl +:+ "Done!")])%list.
Proof.
  destruct cmdline as [args| |]; cbn [main_parsing];
    [|intros _; now left|discriminate].
  intros Hok%exit_zero_ok. right. exists args.
  split; [reflexivity|]. split; [|split].
  - destruct (main_shape args w)
      as (setup & building & staging & -> & _ & _ & _ & _ & Hsucc).
    specialize (Hsucc Hok). unfold success_of in *.
    destruct (args_action args).
    + destruct Hsucc as (t & env & Ht & Hin). exists t, env.
      split; [exact Ht|]. rewrite !elem_of_app. tauto.
    + destruct Hsucc as [Hbt Hst].
      split; [now apply built_app_r, built_app_l
             |now apply staged_app_r, staged_app_r].
    + intros n t Hin. destruct (Hsucc n t Hin) as [Hbt Hst].
      split; [now apply built_app_r, built_app_l
             |now apply staged_app_r, staged_app_r].
  - intros cmd env cwd out. now apply success_children.
  - now apply success_ends_done.
Qed.

(** X13. The ways [main()] can end.  [argparse] ends it before
    anything else is done, with [sys.exit(0)] after showing the help or
    with [sys.exit(2)] after a usage error.  Once the arguments are
    parsed, the run reaches its end, and then [Done!] is the last line
    it printed; or the script calls [sys.exit(1)], its only exit status
    of its own; or an exception leaves it, which is either the
    [KeyError] for [PATH], in a host environment without [PATH], or an
    error of the operating system (a child that could not be started, a
    directory that could not be created, a copy or a [stat] that
    failed).  No lookup in [TARGETS] fails. *)
Theorem run_outcomes (cmdline : parse_outcome) (w : W) :
  let run := main_parsing cmdline w in
  (cmdline = HelpShown /\ run = (SysExit 0, w, []))
  \/ (cmdline = UsageError /\ run = (SysExit 2, w, []))
  \/ exists args,
       cmdline = Parsed args
       /\ ((result_of run = Ok tt
            /\ exists tr',
                 trace_of run = (tr' ++ [EPrint (nl +:+ "Done!")])%list)
           \/ result_of run = SysExit 1
           \/ (result_of run = Raise (KeyError "PATH")
               /\ os_environ !! "PATH" = None)
           \/ exists what, result_of run = Raise (OSError what)).
Proof.
  destruct cmdline as [args| |]; cbn [main_parsing];
    [|left; now split|right; left; now split].
  right. right. exists args. split; [reflexivity|].
  destruct (main_result_cases args w) as [Hok|[Hexit|[e He]]].
  - left. split; [exact Hok|now apply success_ends_done].
  - right. now left.
  - right. right.
    destruct (main_raises _ _ _ He) as [[-> Hpath]|[what ->]];
      [left; now split|right; now exists what].
Qed.

(** X14. The number of jobs that the banner announces is the one that
    [cargo build] is given, except for [--jobs 0]: the banner then
    shows the number of CPUs while [cargo build] is started with
    [-j 0]. *)
Theorem banner_job_count (args : Args) (w : W) (cmd : list string)
    (env : gmap string string) (cwd : Path) (out : spawn_outcome) :
  ESpawn ("cargo" :: "build" :: cmd) env cwd out ∈ trace_of (main args w) ->
  exists t n,
    cmd = ["--release"; "--target"; triple t; "-j"; n]
    /\ (args_jobs args <> Some 0 ->
        EPrint ("  Parallel jobs: " +:+ n) ∈ trace_of (main args w))
    /\ (args_jobs args = Some 0 ->
        n = "0"
        /\ EPrint ("  Parallel jobs: " +:+ Str.of_Z CPU_COUNT)
           ∈ trace_of (main args w)).
Proof.
  intros Hin.
  destruct (main_spawns _ _ _ _ _ _ Hin)
    as (_ & [(_ & name & t & _ & Hcmd)
            |(name & t & env0 & _ & _ & [[Hcmd _]|[Hcmd _]])]);
    try discriminate Hcmd.
  injection Hcmd as ->. exists t, (Str.of_Z (num_jobs (args_jobs args))).
  split; [reflexivity|].
  assert (Hbanner : EPrint ("  Parallel jobs: " +:+
                            Str.of_Z match args_jobs args with
                                     | Some j => if j =? 0 then CPU_COUNT else j
                                     | None => CPU_COUNT
                                     end) ∈ trace_of (main args w)).
  { rewrite main_run. cbn [trace_of snd]. apply elem_of_app. left.
    unfold banner_trace. apply elem_of_app. right.
    apply elem_of_app. right. apply list_elem_of_here. }
  split.
  - intros Hj. destruct (args_jobs args) as [j|]; [|exact Hbanner].
    destruct (Z.eqb_spec j 0) as [->|Hne]; [now destruct Hj|exact Hbanner].
  - intros Hj. rewrite Hj in *. split; [reflexivity|exact Hbanner].
Qed.

(** X15. In a run that gets past the prerequisite check and the
    installations and that no exception cuts short, the children are, in
    this order and each started once: [rustup target add] for x64 and
    for arm64, both ended with status zero, and then the [cargo]
    commands of the action: one [cargo check], or one [cargo build], or
    [cargo build] for x64 followed by [cargo build] for arm64.  Each
    [cargo] child ran to an exit status, and the run exits with status
    zero only if all these statuses are zero. *)
Theorem children_of_a_full_run (args : Args) (w : W) :
  prereq_ok w = true ->
  result_of (ensure_targets w) = Ok true ->
  (forall e, result_of (main args w) <> Raise e) ->
  exists codes : list Z,
    spawned (trace_of (main args w))
    = ((["rustup"; "target"; "add"; "x86_64-pc-windows-gnu"], Exited 0)
       :: (["rustup"; "target"; "add"; "aarch64-pc-windows-gnullvm"], Exited 0)
       :: zip (action_cmds args) (map Exited codes))
    /\ length codes = length (action_cmds args)
    /\ (exit_status (result_of (main args w)) = 0 ->
        Forall (fun c => c = 0) codes).
Proof.
  intros Hpre Hens Hno.
  pose proof (banner_trace_prints args w) as Hb.
  pose proof (check_prerequisites_quiet w) as Hq.
  destruct (main_inv args w) as (tp & Hp & Hcases).
  rewrite Hp in Hq. cbn [trace_of snd] in Hq.
  destruct Hcases as [(Hf & _)|(_ & re & we & te & He & Hcases)];
    [congruence|].
  rewrite He in Hens. cbn [result_of fst] in Hens. subst re.
  destruct Hcases as [([=] & _)|[(e & [=] & _)|(_ & ra & wa & ta & Ha & Hmain)]].
  rewrite Hmain in Hno |- *. cbn [result_of trace_of fst snd] in Hno |- *.
  destruct (after_install_children _ _ _ _ _ Ha Hno) as (codes & Hsp & Hlen & Hok).
  exists codes. split; [|split; [exact Hlen|]].
  - rewrite !spawned_app, (spawned_prints _ Hb), (spawned_probes _ Hq), Hsp.
    assert (Hte : spawned te
                  = [(rustup_cmd x64, Exited 0); (rustup_cmd arm64, Exited 0)]).
    { destruct (ensure_targets_loop_order TARGETS w)
        as (outs & Hso & _ & _ & Hres).
      unfold ensure_targets in He. apply print_inv in He as (t2 & Hloop & ->).
      rewrite Hloop in Hso, Hres. cbn [trace_of result_of fst snd] in Hso, Hres.
      destruct (proj1 Hres eq_refl) as [Hl Hall].
      change (spawned (EPrint (nl +:+ "Ensuring Rust targets are installed...")
                         :: t2)) with (spawned t2).
      rewrite Hso, TARGETS_eq. rewrite TARGETS_eq in Hl.
      destruct outs as [|o1 [|o2 [|o3 outs]]]; try discriminate Hl.
      apply Forall_cons in Hall as [-> Hall].
      now apply Forall_cons in Hall as [-> _]. }
    rewrite Hte.
    assert (Hd : spawned (done_trace ra) = [])
      by (destruct ra; reflexivity).
    rewrite Hd, app_nil_r. reflexivity.
  - intros Hz. apply Hok. destruct ra as [[]|e|c]; [reflexivity|discriminate|].
    destruct (after_install_spec _ _ _ _ _ Ha) as (_ & _ & [Hr|[Hr|[e Hr]]]);
      [discriminate|injection Hr as ->; discriminate|discriminate].
Qed.

End Guarantees.

(** Membership of an event in the trace of a computed run, by its
    position. *)
Ltac elem_from fuel n :=
  lazymatch fuel with
  | O => fail "no such event"
  | S ?f =>
      first [ refine (list_elem_of_lookup_2 _ n _ _); vm_compute; reflexivity
            | elem_from f (S n) ]
  end.

Ltac elem_computed := elem_from 64%nat 0%nat.

Lemma failed_build_never_staged_witness :
  exit_status
    (result_of (main (H := Toy.host arm64_fails_machine)
                  (mkArgs BuildAll X64 None) [Toy.clang])) = 1
  /\ forall src dst err,
       get_build_output_path (H := Toy.host arm64_fails_machine) "arm64" = Ok src ->
       ECopy src dst err
       ∉ trace_of (main (H := Toy.host arm64_fails_machine)
                     (mkArgs BuildAll X64 None) [Toy.clang]).
Proof.
  refine (failed_build_never_staged (H := Toy.host arm64_fails_machine)
            (mkArgs BuildAll X64 None) [Toy.clang] "arm64" 101 _ _).
  - exists arm64. eexists. split; [reflexivity|].
    elem_computed.
  - discriminate.
Defined.

Lemma no_child_after_staging_witness :
  ESpawn ["cargo"; "build"] ∅ (PathOps.parse "/src/htop-win") (Exited 0)
  ∉ drop 25 (trace_of (main (H := Toy.host good_machine)
                         (mkArgs Build X64 None) [Toy.clang])).
Proof.
  refine (no_child_after_staging (H := Toy.host good_machine)
            (mkArgs Build X64 None) [Toy.clang]
            (take 24 (trace_of (main (H := Toy.host good_machine)
                                  (mkArgs Build X64 None) [Toy.clang])))
            (drop 25 (trace_of (main (H := Toy.host good_machine)
                                  (mkArgs Build X64 None) [Toy.clang])))
            (EMkdir OUTPUT_DIR None) _ _ _ _ _ _).
  - vm_compute. reflexivity.
  - left. now exists OUTPUT_DIR, None.
Defined.

Lemma exit_zero_means_success_witness :
  (Parsed (mkArgs Build X64 None) = HelpShown
   /\ main_parsing (H := Toy.host good_machine)
        (Parsed (mkArgs Build X64 None)) [Toy.clang]
      = (SysExit 0, [Toy.clang], []))
  \/ exists args,
       Parsed (mkArgs Build X64 None) = Parsed args
       /\ success_of (H := Toy.host good_machine) args
            (trace_of (main_parsing (H := Toy.host good_machine)
                         (Parsed (mkArgs Build X64 None)) [Toy.clang]))
            (trace_of (main_parsing (H := Toy.host good_machine)
                         (Parsed (mkArgs Build X64 None)) [Toy.clang]))
       /\ (forall cmd env cwd out,
             ESpawn cmd env cwd out
             ∈ trace_of (main_parsing (H := Toy.host good_machine)
                           (Parsed (mkArgs Build X64 None)) [Toy.clang]) ->
             out = Exited 0)
       /\ exists tr',
            trace_of (main_parsing (H := Toy.host good_machine)
                        (Parsed (mkArgs Build X64 None)) [Toy.clang])
            = (tr' ++ [EPrint (nl +:+ "Done!")])%list.
Proof.
  refine (exit_zero_means_success (H := Toy.host good_machine)
            (Parsed (mkArgs Build X64 None)) [Toy.clang] _).
  vm_compute. reflexivity.
Defined.

Lemma banner_job_count_witness :
  exists t n,
    ["--release"; "--target"; "x86_64-pc-windows-gnu"; "-j"; "0"]
    = ["--release"; "--target"; triple t; "-j"; n]
    /\ (Some 0 <> Some 0 ->
        EPrint ("  Parallel jobs: " +:+ n)
        ∈ trace_of (main (H := Toy.host good_machine)
                      (mkArgs Build X64 (Some 0)) [Toy.clang]))
    /\ (Some 0 = Some 0 ->
        n = "0"
        /\ EPrint ("  Parallel jobs: " +:+ Str.of_Z 8)
           ∈ trace_of (main (H := Toy.host good_machine)
                         (mkArgs Build X64 (Some 0)) [Toy.clang])).
Proof.
  refine (banner_job_count (H := Toy.host good_machine)
            (mkArgs Build X64 (Some 0)) [Toy.clang]
            ["--release"; "--target"; "x86_64-pc-windows-gnu"; "-j"; "0"]
            _ (PathOps.parse "/src/htop-win") (Exited 0) _).
  elem_computed.
Defined.

Lemma children_of_a_full_run_witness :
  exists codes : list Z,
    spawned (trace_of (main (H := Toy.host arm64_fails_machine)
                         (mkArgs BuildAll X64 None) [Toy.clang]))
    = ((["rustup"; "target"; "add"; "x86_64-pc-windows-gnu"], Exited 0)
       :: (["rustup"; "target"; "add"; "aarch64-pc-windows-gnullvm"], Exited 0)
       :: zip (action_cmds (H := Toy.host arm64_fails_machine)
                 (mkArgs BuildAll X64 None))
              (map Exited codes))
    /\ length codes
       = length (action_cmds (H := Toy.host arm64_fails_machine)
                   (mkArgs BuildAll X64 None))
    /\ (exit_status
          (result_of (main (H := Toy.host arm64_fails_machine)
                        (mkArgs BuildAll X64 None) [Toy.clang])) = 0 ->
        Forall (fun c => c = 0) codes).
Proof.
  refine (children_of_a_full_run (H := Toy.host arm64_fails_machine)
            (mkArgs BuildAll X64 None) [Toy.clang] _ _ _).
  - reflexivity.
  - vm_compute. reflexivity.
  - intros e. vm_compute. discriminate.
Defined.

Lemma run_command_single_child_witness :
  exists returncode,
    spawned (trace_of (run_command (H := Toy.host no_arm64_machine)
                         ["rustup"; "target"; "add"; "aarch64-pc-windows-gnullvm"]
                         None None []))
    = [(["rustup"; "target"; "add"; "aarch64-pc-windows-gnullvm"],
        Exited returncode)]
    /\ false = (returncode =? 0)
    /\ (false = false ->
        EPrint ("Error: Command failed with exit code " +:+ Str.of_Z returncode)
        ∈ trace_of (run_command (H := Toy.host no_arm64_machine)
                      ["rustup"; "target"; "add"; "aarch64-pc-windows-gnullvm"]
                      None None [])).
Proof.
  refine (proj2 (proj2 (run_command_single_child (H := Toy.host no_arm64_machine)
                          ["rustup"; "target"; "add"; "aarch64-pc-windows-gnullvm"]
                          None None []))
            false _).
  vm_compute. reflexivity.
Defined.

Lemma ensure_targets_in_order_witness :
  exists outs : list spawn_outcome,
    spawned (trace_of (ensure_targets (H := Toy.host no_arm64_machine) []))
    = zip [["rustup"; "target"; "add"; "x86_64-pc-windows-gnu"];
           ["rustup"; "target"; "add"; "aarch64-pc-windows-gnullvm"]] outs
    /\ outs <> [Exited 0; Exited 0].
Proof.
  destruct (ensure_targets_in_order (H := Toy.host no_arm64_machine) [])
    as (outs & Hsp & _ & _ & Hres).
  exists outs. split; [exact Hsp|]. intros Hok.
  apply (proj2 Hres) in Hok. vm_compute in Hok. discriminate Hok.
Defined.

Lemma check_run_stages_nothing_witness :
  exists t,
    assoc TARGETS (choice_name X64) = Some t
    /\ ["check"; "--target"; "x86_64-pc-windows-gnu"]
       = ["check"; "--target"; triple t]
    /\ get_env_for_target (@os_environ _ (Toy.host good_machine))
         (choice_name X64)
       = Ok (<["CARGO_TARGET_X86_64_PC_WINDOWS_GNU_LINKER" := "x86_64-w64-mingw32-gcc"]>
             (<["AR_x86_64_pc_windows_gnu" := "x86_64-w64-mingw32-ar"]>
              (<["CC_x86_64_pc_windows_gnu" := "x86_64-w64-mingw32-gcc"]>
               Toy.usual_environ))).
Proof.
  refine (proj2 (proj2 (proj2 (proj2
            (check_run_stages_nothing (H := Toy.host good_machine)
               X64 None [Toy.clang]))))
            ["check"; "--target"; "x86_64-pc-windows-gnu"]
            _ (PathOps.parse "/src/htop-win") (Exited 0) _).
  elem_computed.
Defined.

Lemma build_run_selected_only_witness :
  get_build_output_path (H := Toy.host good_machine) (choice_name X64)
  = Ok (Toy.artifact "x86_64-pc-windows-gnu")
  /\ get_final_output_path "x64" = get_final_output_path (choice_name X64).
Proof.
  refine (proj1 (proj2 (proj2
            (build_run_selected_only (H := Toy.host good_machine)
               X64 None [Toy.clang])))
            (Toy.artifact "x86_64-pc-windows-gnu")
            (get_final_output_path "x64") None _).
  elem_computed.
Defined.

Lemma run_writes_only_staged_files_witness :
  exists name t,
    assoc TARGETS name = Some t
    /\ Toy.artifact "aarch64-pc-windows-gnullvm"
       = (TARGET_DIR (H := Toy.host good_machine)
          ++ [triple t; "release"; "htop-win.exe"])%list
    /\ get_final_output_path "arm64"
       = (OUTPUT_DIR ++ ["htop-win-" +:+ name +:+ ".exe"])%list.
Proof.
  refine (proj2 (proj2
            (run_writes_only_staged_files (H := Toy.host good_machine)
               (mkArgs BuildAll X64 None) [Toy.clang]))
            (Toy.artifact "aarch64-pc-windows-gnullvm")
            (get_final_output_path "arm64") None _).
  elem_computed.
Defined.

(** ** The environment of the [cargo] children *)

Section ChildEnvironment.

Context {W : Type} `{Host W}.

(** The bindings of a derived environment, with or without the job
    count that [build_target] adds. *)
Lemma derived_env_bindings (environ env0 env : gmap string string)
    (name : string) (t : Target) :
  assoc TARGETS name = Some t ->
  get_env_for_target environ name = Ok env0 ->
  env = env0 \/ (exists n, env = <["CARGO_BUILD_JOBS" := n]> env0) ->
  env !! cc_key t = Some (cc t)
  /\ env !! ar_key t = Some (ar t)
  /\ env !! linker_key t = Some (linker t)
  /\ (if use_llvm_mingw t
      then exists path,
             environ !! "PATH" = Some path
             /\ env !! "PATH" = Some (PathOps.to_str LLVM_MINGW +:+ ":" +:+ path)
      else env !! "PATH" = environ !! "PATH")
  /\ env !! rustflags_key t
     = (if Str.contains "gnullvm" (triple t) then Some crt_static
        else environ !! rustflags_key t).
Proof.
  intros [[-> ->]|[-> ->]]%registered_cases.
  - rewrite get_env_x64. intros [= <-] Henv.
    change (Str.contains "gnullvm" (triple x64)) with false.
    cbn [use_llvm_mingw x64]. eval_keys. cbn [cc ar linker x64].
    destruct Henv as [->|[n ->]];
      rewrite !lookup_insert; repeat split;
      repeat (case_decide; try congruence).
  - destruct (environ !! "PATH") as [path|] eqn:Hp;
      [|now rewrite (get_env_arm64_no_path _ Hp)].
    rewrite (get_env_arm64 _ _ Hp). intros [= <-] Henv.
    change (Str.contains "gnullvm" (triple arm64)) with true.
    cbn [use_llvm_mingw arm64]. eval_keys. cbn [cc ar linker arm64].
    destruct Henv as [->|[n ->]];
      (split; [|split; [|split; [|split]]];
       [| | |exists path; split; [reflexivity|]|]);
      rewrite !lookup_insert; repeat (case_decide; try congruence);
      reflexivity.
Qed.

(** X16. Every [cargo] child of a run, a check or a build, is about one
    registered target and gets the toolchain of that very target: its
    environment binds the compiler, archiver and linker variables of the
    triple passed after [--target] to the binaries of the descriptor;
    for a target that uses llvm-mingw, [PATH] is the llvm-mingw
    directory, a colon and the host's [PATH], and otherwise [PATH] is as
    in the host environment; and the flags variable of a gnullvm triple
    asks for the static C runtime, the one of another triple being left
    as the host environment has it. *)
Theorem cargo_children_environment (args : Args) (w : W) (cmd : list string)
    (env : gmap string string) (cwd : Path) (out : spawn_outcome) :
  ESpawn ("cargo" :: cmd) env cwd out ∈ trace_of (main args w) ->
  exists name t,
    assoc TARGETS name = Some t
    /\ (cmd = ["check"; "--target"; triple t]
        \/ exists n, cmd = ["build"; "--release"; "--target"; triple t; "-j"; n])
    /\ env !! ("CC_" +:+ Str.replace "-" "_" (triple t)) = Some (cc t)
    /\ env !! ("AR_" +:+ Str.replace "-" "_" (triple t)) = Some (ar t)
    /\ env !! ("CARGO_TARGET_" +:+ Str.upper (Str.replace "-" "_" (triple t))
               +:+ "_LINKER") = Some (linker t)
    /\ (if use_llvm_mingw t
        then exists path,
               os_environ !! "PATH" = Some path
               /\ env !! "PATH"
                  = Some (PathOps.to_str LLVM_MINGW +:+ ":" +:+ path)
        else env !! "PATH" = os_environ !! "PATH")
    /\ env !! ("CARGO_TARGET_" +:+ Str.upper (Str.replace "-" "_" (triple t))
               +:+ "_RUSTFLAGS")
       = (if Str.contains "gnullvm" (triple t)
          then Some "-C target-feature=+crt-static"
          else os_environ !! ("CARGO_TARGET_"
                              +:+ Str.upper (Str.replace "-" "_" (triple t))
                              +:+ "_RUSTFLAGS")).
Proof.
  intros Hin.
  destruct (main_spawns _ _ _ _ _ _ Hin)
    as (_ & [(_ & name & t & _ & Hcmd)
            |(name & t & env0 & Ht & Henv & Hcases)]);
    [discriminate Hcmd|].
  exists name, t. split; [exact Ht|].
  assert (Hshape : (cmd = ["check"; "--target"; triple t]
                    \/ exists n, cmd = ["build"; "--release"; "--target";
                                        triple t; "-j"; n])
                   /\ (env = env0
                       \/ exists n, env = <["CARGO_BUILD_JOBS" := n]> env0)).
  { destruct Hcases as [[Hcmd ->]|[Hcmd ->]]; injection Hcmd as ->.
    - split; [right|right]; eexists; reflexivity.
    - split; [now left|now left]. }
  destruct Hshape as [Hcmd Hshape]. split; [exact Hcmd|].
  exact (derived_env_bindings _ _ _ _ _ Ht Henv Hshape).
Qed.

End ChildEnvironment.

Lemma cargo_children_environment_witness :
  exists name t,
    assoc TARGETS name = Some t
    /\ (["build"; "--release"; "--target"; "aarch64-pc-windows-gnullvm";
         "-j"; "8"]
        = ["check"; "--target"; triple t]
        \/ exists n,
             ["build"; "--release"; "--target"; "aarch64-pc-windows-gnullvm";
              "-j"; "8"]
             = ["build"; "--release"; "--target"; triple t; "-j"; n])
    /\ build_env (H := Toy.host good_machine)
         (<["CARGO_TARGET_AARCH64_PC_WINDOWS_GNULLVM_RUSTFLAGS" := "-C target-feature=+crt-static"]>
          (<["CARGO_TARGET_AARCH64_PC_WINDOWS_GNULLVM_LINKER" := "aarch64-w64-mingw32-clang"]>
           (<["AR_aarch64_pc_windows_gnullvm" := "llvm-ar"]>
            (<["CC_aarch64_pc_windows_gnullvm" := "aarch64-w64-mingw32-clang"]>
             (<["PATH" := "/root/toolchains/llvm-mingw/bin:/usr/bin"]>
              Toy.usual_environ))))) None
       !! ("CC_" +:+ Str.replace "-" "_" (triple t)) = Some (cc t).
Proof.
  destruct (cargo_children_environment (H := Toy.host good_machine)
              (mkArgs BuildAll X64 None) [Toy.clang]
              ["build"; "--release"; "--target"; "aarch64-pc-windows-gnullvm";
               "-j"; "8"]
              (build_env (H := Toy.host good_machine)
                 (<["CARGO_TARGET_AARCH64_PC_WINDOWS_GNULLVM_RUSTFLAGS" := "-C target-feature=+crt-static"]>
                  (<["CARGO_TARGET_AARCH64_PC_WINDOWS_GNULLVM_LINKER" := "aarch64-w64-mingw32-clang"]>
                   (<["AR_aarch64_pc_windows_gnullvm" := "llvm-ar"]>
                    (<["CC_aarch64_pc_windows_gnullvm" := "aarch64-w64-mingw32-clang"]>
                     (<["PATH" := "/root/toolchains/llvm-mingw/bin:/usr/bin"]>
                      Toy.usual_environ))))) None)
              (PathOps.parse "/src/htop-win") (Exited 0))
    as (name & t & Ht & Hcmd & Hcc & _).
  - elem_computed.
  - exists name, t. split; [exact Ht|]. split; [exact Hcmd|exact Hcc].
Defined.

(** ** Building every target, by what the machine answers *)

Section BuildAllRuns.

Context {W : Type} `{Host W}.

Lemma copies_app (t1 t2 : list event) :
  copies (t1 ++ t2) = (copies t1 ++ copies t2)%list.
Proof. apply omap_app. Qed.

Lemma copies_none (tr : list event) :
  (forall src dst err, ECopy src dst err ∉ tr) -> copies tr = [].
Proof.
  induction tr as [|e tr IH]; [reflexivity|]. intros Hno.
  assert (Htl : copies tr = []).
  { apply IH. intros src dst err Hin.
    apply (Hno src dst err). now apply list_elem_of_further. }
  destruct e as [| | | | |src dst err|]; try exact Htl.
  exfalso. eapply Hno. apply list_elem_of_here.
Qed.

Lemma copies_setup (tr : list event) : Forall setup_event tr -> copies tr = [].
Proof.
  intros Hall. apply copies_none. intros src dst err Hin.
  rewrite Forall_forall in Hall. exact (Hall _ Hin).
Qed.

Lemma copies_spawn_or_print (tr : list event) :
  Forall spawn_or_print tr -> copies tr = [].
Proof.
  intros Hall. apply copies_none. intros src dst err.
  now apply spawn_or_print_no_copy.
Qed.

Lemma spawned_spawn_free (tr : list event) :
  Forall staging_event tr -> spawned tr = [].
Proof. apply spawned_staging. Qed.

(** The installations, on a machine that lets them succeed. *)
Lemma installed_run (w we : W) :
  installed w we ->
  exists te,
    ensure_targets w = (Ok true, we, te)
    /\ spawned te = [(rustup_cmd x64, Exited 0); (rustup_cmd arm64, Exited 0)]
    /\ Forall setup_event te.
Proof.
  intros (_ & wa & H1 & H2).
  pose proof (run_command_run (rustup_cmd x64) None None w wa (Exited 0) H1)
    as R1.
  pose proof (run_command_run (rustup_cmd arm64) None None wa we (Exited 0) H2)
    as R2.
  cbn [runner_result runner_diagnostic Z.eqb] in R1, R2.
  assert (He : ensure_targets w
               = (Ok true, we,
                  EPrint (nl +:+ "Ensuring Rust targets are installed...")
                  :: ([running_line (rustup_cmd x64);
                       ESpawn (rustup_cmd x64) os_environ PROJECT_DIR (Exited 0)]
                      ++ [running_line (rustup_cmd arm64);
                          ESpawn (rustup_cmd arm64) os_environ PROJECT_DIR
                            (Exited 0)] ++ []))%list).
  { unfold ensure_targets. rewrite TARGETS_eq. cbn [ensure_targets_loop].
    unfold bind at 1, print.
    change ["rustup"; "target"; "add"; triple x64] with (rustup_cmd x64).
    change ["rustup"; "target"; "add"; triple arm64] with (rustup_cmd arm64).
    rewrite (bind_ok _ _ _ _ _ _ R1). cbn [negb].
    rewrite (bind_ok _ _ _ _ _ _ R2). cbn [negb]. reflexivity. }
  eexists. split; [exact He|]. split; [reflexivity|].
  destruct (ensure_targets_spec _ _ _ _ He) as [Hev _].
  now apply install_setup.
Qed.

(** [main] on a machine that lets the installations succeed: the rest
    of the branch runs from the state the installations left. *)
Lemma main_after_install (args : Args) (w we : W) :
  installed w we ->
  exists pre,
    spawned pre = [(rustup_cmd x64, Exited 0); (rustup_cmd arm64, Exited 0)]
    /\ Forall setup_event pre
    /\ forall ra wa ta,
         after_install args we = (ra, wa, ta) ->
         main args w = (ra, wa, (pre ++ ta ++ done_trace ra)%list).
Proof.
  intros Hinst. destruct (installed_run _ _ Hinst) as (te & He & Hsp & Hev).
  destruct Hinst as [Hpre _].
  pose proof (banner_trace_prints args w) as Hb.
  pose proof (check_prerequisites_quiet w) as Hq.
  destruct (main_inv args w) as (tp & Hp & Hcases).
  rewrite Hp in Hq. cbn [trace_of snd] in Hq.
  destruct Hcases as [(Hf & _)|(_ & re & we' & te' & He' & Hcases)];
    [congruence|].
  rewrite He in He'. injection He' as <- <- <-.
  destruct Hcases as [([=] & _)|[(e & [=] & _)|(_ & ra & wa & ta & Ha & Hmain)]].
  exists (banner_trace args w ++ tp ++ te)%list. split; [|split].
  - now rewrite !spawned_app, (spawned_prints _ Hb), (spawned_probes _ Hq), Hsp.
  - apply Forall_app. split; [now apply prints_setup|].
    apply Forall_app. split; [now apply probes_setup|exact Hev].
  - intros ra' wa' ta' Ha'. rewrite Ha in Ha'. injection Ha' as <- <- <-.
    rewrite Hmain. now rewrite <- !app_assoc.
Qed.

(** One build, by the answer of the machine. *)
Lemma build_answer_run (name : string) (t : Target) (jobs : option Z)
    (w w' : W) (out : spawn_outcome) :
  assoc TARGETS name = Some t ->
  build_answer name jobs w = Some (out, w') ->
  exists tr,
    build_target name jobs w = (runner_result out, w', tr)
    /\ spawned tr = [(build_cmd t jobs, out)]
    /\ Forall spawn_or_print tr.
Proof.
  intros Ht. unfold build_answer. rewrite Ht.
  destruct (get_env_for_target os_environ name) as [env0|e|c] eqn:Henv;
    try discriminate.
  intros [= Hs]. eexists.
  split; [apply (build_target_run _ _ _ _ _ _ _ Ht Henv Hs)|]. split.
  - apply (spawned_run_command (build_banner name t jobs)), build_banner_prints.
  - apply Forall_app. split;
      [apply prints_spawn_or_print, build_banner_prints|].
    repeat (apply Forall_cons; split; [exact I|]).
    apply prints_spawn_or_print, runner_diagnostic_prints.
Qed.

Lemma build_all_loop_two (jobs : option Z) (w : W) :
  build_all_loop (map fst TARGETS) jobs [] w
  = (let* b1 := build_target "x64" jobs in
     let* b2 := build_target "arm64" jobs in
     ret [("x64", b1); ("arm64", b2)]) w.
Proof. rewrite TARGETS_eq. reflexivity. Qed.

(** The rest of the [build-all] branch when the first build raises. *)
Lemma build_all_first_raises (target : TargetChoice) (jobs : option Z)
    (we w1 : W) (e : exn) (t1 : list event) :
  build_target "x64" jobs we = (Raise e, w1, t1) ->
  after_install (mkArgs BuildAll target jobs) we = (Raise e, w1, t1).
Proof.
  intros H1. unfold after_install. cbn [args_action args_jobs].
  apply bind_raise. rewrite build_all_loop_two. now apply bind_raise.
Qed.

(** ... and when the second build raises. *)
Lemma build_all_second_raises (target : TargetChoice) (jobs : option Z)
    (we w1 w2 : W) (b1 : bool) (e : exn) (t1 t2 : list event) :
  build_target "x64" jobs we = (Ok b1, w1, t1) ->
  build_target "arm64" jobs w1 = (Raise e, w2, t2) ->
  after_install (mkArgs BuildAll target jobs) we
  = (Raise e, w2, (t1 ++ t2)%list).
Proof.
  intros H1 H2. unfold after_install. cbn [args_action args_jobs].
  apply bind_raise. rewrite build_all_loop_two.
  rewrite (bind_ok _ _ _ _ _ _ H1).
  now rewrite (bind_raise _ _ _ _ _ _ H2).
Qed.

(** ... and when both builds return: the summary starts in the state
    the second build left. *)
Lemma build_all_both_return (target : TargetChoice) (jobs : option Z)
    (we w1 w2 w3 : W) (b1 b2 : bool) (t1 t2 t3 : list event)
    (rs : result bool) :
  build_target "x64" jobs we = (Ok b1, w1, t1) ->
  build_target "arm64" jobs w1 = (Ok b2, w2, t2) ->
  summary_loop [("x64", b1); ("arm64", b2)] true w2 = (rs, w3, t3) ->
  after_install (mkArgs BuildAll target jobs) we
  = (match rs with
     | Ok true => Ok tt
     | Ok false => SysExit 1
     | Raise e => Raise e
     | SysExit c => SysExit c
     end, w3,
     (t1 ++ t2
      ++ [EPrint (nl +:+ rule); EPrint "Build Summary"; EPrint rule]
      ++ t3)%list).
Proof.
  intros H1 H2 Hs. unfold after_install. cbn [args_action args_jobs].
  assert (Hb : build_all_loop (map fst TARGETS) jobs [] we
               = (Ok [("x64", b1); ("arm64", b2)], w2, (t1 ++ t2)%list)).
  { rewrite build_all_loop_two. rewrite (bind_ok _ _ _ _ _ _ H1).
    rewrite (bind_ok _ _ _ _ _ _ H2). cbn. now rewrite app_nil_r. }
  rewrite (bind_ok _ _ _ _ _ _ Hb).
  unfold bind, print. rewrite Hs.
  destruct rs as [[|]|e|c]; cbn; rewrite <- ?app_assoc, ?app_nil_r; reflexivity.
Qed.

(** Staging, by the answers of the machine. *)
Lemma copy_to_output_staged (name : string) (path : Path) (w w1 ws : W) :
  get_build_output_path name = Ok path ->
  os_exists w path = true ->
  os_mkdir w OUTPUT_DIR = (None, w1) ->
  os_copy2 w1 path (get_final_output_path name) = (None, ws) ->
  copy_to_output name w
  = (Ok (Some (get_final_output_path name)), ws,
     [EExists path true; EMkdir OUTPUT_DIR None;
      copying_line path (get_final_output_path name);
      ECopy path (get_final_output_path name) None]).
Proof.
  intros Hpath Hex Hmk Hcp. unfold copy_to_output. rewrite Hpath.
  unfold bind, lift, exists_, mkdir, copy2, print, ret.
  rewrite Hex. cbn. rewrite Hmk. cbn. rewrite Hcp. reflexivity.
Qed.

Lemma copy_to_output_absent (name : string) (path : Path) (w : W) :
  get_build_output_path name = Ok path ->
  os_exists w path = false ->
  copy_to_output name w
  = (Ok None, w, [EExists path false; not_found_line path]).
Proof.
  intros Hpath Hex. unfold copy_to_output. rewrite Hpath.
  unfold bind, lift, exists_, mkdir, copy2, print, ret.
  rewrite Hex. reflexivity.
Qed.

Lemma copy_to_output_mkdir_fails (name : string) (path : Path) (w ws : W)
    (what : string) :
  get_build_output_path name = Ok path ->
  os_exists w path = true ->
  os_mkdir w OUTPUT_DIR = (Some what, ws) ->
  copy_to_output name w
  = (Raise (OSError what), ws,
     [EExists path true; EMkdir OUTPUT_DIR (Some what)]).
Proof.
  intros Hpath Hex Hmk. unfold copy_to_output. rewrite Hpath.
  unfold bind, lift, exists_, mkdir, copy2, print, ret.
  rewrite Hex. cbn. rewrite Hmk. reflexivity.
Qed.

Lemma copy_to_output_copy_fails (name : string) (path : Path) (w w1 ws : W)
    (what : string) :
  get_build_output_path name = Ok path ->
  os_exists w path = true ->
  os_mkdir w OUTPUT_DIR = (None, w1) ->
  os_copy2 w1 path (get_final_output_path name) = (Some what, ws) ->
  copy_to_output name w
  = (Raise (OSError what), ws,
     [EExists path true; EMkdir OUTPUT_DIR None;
      copying_line path (get_final_output_path name);
      ECopy path (get_final_output_path name) (Some what)]).
Proof.
  intros Hpath Hex Hmk Hcp. unfold copy_to_output. rewrite Hpath.
  unfold bind, lift, exists_, mkdir, copy2, print, ret.
  rewrite Hex. cbn. rewrite Hmk. cbn. rewrite Hcp. reflexivity.
Qed.

(** One round of the summary on a machine that lets it end: the loop
    goes on from the state the round left, with the verdict so far. *)
Lemma summary_round (name : string) (c : Z) (w ws : W) (s : bool) :
  round name c w ws s ->
  exists tr,
    spawned tr = []
    /\ copies tr = (if s then copy_of name else [])
    /\ forall rest acc,
         summary_loop ((name, c =? 0) :: rest) acc w
         = (result_of (summary_loop rest (acc && s) ws),
            world_of (summary_loop rest (acc && s) ws),
            (tr ++ trace_of (summary_loop rest (acc && s) ws))%list).
Proof.
  intros [(-> & (path & w1 & size & Hp & Hex & Hmk & Hcp & Hst) & ->)
         |[(-> & (path & Hp & Hex) & -> & ->)|(Hc & -> & ->)]].
  - pose proof (copy_to_output_staged _ _ _ _ _ Hp Hex Hmk Hcp) as Hcopy.
    exists ([EExists path true; EMkdir OUTPUT_DIR None;
             copying_line path (get_final_output_path name);
             ECopy path (get_final_output_path name) None]
            ++ [EStat (get_final_output_path name) (Some size);
                EPrint ("  " +:+ name +:+ ": "
                        +:+ PathOps.to_str (get_final_output_path name)
                        +:+ " (" +:+ fmt_mb size +:+ " MB)")])%list.
    split; [reflexivity|]. split; [unfold copy_of; now rewrite Hp|].
    intros rest acc. cbn [summary_loop Z.eqb].
    rewrite (bind_ok _ _ _ _ _ _ Hcopy). rewrite andb_true_r.
    unfold bind, stat_size, print. rewrite Hst.
    destruct (summary_loop rest acc ws) as [[r w'] t]. reflexivity.
  - pose proof (copy_to_output_absent _ _ _ Hp Hex) as Hcopy.
    exists [EExists path false; not_found_line path;
            EPrint ("  " +:+ name +:+ ": FAILED to copy")].
    split; [reflexivity|]. split; [reflexivity|].
    intros rest acc. cbn [summary_loop Z.eqb].
    rewrite (bind_ok _ _ _ _ _ _ Hcopy). rewrite andb_false_r.
    unfold bind, print.
    destruct (summary_loop rest false w) as [[r w'] t]. reflexivity.
  - exists [EPrint ("  " +:+ name +:+ ": FAILED to build")].
    split; [reflexivity|]. split; [reflexivity|].
    intros rest acc. cbn [summary_loop]. apply Z.eqb_neq in Hc. rewrite Hc.
    rewrite andb_false_r. unfold bind, print.
    destruct (summary_loop rest false w) as [[r w'] t]. reflexivity.
Qed.

(** One round of the summary on a machine that makes the staging fail:
    the loop ends there, and the only copy that may have succeeded is
    the one of this round. *)
Lemma summary_round_fails (name : string) (w ws : W) (e : exn) :
  staging_fails name w ws e ->
  exists tr,
    spawned tr = []
    /\ (copies tr = [] \/ copies tr = copy_of name)
    /\ forall rest acc,
         summary_loop ((name, true) :: rest) acc w = (Raise e, ws, tr).
Proof.
  intros (path & Hp & Hex
          & [(what & Hmk & ->)
            |[(w1 & what & Hmk & Hcp & ->)|(w1 & Hmk & Hcp & Hst & ->)]]).
  - pose proof (copy_to_output_mkdir_fails _ _ _ _ _ Hp Hex Hmk) as Hcopy.
    eexists. split; [|split; [|intros rest acc; cbn [summary_loop];
                               apply (bind_raise _ _ _ _ _ _ Hcopy)]];
      [reflexivity|now left].
  - pose proof (copy_to_output_copy_fails _ _ _ _ _ _ Hp Hex Hmk Hcp) as Hcopy.
    eexists. split; [|split; [|intros rest acc; cbn [summary_loop];
                               apply (bind_raise _ _ _ _ _ _ Hcopy)]];
      [reflexivity|now left].
  - pose proof (copy_to_output_staged _ _ _ _ _ Hp Hex Hmk Hcp) as Hcopy.
    exists ([EExists path true; EMkdir OUTPUT_DIR None;
             copying_line path (get_final_output_path name);
             ECopy path (get_final_output_path name) None]
            ++ [EStat (get_final_output_path name) None])%list.
    split; [reflexivity|]. split; [right; unfold copy_of; now rewrite Hp|].
    intros rest acc. cbn [summary_loop].
    rewrite (bind_ok _ _ _ _ _ _ Hcopy).
    unfold bind, stat_size. rewrite Hst. reflexivity.
Qed.

End BuildAllRuns.

Section BuildAllClaim.

Context {W : Type} `{Host W}.

Lemma summary_items_registered (b1 b2 : bool) (name : string) (b : bool) :
  (name, b) ∈ [("x64", b1); ("arm64", b2)] ->
  exists t, assoc TARGETS name = Some t.
Proof.
  intros Hin.
  apply elem_of_cons in Hin as [[= -> _]|Hin]; [now exists x64|].
  apply elem_of_cons in Hin as [[= -> _]|Hin]; [now exists arm64|].
  now apply elem_of_nil in Hin.
Qed.

(** C1, amended. A [build-all] run on a machine that passes the
    prerequisite check and lets both installations succeed, told by what
    the machine answers to each call.

    [cargo build] is started for x64 in the state the installations
    left.  Whatever status it ends with, [cargo build] is then started
    for arm64 in the state the first build left, and these two builds
    and the two installations are all the children of the run, in this
    order.  When both builds have ended, whatever their statuses, the
    summary takes the targets in the order of the table, starting in
    the state the second build left: the executable of a target whose
    build ended with status zero is looked for and, when it is there,
    copied to its staged path, and a target whose build ended with
    another status is not staged.  The copies made are exactly those of
    the targets that were built with status zero and whose executable
    was there; the run exits with status [0] when every target was
    staged and calls [sys.exit(1)] otherwise; and the machine is left in
    the state the last staging left it in.

    An exception ends the run at once.  When [cargo build] for x64
    cannot be started, no build is started for arm64 and nothing is
    copied.  When the host environment has no [PATH], the x64 build is
    run, no build is started for arm64, and the x64 executable is not
    copied even if its build ended with status zero.  When [cargo
    build] for arm64 cannot be started, nothing is copied.  When the
    staging of x64 fails (the directory, the copy or the [stat]), the
    arm64 executable is not copied even if its build ended with status
    zero.

    Told by the events of the run, for every [build-all] run: when it
    gets past the prerequisite check and the installations and no
    exception cuts it short, [cargo build] was run for every registered
    target and the executable of every target built with status zero
    was looked for and, when there, copied; the exit status is [0] only
    if every registered target was built with status zero and staged; a
    build that ended with another status, or an expected executable
    that was not found, makes the exit status [1]; and the exit status
    is never anything but [0] or [1]. *)
Theorem build_all_visits_every_target (w : W) (target : TargetChoice)
    (jobs : option Z) :
  let run := main (mkArgs BuildAll target jobs) w in
  let installs := [(rustup_cmd x64, Exited 0); (rustup_cmd arm64, Exited 0)] in
  (forall we o1 w1,
      installed w we ->
      build_answer "x64" jobs we = Some (o1, w1) ->
      (forall what,
          o1 = NotStarted what ->
          result_of run = Raise (OSError what)
          /\ world_of run = w1
          /\ spawned (trace_of run)
             = (installs ++ [(build_cmd x64 jobs, o1)])%list
          /\ copies (trace_of run) = [])
      /\ forall c1,
           o1 = Exited c1 ->
           (os_environ !! "PATH" = None ->
            result_of run = Raise (KeyError "PATH")
            /\ world_of run = w1
            /\ spawned (trace_of run)
               = (installs ++ [(build_cmd x64 jobs, o1)])%list
            /\ copies (trace_of run) = [])
           /\ forall o2 w2,
                build_answer "arm64" jobs w1 = Some (o2, w2) ->
                spawned (trace_of run)
                = (installs ++ [(build_cmd x64 jobs, o1);
                                (build_cmd arm64 jobs, o2)])%list
                /\ (forall what,
                      o2 = NotStarted what ->
                      result_of run = Raise (OSError what)
                      /\ world_of run = w2
                      /\ copies (trace_of run) = [])
                /\ forall c2,
                     o2 = Exited c2 ->
                     (forall w3 w4 s1 s2,
                         round "x64" c1 w2 w3 s1 ->
                         round "arm64" c2 w3 w4 s2 ->
                         result_of run
                         = (if s1 && s2 then Ok tt else SysExit 1)
                         /\ world_of run = w4
                         /\ copies (trace_of run)
                            = ((if s1 then copy_of "x64" else [])
                               ++ (if s2 then copy_of "arm64" else []))%list)
                     /\ (forall ws e,
                           c1 = 0 ->
                           staging_fails "x64" w2 ws e ->
                           result_of run = Raise e
                           /\ world_of run = ws
                           /\ (copies (trace_of run) = []
                               \/ copies (trace_of run) = copy_of "x64"))
                     /\ (forall w3 s1 ws e,
                           round "x64" c1 w2 w3 s1 ->
                           c2 = 0 ->
                           staging_fails "arm64" w3 ws e ->
                           result_of run = Raise e
                           /\ world_of run = ws))
  /\ (prereq_ok w = true ->
      result_of (ensure_targets w) = Ok true ->
      (forall e, result_of run <> Raise e) ->
      forall name t, (name, t) ∈ TARGETS ->
        exists c, built jobs (trace_of run) name c
                  /\ (c = 0 -> staging_attempted name (trace_of run)))
  /\ (exit_status (result_of run) = 0 ->
      forall name t, (name, t) ∈ TARGETS ->
        built jobs (trace_of run) name 0 /\ staged name (trace_of run))
  /\ (forall name c,
        built jobs (trace_of run) name c -> c <> 0 ->
        exit_status (result_of run) = 1)
  /\ (forall name path,
        get_build_output_path name = Ok path ->
        EExists path false ∈ trace_of run ->
        exit_status (result_of run) = 1)
  /\ (exit_status (result_of run) = 0 \/ exit_status (result_of run) = 1).
Proof.
  intros run installs. split; [|exact (build_all_exit_facts w target jobs)].
  intros we o1 w1 Hinst H1. subst run installs.
  destruct (main_after_install (mkArgs BuildAll target jobs) w we Hinst)
    as (pre & Hsp & Hset & Hmain).
  pose proof (copies_setup _ Hset) as Hcp.
  destruct (build_answer_run "x64" x64 jobs we w1 o1 eq_refl H1)
    as (t1 & B1 & S1 & E1).
  pose proof (copies_spawn_or_print _ E1) as C1.
  split.
  { intros what ->. cbn [runner_result] in B1.
    rewrite (Hmain _ _ _ (build_all_first_raises target _ _ _ _ _ B1)).
    cbn [result_of world_of trace_of fst snd done_trace].
    rewrite app_nil_r, spawned_app, copies_app, Hsp, S1, Hcp, C1.
    now repeat split. }
  intros c1 ->. cbn [runner_result] in B1. split.
  { intros Hpath.
    pose proof (build_target_raise "arm64" arm64 jobs _ w1 eq_refl
                  (get_env_arm64_no_path _ Hpath)) as B2.
    rewrite (Hmain _ _ _ (build_all_second_raises target _ _ _ _ _ _ _ _ B1 B2)).
    cbn [result_of world_of trace_of fst snd done_trace].
    pose proof (build_banner_prints "arm64" arm64 jobs) as Hban.
    rewrite app_nil_r, !spawned_app, !copies_app, Hsp, S1, Hcp, C1,
      (spawned_prints _ Hban),
      (copies_spawn_or_print _ (prints_spawn_or_print _ Hban)).
    now repeat split. }
  intros o2 w2 H2.
  destruct (build_answer_run "arm64" arm64 jobs w1 w2 o2 eq_refl H2)
    as (t2 & B2 & S2 & E2).
  pose proof (copies_spawn_or_print _ E2) as C2.
  destruct o2 as [c2|what2]; cbn [runner_result] in B2.
  2:{ rewrite (Hmain _ _ _ (build_all_second_raises target _ _ _ _ _ _ _ _ B1 B2)).
      cbn [result_of world_of trace_of fst snd done_trace].
      rewrite app_nil_r, !spawned_app, !copies_app, Hsp, S1, S2, Hcp, C1, C2.
      split; [reflexivity|]. split.
      - intros what [= <-]. now repeat split.
      - intros c2 [=]. }
  destruct (summary_loop [("x64", c1 =? 0); ("arm64", c2 =? 0)] true w2)
    as [[rs w3] t3] eqn:Hs.
  pose proof (build_all_both_return target _ _ _ _ _ _ _ _ _ _ _ B1 B2 Hs) as Ha.
  destruct (summary_loop_spec _ _ _ _ _ _ (summary_items_registered _ _) Hs)
    as (Hev3 & _).
  assert (Hdone : forall r : result unit, spawned (done_trace r) = []
                                          /\ copies (done_trace r) = [])
    by (intros []; now split).
  assert (Hcopies : copies (trace_of (main (mkArgs BuildAll target jobs) w))
                    = copies t3).
  { rewrite (Hmain _ _ _ Ha). cbn [trace_of snd].
    rewrite !copies_app, Hcp, C1, C2, (proj2 (Hdone _)), app_nil_r.
    reflexivity. }
  split.
  { rewrite (Hmain _ _ _ Ha). cbn [trace_of snd].
    rewrite !spawned_app, Hsp, S1, S2, (spawned_staging _ Hev3),
      (proj1 (Hdone _)).
    reflexivity. }
  split; [intros what [=]|]. intros c2' [= <-].
  split; [|split].
  - intros w3' w4 s1 s2 R1 R2.
    destruct (summary_round _ _ _ _ _ R1) as (tr1 & _ & Cp1 & Eq1).
    destruct (summary_round _ _ _ _ _ R2) as (tr2 & _ & Cp2 & Eq2).
    rewrite Eq1, Eq2 in Hs. cbn in Hs. injection Hs as <- <- <-.
    rewrite Hcopies, !copies_app, Cp1, Cp2, app_nil_r.
    rewrite (Hmain _ _ _ Ha). cbn [result_of world_of fst snd].
    split; [now destruct s1, s2|]. now split.
  - intros ws e -> F1.
    destruct (summary_round_fails _ _ _ _ F1) as (tr1 & _ & Cp1 & Eq1).
    cbn [Z.eqb] in Hs. rewrite Eq1 in Hs. injection Hs as <- <- <-.
    rewrite Hcopies. rewrite (Hmain _ _ _ Ha). cbn [result_of world_of fst snd].
    split; [reflexivity|]. split; [reflexivity|exact Cp1].
  - intros w3' s1 ws e R1 -> F2.
    destruct (summary_round _ _ _ _ _ R1) as (tr1 & _ & Cp1 & Eq1).
    destruct (summary_round_fails _ _ _ _ F2) as (tr2 & _ & Cp2 & Eq2).
    cbn [Z.eqb] in Hs. rewrite Eq1, Eq2 in Hs. cbn in Hs.
    injection Hs as <- <- <-.
    rewrite (Hmain _ _ _ Ha). cbn [result_of world_of fst snd]. now split.
Qed.

End BuildAllClaim.

(** C1, as stated, fails: on a machine whose environment has no [PATH],
    the x64 build ends with status zero and leaves its executable, then
    the derivation of the arm64 environment raises [KeyError]; no build
    is started for arm64, and the x64 executable is never copied. *)
Lemma build_all_visits_every_target_counterexample :
  result_of (main (H := Toy.host pathless_machine)
               (mkArgs BuildAll X64 None) [Toy.clang])
  = Raise (KeyError "PATH")
  /\ spawned (trace_of (main (H := Toy.host pathless_machine)
                          (mkArgs BuildAll X64 None) [Toy.clang]))
     = [(["rustup"; "target"; "add"; "x86_64-pc-windows-gnu"], Exited 0);
        (["rustup"; "target"; "add"; "aarch64-pc-windows-gnullvm"], Exited 0);
        (["cargo"; "build"; "--release"; "--target"; "x86_64-pc-windows-gnu";
          "-j"; "8"], Exited 0)]
  /\ Toy.has (world_of (main (H := Toy.host pathless_machine)
                          (mkArgs BuildAll X64 None) [Toy.clang]))
       (Toy.artifact "x86_64-pc-windows-gnu") = true
  /\ copies (trace_of (main (H := Toy.host pathless_machine)
                         (mkArgs BuildAll X64 None) [Toy.clang])) = []
  /\ Toy.has (world_of (main (H := Toy.host pathless_machine)
                          (mkArgs BuildAll X64 None) [Toy.clang]))
       (PathOps.parse "/mnt/c/code/htop-win-x64.exe") = false.
Proof. vm_compute. repeat split. Qed.

Lemma build_all_visits_every_target_witness :
  result_of (main (H := Toy.host arm64_fails_machine)
               (mkArgs BuildAll X64 None) [Toy.clang])
  = (if true && false then Ok tt else SysExit 1)
  /\ world_of (main (H := Toy.host arm64_fails_machine)
                 (mkArgs BuildAll X64 None) [Toy.clang])
     = [Toy.clang; Toy.artifact "x86_64-pc-windows-gnu";
        PathOps.parse "/mnt/c/code/htop-win-x64.exe"]
  /\ copies (trace_of (main (H := Toy.host arm64_fails_machine)
                         (mkArgs BuildAll X64 None) [Toy.clang]))
     = ((if true then copy_of (H := Toy.host arm64_fails_machine) "x64" else [])
        ++ (if false then copy_of (H := Toy.host arm64_fails_machine) "arm64"
            else []))%list.
Proof.
  refine (proj1 (proj2 (proj2 (proj2 (proj2
            (proj1 (build_all_visits_every_target
                      (H := Toy.host arm64_fails_machine)
                      [Toy.clang] X64 None)
               [Toy.clang] (Exited 0)
               [Toy.clang; Toy.artifact "x86_64-pc-windows-gnu"] _ _)
            0 eq_refl)
            (Exited 101) [Toy.clang; Toy.artifact "x86_64-pc-windows-gnu"] _))
            101 eq_refl)
            [Toy.clang; Toy.artifact "x86_64-pc-windows-gnu";
             PathOps.parse "/mnt/c/code/htop-win-x64.exe"]
            [Toy.clang; Toy.artifact "x86_64-pc-windows-gnu";
             PathOps.parse "/mnt/c/code/htop-win-x64.exe"]
            true false _ _).
  - split; [reflexivity|]. exists [Toy.clang]. split; vm_compute; reflexivity.
  - vm_compute. reflexivity.
  - vm_compute. reflexivity.
  - left. split; [reflexivity|]. split; [|reflexivity].
    exists (Toy.artifact "x86_64-pc-windows-gnu"),
           [Toy.clang; Toy.artifact "x86_64-pc-windows-gnu"], 1048576.
    repeat split; vm_compute; reflexivity.
  - right. right. split; [discriminate|]. now split.
Defined.
